(** * ckeygen: the key-file lifecycle of [twisted.conch.scripts.ckeygen]

    A shallow embedding of [src/twisted/conch/scripts/ckeygen.py].  The
    script is a sequence of prompts, library calls and file writes, so
    it is embedded in a state-and-exception monad over an explicit world
    (options dictionary, file system, the two input streams) that also
    emits the list of external interactions of a run. *)

From stdpp Require Import base option list strings gmap pretty.
From Stdlib Require Import ZArith Ascii String Lia.

Local Open Scope Z_scope.
Local Open Scope string_scope.
Local Open Scope list_scope.

(** ** Python values *)

(** [keys.FingerprintFormats], the two named constants the script uses. *)
Inductive FingerprintFormats := MD5_HEX | SHA256_BASE64.

(** The values stored in the options dictionary: the option parser puts
    [None] or text there, flags are the integers 0 and 1, and the script
    itself stores an integer ([bits]), an empty bytes object ([pass])
    and a fingerprint constant ([format]). *)
Inductive pyval :=
| PNone
| PStr (s : string)
| PBytes (s : string)
| PInt (z : Z)
| PFmt (f : FingerprintFormats).

#[global] Instance FingerprintFormats_eq_dec : EqDecision FingerprintFormats.
Proof. solve_decision. Defined.

#[global] Instance pyval_eq_dec : EqDecision pyval.
Proof. solve_decision. Defined.

(** Python truth value: [None], empty text, empty bytes and 0 are false. *)
Definition truthy (v : pyval) : bool :=
  match v with
  | PNone => false
  | PStr s | PBytes s => negb (String.eqb s "")
  | PInt z => negb (Z.eqb z 0)
  | PFmt _ => true
  end.

Definition FingerprintFormats_name (f : FingerprintFormats) : string :=
  match f with MD5_HEX => "MD5_HEX" | SHA256_BASE64 => "SHA256_BASE64" end.

(** [str(v)].  For text it is the text itself and for an integer its
    decimal numeral; a named constant prints as
    [<FingerprintFormats=NAME>].  The [repr] of a bytes object is
    rendered without its escape sequences. *)
Definition py_str (v : pyval) : string :=
  match v with
  | PNone => "None"
  | PStr s => s
  | PBytes s => "b'" +:+ s +:+ "'"
  | PInt z => pretty z
  | PFmt f => "<FingerprintFormats=" +:+ FingerprintFormats_name f +:+ ">"
  end.

(** ** Text helpers *)

(** Text ([str]) is held as its UTF-8 encoding, one [ascii] for each
    byte, so that a character beyond ASCII takes two to four of them. *)

Definition ascii_lower (c : ascii) : ascii :=
  let n := nat_of_ascii c in
  if ((65 <=? n) && (n <=? 90))%nat then ascii_of_nat (n + 32) else c.

(** [s.lower()]: the letters of ASCII are lowered and every other byte
    is kept.  The script only compares the result, with ["y"] and with
    the names of the four key types; no character beyond ASCII is
    lowered to one of their letters, so the comparisons go as with
    [str.lower()]. *)
Fixpoint py_lower (s : string) : string :=
  match s with
  | EmptyString => EmptyString
  | String c r => String (ascii_lower c) (py_lower r)
  end.

(** The characters [str.strip()] removes are the white space of
    [str]: within ASCII, U+0009 to U+000D, U+001C to U+001F and the
    space; *)
Definition is_space (c : ascii) : bool :=
  let n := nat_of_ascii c in
  (((9 <=? n) && (n <=? 13)) || ((28 <=? n) && (n <=? 32)))%nat.

(** in two bytes, U+0085 ([C2 85]) and U+00A0 ([C2 A0]); *)
Definition is_space2 (c1 c2 : ascii) : bool :=
  let a := nat_of_ascii c1 in
  let b := nat_of_ascii c2 in
  ((a =? 194) && ((b =? 133) || (b =? 160)))%nat.

(** in three bytes, U+1680 ([E1 9A 80]), U+2000 to U+200A
    ([E2 80 80] to [E2 80 8A]), U+2028 and U+2029 ([E2 80 A8],
    [E2 80 A9]), U+202F ([E2 80 AF]), U+205F ([E2 81 9F]) and U+3000
    ([E3 80 80]). *)
Definition is_space3 (c1 c2 c3 : ascii) : bool :=
  let a := nat_of_ascii c1 in
  let b := nat_of_ascii c2 in
  let c := nat_of_ascii c3 in
  (((a =? 225) && (b =? 154) && (c =? 128))
   || ((a =? 226) && (b =? 128)
       && (((128 <=? c) && (c <=? 138)) || (c =? 168) || (c =? 169)
           || (c =? 175)))
   || ((a =? 226) && (b =? 129) && (c =? 159))
   || ((a =? 227) && (b =? 128) && (c =? 128)))%nat.

(** [s.lstrip()] *)
Fixpoint py_lstrip (s : string) : string :=
  match s with
  | EmptyString => EmptyString
  | String c r =>
      if is_space c then py_lstrip r
      else
        match r with
        | EmptyString => s
        | String c2 r2 =>
            if is_space2 c c2 then py_lstrip r2
            else
              match r2 with
              | EmptyString => s
              | String c3 r3 => if is_space3 c c2 c3 then py_lstrip r3 else s
              end
        end
  end.

Definition reversed (s : string) : string :=
  string_of_list_ascii (List.rev (list_ascii_of_string s)).

(** The same on a text read backwards, where the last byte of a
    character comes first. *)
Fixpoint lstrip_reversed (s : string) : string :=
  match s with
  | EmptyString => EmptyString
  | String c r =>
      if is_space c then lstrip_reversed r
      else
        match r with
        | EmptyString => s
        | String c2 r2 =>
            if is_space2 c2 c then lstrip_reversed r2
            else
              match r2 with
              | EmptyString => s
              | String c3 r3 =>
                  if is_space3 c3 c2 c then lstrip_reversed r3 else s
              end
        end
  end.

(** [s.rstrip()] *)
Definition py_rstrip (s : string) : string :=
  reversed (lstrip_reversed (reversed s)).

(** [s.strip()] *)
Definition py_strip (s : string) : string := py_rstrip (py_lstrip s).

(** [posixpath.basename], which is [os.path.basename] on a POSIX
    platform: what follows the last slash. *)
Fixpoint basename_from (s acc : string) : string :=
  match s with
  | EmptyString => acc
  | String c r =>
      if Ascii.eqb c "/" then basename_from r ""
      else basename_from r (acc +:+ String c "")
  end.

Definition basename (s : string) : string := basename_from s "".

Definition digit_value (c : ascii) : option Z :=
  let n := nat_of_ascii c in
  if ((48 <=? n) && (n <=? 57))%nat then Some (Z.of_nat n - 48) else None.

(** Digits of a numeral, with single underscores allowed between two
    digits; [acc] is the value read so far and [prev] tells whether the
    previous character was a digit. *)
Fixpoint parse_digits (s : string) (acc : Z) (prev : bool) : option Z :=
  match s with
  | EmptyString => if prev then Some acc else None
  | String c r =>
      match digit_value c with
      | Some d => parse_digits r (10 * acc + d) true
      | None =>
          if Ascii.eqb c "_" && prev then parse_digits r acc false else None
      end
  end.

(** The blanks [int] skips around a numeral: within ASCII they are
    those of C ([\t], [\n], [\v], [\f], [\r] and the space), fewer than
    [str.strip()] removes. *)
Definition is_c_space (c : ascii) : bool :=
  let n := nat_of_ascii c in
  (((9 <=? n) && (n <=? 13)) || (n =? 32))%nat.

Fixpoint c_lstrip (s : string) : string :=
  match s with
  | EmptyString => EmptyString
  | String c r => if is_c_space c then c_lstrip r else s
  end.

Fixpoint c_rstrip (s : string) : string :=
  match s with
  | EmptyString => EmptyString
  | String c r =>
      let r' := c_rstrip r in
      if is_c_space c && String.eqb r' "" then EmptyString else String c r'
  end.

Fixpoint count_digits (s : string) : nat :=
  match s with
  | EmptyString => 0
  | String c r =>
      match digit_value c with
      | Some _ => S (count_digits r)
      | None => count_digits r
      end
  end.

(** [int] of ASCII text or of bytes, in base ten: surrounding blanks,
    an optional sign, then the digits.  A numeral of more than 640
    digits is refused when it has more digits than [limit], the value
    of [sys.get_int_max_str_digits()], which is 0 when the interpreter
    has no such limit. *)
Definition int_of_ascii (limit : nat) (s : string) : option Z :=
  let numeral := c_rstrip (c_lstrip s) in
  let digits := count_digits numeral in
  if ((640 <? digits) && (0 <? limit) && (limit <? digits))%nat then None
  else
    match numeral with
    | String "-" r => Z.opp <$> parse_digits r 0 false
    | String "+" r => parse_digits r 0 false
    | r => parse_digits r 0 false
    end.

Definition is_ascii (s : string) : bool :=
  forallb (fun c => (nat_of_ascii c <? 128)%nat) (list_ascii_of_string s).

(** The code point of a character of two, three or four bytes. *)
Definition code_point2 (c1 c2 : ascii) : N :=
  ((N_of_ascii c1 - 192) * 64 + (N_of_ascii c2 - 128))%N.

Definition code_point3 (c1 c2 c3 : ascii) : N :=
  ((N_of_ascii c1 - 224) * 4096 + (N_of_ascii c2 - 128) * 64
   + (N_of_ascii c3 - 128))%N.

Definition code_point4 (c1 c2 c3 c4 : ascii) : N :=
  ((N_of_ascii c1 - 240) * 262144 + (N_of_ascii c2 - 128) * 4096
   + (N_of_ascii c3 - 128) * 64 + (N_of_ascii c4 - 128))%N.

(** What [int] puts for a character beyond ASCII, before [rest]: a
    space for white space, the ASCII digit of its value for a decimal
    digit of any script, and otherwise a question mark, with which the
    text ends. *)
Definition to_decimal_or_space (decimal : N -> option Z) (space : bool)
    (cp : N) (rest : string) : string :=
  if space then String " " rest
  else
    match decimal cp with
    | Some d => String (ascii_of_nat (48 + Z.to_nat d)) rest
    | None => "?"
    end.

(** [_PyUnicode_TransformDecimalAndSpaceToASCII], which [int] applies
    to a text that is not all ASCII before it reads it as a numeral;
    [decimal] is [Py_UNICODE_TODECIMAL]. *)
Fixpoint decimal_and_space_to_ascii (decimal : N -> option Z) (s : string)
  : string :=
  match s with
  | EmptyString => EmptyString
  | String c r =>
      let n := nat_of_ascii c in
      if (n <? 127)%nat then String c (decimal_and_space_to_ascii decimal r)
      else
        match r with
        | EmptyString => "?"
        | String c2 r2 =>
            if (n <? 224)%nat then
              to_decimal_or_space decimal (is_space2 c c2) (code_point2 c c2)
                (decimal_and_space_to_ascii decimal r2)
            else
              match r2 with
              | EmptyString => "?"
              | String c3 r3 =>
                  if (n <? 240)%nat then
                    to_decimal_or_space decimal (is_space3 c c2 c3)
                      (code_point3 c c2 c3)
                      (decimal_and_space_to_ascii decimal r3)
                  else
                    match r3 with
                    | EmptyString => "?"
                    | String c4 r4 =>
                        to_decimal_or_space decimal false
                          (code_point4 c c2 c3 c4)
                          (decimal_and_space_to_ascii decimal r4)
                    end
              end
        end
  end.

(** ** Exceptions *)

Inductive exn :=
| SystemExit (code : pyval)
| KeyError (key : string)
| IndexError
| EOFError
| TypeError
| ValueError
| FileNotFoundError (path : string)
| UnicodeDecodeError
| BadKeyError (msg : string)
| EncryptedKeyError (msg : string)
| BadFingerPrintFormat (msg : string)
| OtherException (name msg : string).

(** [isinstance(e, Exception)]: [SystemExit] derives from
    [BaseException] only. *)
Definition is_Exception (e : exn) : bool :=
  match e with SystemExit _ => false | _ => true end.

(** [str(e)], as the f-strings of the script print it. *)
Definition exn_str (e : exn) : string :=
  match e with
  | SystemExit c => py_str c
  | KeyError k => "'" +:+ k +:+ "'"
  | FileNotFoundError p =>
      "[Errno 2] No such file or directory: '" +:+ p +:+ "'"
  | BadKeyError m | EncryptedKeyError m | BadFingerPrintFormat m => m
  | OtherException _ m => m
  | IndexError => "string index out of range"
  | EOFError | TypeError | ValueError | UnicodeDecodeError => ""
  end.

Inductive result (A : Type) :=
| Ok (a : A)
| Raise (e : exn).
Arguments Ok {A} a.
Arguments Raise {A} e.

Definition is_Ok {A} (r : result A) : bool :=
  match r with Ok _ => true | Raise _ => false end.

(** ** The world of one invocation *)

(** A regular file: its bytes and its [st_mode]. *)
Record File := mkFile { f_data : string; f_mode : Z }.

(** What becomes of an attempt to write bytes to a path: it succeeds;
    or the file cannot be created or opened for writing, and the system
    raises with nothing changed; or the file is opened, and emptied by
    that, and the system raises once the first [n] bytes are written. *)
Inductive write_outcome :=
| Written
| Refused (e : exn)
| Torn (e : exn) (n : nat).

(** What the process inherits from its environment: the platform and
    its library, the interpreter, and the state of the disk. *)
Record Env := mkEnv {
  e_system : string;            (* platform.system() *)
  e_tilde : string -> string;   (* expansion of a path that starts with ~ *)
  e_user : string;              (* getpass.getuser() *)
  e_hostname : string;          (* socket.gethostname() *)
  e_umask : Z;                  (* the file mode creation mask *)
  (* ntpath.basename, which is os.path.basename on Windows; its
     treatment of drives and UNC prefixes is that of the interpreter *)
  e_ntpath_basename : string -> string;
  (* the value of a code point beyond ASCII as a decimal digit, by the
     Unicode tables of the interpreter (Py_UNICODE_TODECIMAL) *)
  e_decimal : N -> option Z;
  e_int_max_str_digits : nat;   (* sys.get_int_max_str_digits(), or 0 *)
  (* what becomes of writing these bytes to this path *)
  e_write : string -> string -> write_outcome;
  (* the error, if any, of changing the mode of this existing file *)
  e_chmod : string -> Z -> option exn
}.

(** [int(s)] for text: a text that is all ASCII is read as it is, any
    other after its white space and decimal digits are brought to
    ASCII. *)
Definition int_of_text (env : Env) (s : string) : option Z :=
  int_of_ascii (e_int_max_str_digits env)
    (if is_ascii s then s else decimal_and_space_to_ascii (e_decimal env) s).

(** [os.path.basename]: [ntpath]'s on Windows, [posixpath]'s
    elsewhere. *)
Definition os_path_basename (env : Env) (path : string) : string :=
  if String.eqb (e_system env) "Windows" then e_ntpath_basename env path
  else basename path.

(** The options dictionary is the one object every function of an
    invocation receives and updates in place, so it is a component of
    the state.  [w_stdin] feeds [input], [w_tty] feeds [getpass]; both
    are the lines available until end of input. *)
Record World := mkWorld {
  w_options : gmap string pyval;
  w_fs : gmap string File;
  w_stdin : list string;
  w_tty : list string;
  w_seed : N;
  w_env : Env
}.

Definition set_options (o : gmap string pyval) (w : World) : World :=
  mkWorld o (w_fs w) (w_stdin w) (w_tty w) (w_seed w) (w_env w).
Definition set_fs (fs : gmap string File) (w : World) : World :=
  mkWorld (w_options w) fs (w_stdin w) (w_tty w) (w_seed w) (w_env w).
Definition set_stdin (l : list string) (w : World) : World :=
  mkWorld (w_options w) (w_fs w) l (w_tty w) (w_seed w) (w_env w).
Definition set_tty (l : list string) (w : World) : World :=
  mkWorld (w_options w) (w_fs w) (w_stdin w) l (w_seed w) (w_env w).
Definition set_seed (n : N) (w : World) : World :=
  mkWorld (w_options w) (w_fs w) (w_stdin w) (w_tty w) n (w_env w).

(** The external interactions of a run, in order.  A prompt records the
    line that answered it ([None] at end of input); a file event records
    the mode the file has once the call returns. *)
Inductive Event :=
| EvInput (prompt : string) (reply : option string)
| EvGetpass (prompt : string) (reply : option string)
| EvPrint (line : string)
| EvGenerate (kind : string) (arg : pyval)
| EvFromFile (filename : string) (passphrase : pyval)
| EvFromString (data : string) (passphrase : pyval)
| EvToString (keyType : string) (subtype passphrase comment : pyval)
| EvSetContent (path data : string) (mode : Z)
| EvChmod (path : string) (mode : Z)
| EvWrite (path data : string) (mode : Z).

#[global] Instance Event_eq_dec : EqDecision Event.
Proof. solve_decision. Defined.

(** ** The monad *)

Definition M (A : Type) : Type := World -> result A * World * list Event.

Definition ret {A} (a : A) : M A := fun w => (Ok a, w, []).

Definition raise {A} (e : exn) : M A := fun w => (Raise e, w, []).

Definition bind {A B} (m : M A) (f : A -> M B) : M B := fun w =>
  match m w with
  | (Ok a, w1, e1) => let '(r, w2, e2) := f a w1 in (r, w2, e1 ++ e2)
  | (Raise e, w1, e1) => (Raise e, w1, e1)
  end.

(** The body of a [try]: its exception becomes a value for the handlers. *)
Definition try {A} (m : M A) : M (result A) := fun w =>
  let '(r, w1, e1) := m w in (Ok r, w1, e1).

Definition lift {A} (r : result A) : M A := fun w => (r, w, []).

Definition emit (e : Event) : M unit := fun w => (Ok tt, w, [e]).

Definition gets {A} (f : World -> A) : M A := fun w => (Ok (f w), w, []).

Definition modify (f : World -> World) : M unit := fun w => (Ok tt, f w, []).

#[global] Instance M_ret : MRet M := @ret.
#[global] Instance M_bind : MBind M := fun A B f m => bind m f.

Definition when (b : bool) (m : M unit) : M unit := if b then m else ret tt.

(** [sys.exit(code)] *)
Definition sys_exit {A} (code : pyval) : M A := raise (SystemExit code).

(** ** The options dictionary *)

(** [options[key]] *)
Definition opt_index (key : string) : M pyval := fun w =>
  match w_options w !! key with
  | Some v => (Ok v, w, [])
  | None => (Raise (KeyError key), w, [])
  end.

(** [options.get(key)] *)
Definition opt_get (key : string) : M pyval :=
  gets (fun w => default PNone (w_options w !! key)).

(** [options[key] = v] *)
Definition opt_set (key : string) (v : pyval) : M unit :=
  modify (fun w => set_options (<[key := v]> (w_options w)) w).

(** ** Terminal and standard input *)

(** [input(prompt)] *)
Definition input (prompt : string) : M string := fun w =>
  match w_stdin w with
  | [] => (Raise EOFError, w, [EvInput prompt None])
  | l :: rest => (Ok l, set_stdin rest w, [EvInput prompt (Some l)])
  end.

(** [getpass.getpass(prompt)] *)
Definition getpass (prompt : string) : M string := fun w =>
  match w_tty w with
  | [] => (Raise EOFError, w, [EvGetpass prompt None])
  | l :: rest => (Ok l, set_tty rest w, [EvGetpass prompt (Some l)])
  end.

(** [print(line)] *)
Definition print (line : string) : M unit := emit (EvPrint line).

(** ** The file system *)

(** An octal numeral, as Python writes file modes ([0o100600]). *)
Fixpoint octal_from (s : string) (acc : Z) : Z :=
  match s with
  | EmptyString => acc
  | String c r => octal_from r (8 * acc + (Z.of_nat (nat_of_ascii c) - 48))
  end.

Definition octal (s : string) : Z := octal_from s 0.

Definition S_IFREG : Z := octal "100000".

(** The mode of a file created with permission request [perm]. *)
Definition create_mode (env : Env) (perm : Z) : Z :=
  Z.lor S_IFREG (Z.ldiff perm (e_umask env)).

(** [os.path.exists(path)] *)
Definition path_exists (path : string) : M bool :=
  gets (fun w => bool_decide (is_Some (w_fs w !! path))).

(** Modelled from the spec: [FilePath.setContent] of
    [twisted.python.filepath], which is not among the sources.  It
    writes the bytes to a new file, created with the default
    permissions of the process, and moves that file onto [path]; when
    the write fails it raises the error of the system and [path] is as
    it was (the temporary file the bytes went to is not part of the
    model). *)
Definition setContent (path data : string) : M unit := fun w =>
  let mode := create_mode (w_env w) (octal "777") in
  match e_write (w_env w) path data with
  | Written =>
      (Ok tt, set_fs (<[path := mkFile data mode]> (w_fs w)) w,
       [EvSetContent path data mode])
  | Refused e | Torn e _ => (Raise e, w, [])
  end.

(** Modelled from the spec: [FilePath.chmod] of
    [twisted.python.filepath], which is [os.chmod]: the twelve
    permission bits of the file are replaced by those of [mode], unless
    the system refuses, which leaves the file as it was. *)
Definition chmod (path : string) (mode : Z) : M unit := fun w =>
  match w_fs w !! path with
  | None => (Raise (FileNotFoundError path), w, [])
  | Some f =>
      match e_chmod (w_env w) path mode with
      | Some e => (Raise e, w, [])
      | None =>
          let mode' := Z.lor S_IFREG (Z.land mode (octal "7777")) in
          (Ok tt, set_fs (<[path := mkFile (f_data f) mode']> (w_fs w)) w,
           [EvChmod path mode'])
      end
  end.

(** [with open(path, "wb") as fd: fd.write(data)]: an existing file
    keeps its mode, a new one is created with the default mode.  When
    [open] raises, the file is as it was; when the write raises, the
    file holds the bytes that were written before. *)
Definition open_wb_write (path data : string) : M unit := fun w =>
  let mode :=
    match w_fs w !! path with
    | Some f => f_mode f
    | None => create_mode (w_env w) (octal "666")
    end in
  match e_write (w_env w) path data with
  | Written =>
      (Ok tt, set_fs (<[path := mkFile data mode]> (w_fs w)) w,
       [EvWrite path data mode])
  | Refused e => (Raise e, w, [])
  | Torn e n =>
      let part := String.substring 0 n data in
      (Raise e, set_fs (<[path := mkFile part mode]> (w_fs w)) w,
       [EvWrite path part mode])
  end.

(** [os.path.expanduser]: a path that does not start with a tilde is
    returned as it is. *)
Definition expanduser (env : Env) (path : string) : string :=
  match path with
  | String "~" _ => e_tilde env path
  | _ => path
  end.

(** ** The key library *)

(** The named curves of [keys._curveTable]. *)
Inductive Curve := SECP256R1 | SECP384R1 | SECP521R1.

(** [twisted.conch.ssh.keys] and the primitives of [cryptography] are
    collaborators of the script, not part of it: the script is verified
    against this interface, for every implementation of it.  A call
    either returns or raises; key generation draws on a seed. *)
Class KeysLibrary := {
  Key : Type;
  Key_type : Key -> string;                       (* key.type() *)
  Key_size : Key -> Z;                            (* key.size() *)
  Key_public : Key -> Key;                        (* key.public() *)
  Key_fingerprint : Key -> FingerprintFormats -> string;
  (* key.toString("openssh", subtype=, passphrase=, comment=) *)
  Key_toString : Key -> pyval -> pyval -> pyval -> result string;
  (* keys.Key.fromString(data, passphrase=) *)
  Key_fromString : string -> pyval -> result Key;
  (* keys.Key(rsa.generate_private_key(key_size=, public_exponent=)) *)
  rsa_generate_private_key : Z -> Z -> N -> result Key;
  (* keys.Key(dsa.generate_private_key(key_size=)) *)
  dsa_generate_private_key : Z -> N -> result Key;
  (* keys.Key(ec.generate_private_key(curve=)) *)
  ec_generate_private_key : Curve -> N -> result Key;
  (* keys.Key(keys.Ed25519PrivateKey.generate()) *)
  Ed25519PrivateKey_generate : N -> result Key
}.

(** Modelled from the spec: [keys._curveTable], which is not among the
    sources; the curve is selected by the bit size among 256, 384 and
    521. *)
Definition _curveTable : gmap string Curve :=
  list_to_map [("ecdsa-sha2-nistp256", SECP256R1);
               ("ecdsa-sha2-nistp384", SECP384R1);
               ("ecdsa-sha2-nistp521", SECP521R1)].

Definition Curve_name (c : Curve) : string :=
  match c with
  | SECP256R1 => "secp256r1"
  | SECP384R1 => "secp384r1"
  | SECP521R1 => "secp521r1"
  end.

(** [d[key]] for a dictionary literal. *)
Definition dict_index {V} (d : gmap string V) (key : string) : M V :=
  match d !! key with
  | Some v => mret v
  | None => raise (KeyError key)
  end.

(** [int(v)] *)
Definition py_int (v : pyval) : M Z :=
  match v with
  | PInt z => mret z
  | PStr s =>
      env ← gets w_env;
      match int_of_text env s with
      | Some z => mret z
      | None => raise ValueError
      end
  | PBytes s =>
      env ← gets w_env;
      match int_of_ascii (e_int_max_str_digits env) s with
      | Some z => mret z
      | None => raise ValueError
      end
  | PNone | PFmt _ => raise TypeError
  end.

(** [s.encode("ascii")] *)
Definition encode_ascii (s : string) : M string :=
  if is_ascii s then mret s else raise (OtherException "UnicodeEncodeError" "").

(** [b.decode("ascii")] *)
Definition decode_ascii (s : string) : M string :=
  if is_ascii s then mret s else raise UnicodeDecodeError.

(** A file name taken from the options is text; the option parser
    produces nothing else, and any other value is rejected here. *)
Definition as_text (v : pyval) : M string :=
  match v with
  | PStr s => mret s
  | _ => raise TypeError
  end.

Section Script.
Context `{KeysLibrary}.

(** Modelled from the spec: [keys.Key.fromFile], which is not among the
    sources: it reads the file to bytes, failing when the file is not
    found, and deserialises them with the passphrase. *)
Definition Key_fromFile (filename : string) (passphrase : pyval) : M Key :=
  fun w =>
    (match w_fs w !! filename with
     | None => Raise (FileNotFoundError filename)
     | Some f => Key_fromString (f_data f) passphrase
     end, w, [EvFromFile filename passphrase]).

Definition fromString (data : string) (passphrase : pyval) : M Key :=
  fun w => (Key_fromString data passphrase, w, [EvFromString data passphrase]).

Definition toString (key : Key) (subtype passphrase comment : pyval)
  : M string :=
  fun w => (Key_toString key subtype passphrase comment, w,
            [EvToString (Key_type key) subtype passphrase comment]).

(** A call of a key generator: it consumes the seed. *)
Definition generate (kind : string) (arg : pyval) (gen : N -> result Key)
  : M Key :=
  fun w => (gen (w_seed w), set_seed (N.succ (w_seed w)) w,
            [EvGenerate kind arg]).

(** ** The script *)

Definition enumrepresentation : M unit :=
  fmt ← opt_index "format";
  if decide (fmt = PStr "md5-hex") then
    opt_set "format" (PFmt MD5_HEX)
  else
    fmt ← opt_index "format";
    if decide (fmt = PStr "sha256-base64") then
      opt_set "format" (PFmt SHA256_BASE64)
    else
      fmt ← opt_index "format";
      raise (BadFingerPrintFormat
               ("Unsupported fingerprint format: " +:+ py_str fmt)).

Definition _defaultPrivateKeySubtype (keyType : string) : string :=
  if String.eqb keyType "Ed25519" then "v1" else "PEM".

(** The type of [inputCollector]: a function from a prompt to a line. *)
Definition Collector := string -> M string.

(** Lines 227-229 of [_getKeyOrDefault]: the path offered when no file
    name is given. *)
Definition default_filename (env : Env) (keyTypeName : string) : string :=
  let filename := expanduser env ("~/.ssh/id_" +:+ keyTypeName) in
  if String.eqb (e_system env) "Windows"
  then expanduser env ("%HOMEPATH %\.ssh\id_" +:+ keyTypeName)
  else filename.

Definition _getKeyOrDefault (inputCollector : option Collector)
    (keyTypeName : option string) : M string :=
  let keyTypeName := default "rsa" keyTypeName in
  let inputCollector := default input inputCollector in
  filename ← opt_index "filename";
  if negb (truthy filename) then
    env ← gets w_env;
    let filename := default_filename env keyTypeName in
    reply ← inputCollector
              ("Enter file in which the key is (" +:+ filename +:+ "): ");
    mret (if String.eqb reply "" then filename else reply)
  else mret (py_str filename).

(** The [while 1] loop of [changePassPhrase] and of [_saveKey]: two
    entries are read per round, from the lines of the terminal, and the
    round is repeated when they differ.  The recursion is on the lines
    left, so the loop is total: without two agreeing entries it ends
    with the [EOFError] of [getpass]. *)
Fixpoint passphraseLoop_on (prompt : string) (tty : list string)
  : result string * list string * list Event :=
  match tty with
  | [] => (Raise EOFError, [], [EvGetpass prompt None])
  | p1 :: tty1 =>
      match tty1 with
      | [] => (Raise EOFError, [],
               [EvGetpass prompt (Some p1);
                EvGetpass "Enter same passphrase again: " None])
      | p2 :: rest =>
          let asked := [EvGetpass prompt (Some p1);
                        EvGetpass "Enter same passphrase again: " (Some p2)] in
          if String.eqb p1 p2 then (Ok p1, rest, asked)
          else
            let '(r, tty', evs) := passphraseLoop_on prompt rest in
            (r, tty',
             asked ++ EvPrint "Passphrases do not match.  Try again." :: evs)
      end
  end.

Definition passphraseLoop (prompt : string) : M string := fun w =>
  let '(r, tty', evs) := passphraseLoop_on prompt (w_tty w) in
  (r, set_tty tty' w, evs).

(** The longer functions are written block by block, each block named,
    in the order of the source. *)

(** [printFingerprint], lines 242-255: the [try] block. *)
Definition show_fingerprint (filename : string) : M unit :=
  loaded ← try (Key_fromFile filename PNone);
  match loaded : result Key with
  | Ok key =>
      fmt ← opt_index "format";
      match fmt with
      | PFmt f =>
          env ← gets w_env;
          print (pretty (Key_size key) +:+ " " +:+ Key_fingerprint key f
                 +:+ " " +:+ os_path_basename env filename)
      | _ => raise (BadFingerPrintFormat
                      ("Unsupported fingerprint format: " +:+ py_str fmt))
      end
  | Raise (BadKeyError _) => sys_exit (PStr "bad key")
  | Raise (FileNotFoundError _) =>
      sys_exit (PStr (filename
                      +:+ " could not be opened, please specify a file."))
  | Raise e => raise e
  end.

Definition printFingerprint : M unit :=
  filename ← _getKeyOrDefault None None;
  sibling ← path_exists (filename +:+ ".pub");
  let filename := if sibling : bool then filename +:+ ".pub" else filename in
  enumrepresentation;;
  show_fingerprint filename.

(** [changePassPhrase], lines 260-275: load the key, asking for the old
    passphrase when the file is encrypted. *)
Definition load_private_key (filename : string) : M Key :=
  loaded ← try (Key_fromFile filename PNone);
  match loaded : result Key with
  | Ok key => mret key
  | Raise (EncryptedKeyError _) =>
      pass ← opt_get "pass";
      when (negb (truthy pass))
        (p ← getpass "Enter old passphrase: ";
         opt_set "pass" (PStr p));;
      pass ← opt_index "pass";
      again ← try (Key_fromFile filename pass);
      match again : result Key with
      | Ok key => mret key
      | Raise (BadKeyError _) =>
          sys_exit (PStr "Could not change passphrase: old passphrase error")
      | Raise (EncryptedKeyError m) =>
          sys_exit (PStr ("Could not change passphrase: " +:+ m))
      | Raise e => raise e
      end
  | Raise (BadKeyError m) =>
      sys_exit (PStr ("Could not change passphrase: " +:+ m))
  | Raise (FileNotFoundError _) =>
      sys_exit (PStr (filename
                      +:+ " could not be opened, please specify a file."))
  | Raise e => raise e
  end.

(** [changePassPhrase], lines 277-284. *)
Definition ask_new_passphrase : M unit :=
  newpass ← opt_get "newpass";
  when (negb (truthy newpass))
    (p1 ← passphraseLoop "Enter new passphrase (empty for no passphrase): ";
     opt_set "newpass" (PStr p1)).

(** [changePassPhrase], lines 286-287, and [_saveKey], lines 380-381. *)
Definition resolve_subtype (key : Key) : M unit :=
  subtype ← opt_get "private-key-subtype";
  when (bool_decide (subtype = PNone))
    (opt_set "private-key-subtype"
       (PStr (_defaultPrivateKeySubtype (Key_type key)))).

(** [changePassPhrase], lines 289-296. *)
Definition serialise_new (key : Key) : M string :=
  subtype ← opt_index "private-key-subtype";
  newpass ← opt_index "newpass";
  serialised ← try (toString key subtype newpass PNone);
  match serialised : result string with
  | Ok data => mret data
  | Raise e =>
      if is_Exception e
      then sys_exit (PStr ("Could not change passphrase: " +:+ exn_str e))
      else raise e
  end.

(** [changePassPhrase], lines 298-301. *)
Definition verify_new (newkeydata : string) : M unit :=
  newpass ← opt_index "newpass";
  verified ← try (fromString newkeydata newpass);
  match verified : result Key with
  | Ok _ => mret tt
  | Raise (EncryptedKeyError m) | Raise (BadKeyError m) =>
      sys_exit (PStr ("Could not change passphrase: " +:+ m))
  | Raise e => raise e
  end.

Definition changePassPhrase : M unit :=
  filename ← _getKeyOrDefault None None;
  key ← load_private_key filename;
  ask_new_passphrase;;
  resolve_subtype key;;
  newkeydata ← serialise_new key;
  verify_new newkeydata;;
  open_wb_write filename newkeydata;;
  print "Your identification has been saved with the new passphrase.".

Definition displayPublicKey : M unit :=
  filename ← _getKeyOrDefault None None;
  loaded ← try (Key_fromFile filename PNone);
  key ← match loaded : result Key with
        | Ok key => mret key
        | Raise (FileNotFoundError _) =>
            sys_exit (PStr (filename
                            +:+ " could not be opened, please specify a file."))
        | Raise (EncryptedKeyError _) =>
            pass ← opt_get "pass";
            when (negb (truthy pass))
              (p ← getpass "Enter passphrase: ";
               opt_set "pass" (PStr p));;
            pass ← opt_index "pass";
            Key_fromFile filename pass
        | Raise e => raise e
        end;
  data ← toString (Key_public key) PNone PNone PNone;
  displayKey ← decode_ascii data;
  print displayKey.

Definition _inputSaveFile (prompt : string) : M string := input prompt.

Definition KeyTypeMapping : gmap string string :=
  list_to_map [("EC", "ecdsa"); ("Ed25519", "ed25519");
               ("RSA", "rsa"); ("DSA", "dsa")].

(** [_saveKey], lines 354-361: the path of the private key. *)
Definition save_path (keyTypeName : string) (inputCollector : Collector)
  : M string :=
  filename ← opt_index "filename";
  if negb (truthy filename) then
    defaultPath ← _getKeyOrDefault (Some inputCollector) (Some keyTypeName);
    newPath ← _inputSaveFile
                ("Enter file in which to save the key ("
                 +:+ defaultPath +:+ "): ");
    mret (if String.eqb (py_strip newPath) "" then defaultPath
          else py_strip newPath)
  else as_text filename.

(** [yn[0].lower() != "y"] *)
Definition declines (yn : string) : M bool :=
  match yn with
  | EmptyString => raise IndexError
  | String c _ => mret (negb (String.eqb (py_lower (String c "")) "y"))
  end.

(** [_saveKey], lines 363-367. *)
Definition confirm_overwrite (filename : string) (inputCollector : Collector)
  : M unit :=
  existing ← path_exists filename;
  when existing
    (print (filename +:+ " already exists.");;
     yn ← inputCollector "Overwrite (y/n)? ";
     no ← declines yn;
     when no (sys_exit PNone)).

(** [_saveKey], lines 369-378. *)
Definition choose_passphrase : M unit :=
  nopass ← opt_get "no-passphrase";
  if truthy nopass then opt_set "pass" (PBytes "")
  else
    pass ← opt_index "pass";
    when (negb (truthy pass))
      (p1 ← passphraseLoop "Enter passphrase (empty for no passphrase): ";
       opt_set "pass" (PStr p1)).

(** [_saveKey], lines 383-397: the two files. *)
Definition write_key_pair (key : Key) (filename : string) : M unit :=
  env ← gets w_env;
  let comment := e_user env +:+ "@" +:+ e_hostname env in
  subtype ← opt_index "private-key-subtype";
  pass ← opt_index "pass";
  data ← toString key subtype pass PNone;
  setContent filename data;;
  chmod filename (octal "100600");;
  pubdata ← toString (Key_public key) PNone PNone (PStr comment);
  setContent (filename +:+ ".pub") pubdata.

(** [_saveKey], lines 398-403. *)
Definition report_saved (key : Key) (filename : string) : M unit :=
  enumrepresentation;;
  print ("Your identification has been saved in " +:+ filename);;
  print ("Your public key has been saved in " +:+ filename +:+ ".pub");;
  fmt ← opt_index "format";
  print ("The key fingerprint in " +:+ py_str fmt +:+ " is:");;
  fmt ← opt_index "format";
  match fmt with
  | PFmt f => print (Key_fingerprint key f)
  | _ => raise (BadFingerPrintFormat
                  ("Unsupported fingerprint format: " +:+ py_str fmt))
  end.

Definition _saveKey (key : Key) (inputCollector : option Collector)
  : M unit :=
  let inputCollector := default input inputCollector in
  keyTypeName ← dict_index KeyTypeMapping (Key_type key);
  filename ← save_path keyTypeName inputCollector;
  confirm_overwrite filename inputCollector;;
  choose_passphrase;;
  resolve_subtype key;;
  write_key_pair key filename;;
  report_saved key filename.

Definition generateRSAkey : M unit :=
  bits ← opt_index "bits";
  when (negb (truthy bits)) (opt_set "bits" (PInt 2048));;
  bits ← opt_index "bits";
  key_size ← py_int bits;
  key ← generate "rsa" (PInt key_size)
          (rsa_generate_private_key key_size 65537);
  _saveKey key None.

Definition generateDSAkey : M unit :=
  bits ← opt_index "bits";
  when (negb (truthy bits)) (opt_set "bits" (PInt 1024));;
  bits ← opt_index "bits";
  key_size ← py_int bits;
  key ← generate "dsa" (PInt key_size) (dsa_generate_private_key key_size);
  _saveKey key None.

Definition generateECDSAkey : M unit :=
  bits ← opt_index "bits";
  when (negb (truthy bits)) (opt_set "bits" (PInt 256));;
  bits ← opt_index "bits";
  suffix ← encode_ascii (py_str bits);
  let curve := "ecdsa-sha2-nistp" +:+ suffix in
  c ← dict_index _curveTable curve;
  key ← generate "ecdsa" (PStr (Curve_name c)) (ec_generate_private_key c);
  _saveKey key None.

Definition generateEd25519key : M unit :=
  key ← generate "ed25519" PNone Ed25519PrivateKey_generate;
  _saveKey key None.

End Script.

(** ** Observing a run *)

Definition result_of {A} (o : result A * World * list Event) : result A := o.1.1.
Definition world_of {A} (o : result A * World * list Event) : World := o.1.2.
Definition events_of {A} (o : result A * World * list Event) : list Event := o.2.

(** ** A small key library, to run the script on concrete inputs *)

Module Toy.

Record ToyKey := mkToyKey { tk_type : string; tk_size : Z }.

Definition starts_with (c : ascii) (s : string) : bool :=
  match s with
  | String c' _ => Ascii.eqb c c'
  | EmptyString => false
  end.

(** An unprotected key is written as [P], a key protected by the
    passphrase [p] as [E] followed by [p]. *)
Definition toy_toString (sound : bool) (k : ToyKey)
    (subtype passphrase comment : pyval) : result string :=
  if negb sound then Ok "garbage"
  else if truthy comment then Ok ("P " +:+ py_str comment)
  else if truthy passphrase then Ok ("E" +:+ py_str passphrase)
  else Ok "P".

Definition toy_fromString (data : string) (passphrase : pyval)
  : result ToyKey :=
  if starts_with "P" data then Ok (mkToyKey "RSA" 2048)
  else if starts_with "E" data then
    if truthy passphrase then
      if String.eqb data ("E" +:+ py_str passphrase)
      then Ok (mkToyKey "RSA" 2048)
      else Raise (BadKeyError "wrong passphrase")
    else Raise (EncryptedKeyError
                  "Passphrase must be provided for an encrypted key")
  else Raise (BadKeyError "unknown key format").

Definition toy_fingerprint (k : ToyKey) (f : FingerprintFormats) : string :=
  match f with
  | MD5_HEX => "00:11:22:33:44:55:66:77:88:99:aa:bb:cc:dd:ee:ff"
  | SHA256_BASE64 => "FBeBkGJ8Dgh7rZCtoOmWfrP9qP+FDdIgKr5yfwjmNeo="
  end.

Definition curve_size (c : Curve) : Z :=
  match c with SECP256R1 => 256 | SECP384R1 => 384 | SECP521R1 => 521 end.

(** [keys sound]: with [sound = false] the serialiser emits bytes that
    the parser rejects. *)
Definition keys (sound : bool) : KeysLibrary := {|
  Key := ToyKey;
  Key_type := tk_type;
  Key_size := tk_size;
  Key_public := fun k => k;
  Key_fingerprint := toy_fingerprint;
  Key_toString := toy_toString sound;
  Key_fromString := toy_fromString;
  rsa_generate_private_key := fun n _ _ => Ok (mkToyKey "RSA" n);
  dsa_generate_private_key := fun n _ => Ok (mkToyKey "DSA" n);
  ec_generate_private_key := fun c _ => Ok (mkToyKey "EC" (curve_size c));
  Ed25519PrivateKey_generate := fun _ => Ok (mkToyKey "Ed25519" 256)
|}.

(** A base name in the manner of [ntpath.basename], for a path that
    has no UNC prefix: after the drive letter and its colon, what
    follows the last slash or backslash. *)
Fixpoint after_separator (s acc : string) : string :=
  match s with
  | EmptyString => acc
  | String c r =>
      if Ascii.eqb c "/" || Ascii.eqb c "\"%char then after_separator r ""
      else after_separator r (acc +:+ String c "")
  end.

Definition nt_basename (s : string) : string :=
  match s with
  | String _ (String ":" r) => after_separator r ""
  | _ => after_separator s ""
  end.

(** Decimal digits beyond ASCII, of three scripts only: the
    Arabic-Indic digits (U+0660 to U+0669), the Devanagari digits
    (U+0966 to U+096F) and the fullwidth digits (U+FF10 to U+FF19). *)
Definition digit_after (zero cp : N) : option Z :=
  Z.of_nat <$> List.find (fun d => (zero + N.of_nat d =? cp)%N) (List.seq 0 10).

Definition toy_decimal (cp : N) : option Z :=
  match digit_after 1632 cp with
  | Some d => Some d
  | None =>
      match digit_after 2406 cp with
      | Some d => Some d
      | None => digit_after 65296 cp
      end
  end.

(** An environment in which every write and every change of mode
    succeeds. *)
Definition env (system : string) (umask : Z) : Env :=
  mkEnv system (fun p => "/home/alice" +:+ String.substring 1 (String.length p) p)
        "alice" "example.org" umask nt_basename toy_decimal 4300
        (fun _ _ => Written) (fun _ _ => None).

(** The same environment on a disk that answers a write as [disk]
    says. *)
Definition on_disk (disk : string -> string -> write_outcome) (e : Env)
  : Env :=
  mkEnv (e_system e) (e_tilde e) (e_user e) (e_hostname e) (e_umask e)
        (e_ntpath_basename e) (e_decimal e) (e_int_max_str_digits e) disk
        (e_chmod e).

(** The same environment where no mode can be changed. *)
Definition fixed_modes (e : Env) : Env :=
  mkEnv (e_system e) (e_tilde e) (e_user e) (e_hostname e) (e_umask e)
        (e_ntpath_basename e) (e_decimal e) (e_int_max_str_digits e)
        (e_write e)
        (fun path _ => Some (OtherException "PermissionError" path)).

(** The options as [GeneralOptions] leaves them when nothing is given
    on the command line. *)
Definition defaults : gmap string pyval :=
  list_to_map [("bits", PNone); ("filename", PNone); ("type", PNone);
               ("comment", PNone); ("newpass", PNone); ("pass", PNone);
               ("format", PStr "sha256-base64");
               ("private-key-subtype", PNone);
               ("fingerprint", PInt 0); ("changepass", PInt 0);
               ("quiet", PInt 0); ("no-passphrase", PInt 0);
               ("showpub", PInt 0)].

Definition world (opts : list (string * pyval)) (files : list (string * File))
    (stdin tty : list string) (e : Env) : World :=
  mkWorld (list_to_map opts ∪ defaults) (list_to_map files) stdin tty 0%N e.

End Toy.

(** * Vocabulary of the statements *)

(** ** Kinds of events, and blocks that leave the files alone *)

Definition is_dialogue (e : Event) : bool :=
  match e with
  | EvInput _ _ | EvGetpass _ _ | EvPrint _ => true
  | _ => false
  end.

Definition is_dialogue_or_load (e : Event) : bool :=
  match e with
  | EvFromFile _ _ => true
  | _ => is_dialogue e
  end.

Definition is_file_event (e : Event) : bool :=
  match e with
  | EvSetContent _ _ _ | EvChmod _ _ | EvWrite _ _ _ => true
  | _ => false
  end.

(** [quiet allowed touched m]: a run of [m] changes neither the files
    nor the environment, changes the options at most at the keys
    [touched], and emits only events of the kind [allowed]. *)
Definition quiet {A} (allowed : Event -> bool) (touched : list string)
    (m : M A) : Prop :=
  forall w r w' evs, m w = (r, w', evs) ->
    w_fs w' = w_fs w /\ w_env w' = w_env w
    /\ (forall k, k ∉ touched -> w_options w' !! k = w_options w !! k)
    /\ forallb allowed evs = true.

(** [emits allowed m]: a run of [m] emits only events of the kind
    [allowed]; unlike [quiet] it says nothing of the state. *)
Definition emits {A} (allowed : Event -> bool) (m : M A) : Prop :=
  forall w r w' evs, m w = (r, w', evs) -> forallb allowed evs = true.

(** The events of the passphrase loop. *)
Definition is_loop_event (prompt : string) (e : Event) : bool :=
  match e with
  | EvGetpass p _ =>
      String.eqb p prompt || String.eqb p "Enter same passphrase again: "
  | EvPrint l => String.eqb l "Passphrases do not match.  Try again."
  | _ => false
  end.

(** The subtype lines 286-287 and 380-381 leave in the options: the one
    given, or else the default of the key type. *)
Definition resolved_subtype (options : gmap string pyval) (keyType : string)
  : pyval :=
  match default PNone (options !! "private-key-subtype") with
  | PNone => PStr (_defaultPrivateKeySubtype keyType)
  | v => v
  end.

(** The error of a write that fails. *)
Definition write_error (o : write_outcome) : option exn :=
  match o with
  | Written => None
  | Refused e | Torn e _ => Some e
  end.

(** What the wrapper of the round-trip check turns an exception into. *)
Definition verification_error (e : exn) : exn :=
  match e with
  | EncryptedKeyError m | BadKeyError m =>
      SystemExit (PStr ("Could not change passphrase: " +:+ m))
  | _ => e
  end.

(** The comment of the public key, [user@hostname]. *)
Definition key_comment (env : Env) : string :=
  e_user env +:+ "@" +:+ e_hostname env.

(** The answer [_saveKey] takes for a confirmation: its first character
    is [y] or [Y] (line 366, [yn[0].lower() != "y"]). *)
Definition affirmative (yn : string) : bool :=
  match yn with
  | EmptyString => false
  | String c _ => String.eqb (py_lower (String c "")) "y"
  end.

(** The entries of round [k] of the loop are the lines [2k] and [2k+1]
    of the terminal. *)
Definition agrees_at (tty : list string) (k : nat) (p : string) : Prop :=
  tty !! (2 * k)%nat = Some p /\ tty !! S (2 * k) = Some p.

Definition differs_at (tty : list string) (k : nat) : Prop :=
  exists a b, tty !! (2 * k)%nat = Some a /\ tty !! S (2 * k) = Some b /\ a ≠ b.

(** The number of times the loop said that the entries do not match. *)
Definition mismatch_notices (evs : list Event) : nat :=
  List.length (List.filter
            (fun e => bool_decide
                        (e = EvPrint "Passphrases do not match.  Try again."))
            evs).

(** What a run of the loop on the lines [tty] amounts to: every round
    before the last had two differing entries; the loop accepts [p] in
    the round whose two entries are both [p], and leaves the lines after
    them; or no round has agreeing entries and the lines are used up. *)
Definition loop_outcome (tty : list string) (accepted : option string)
    (tty' : list string) (evs : list Event) : Prop :=
  let k := mismatch_notices evs in
  (forall j, (j < k)%nat -> differs_at tty j)
  /\ match accepted with
     | Some p => agrees_at tty k p /\ tty' = drop (2 * k + 2) tty
     | None => (forall j x, ~ agrees_at tty j x) /\ tty' = []
     end.

(** Two neighbouring lines agree, whichever rounds they belong to. *)
Definition adjacent_match (tty : list string) : Prop :=
  exists i x, tty !! i = Some x /\ tty !! S i = Some x.

Definition accepted_of (r : result string) : option string :=
  match r with Ok p => Some p | Raise _ => None end.

(** What an interactive collection of a passphrase into [options[key]]
    amounts to, on the lines the terminal holds. *)
Definition collects (key : string) (w : World) (r : result unit) (w' : World)
    (evs : list Event) : Prop :=
  exists accepted,
    loop_outcome (w_tty w) accepted (w_tty w') evs
    /\ (is_Some accepted <-> exists k x, agrees_at (w_tty w) k x)
    /\ (forall k x,
          agrees_at (w_tty w) k x ->
          (forall j, (j < k)%nat -> differs_at (w_tty w) j) ->
          accepted = Some x /\ mismatch_notices evs = k)
    /\ match accepted with
       | Some p => r = Ok tt /\ w_options w' !! key = Some (PStr p)
       | None => r = Raise EOFError
       end.

(** What lines 268-271 turn a failure of the second load into. *)
Definition old_passphrase_error (e : exn) : exn :=
  match e with
  | BadKeyError _ =>
      SystemExit (PStr "Could not change passphrase: old passphrase error")
  | EncryptedKeyError m =>
      SystemExit (PStr ("Could not change passphrase: " +:+ m))
  | _ => e
  end.

Definition is_old_passphrase_prompt (e : Event) : bool :=
  match e with
  | EvGetpass p _ => String.eqb p "Enter old passphrase: "
  | _ => false
  end.

Definition not_old_passphrase_prompt (e : Event) : bool :=
  negb (is_old_passphrase_prompt e).

(** The format asked for in the options, when it is one of the two that
    lines 116-121 accept. *)
Definition requested_format (options : gmap string pyval)
  : option FingerprintFormats :=
  match options !! "format" with
  | Some (PStr s) =>
      if String.eqb s "md5-hex" then Some MD5_HEX
      else if String.eqb s "sha256-base64" then Some SHA256_BASE64
      else None
  | _ => None
  end.

(** How the run goes on once the dialogue is over and the path [f] is
    settled: what is in [tail], the result and the files, by the first
    step that fails. *)
Definition saveKey_outcome `{KeysLibrary} (key : Key) (w : World)
    (f : string) (pass : pyval) (tail : list Event) (r : result unit)
    (w' : World) : Prop :=
  let st := resolved_subtype (w_options w) (Key_type key) in
  let m := create_mode (w_env w) (octal "777") in
  let comment := PStr (key_comment (w_env w)) in
  let ser := EvToString (Key_type key) st pass PNone in
  let pubser := EvToString (Key_type (Key_public key)) PNone PNone comment in
  (* the private key is not written *)
  (tail = [ser] /\ w_fs w' = w_fs w
   /\ exists e,
        (Key_toString key st pass PNone = Raise e
         \/ exists d,
              Key_toString key st pass PNone = Ok d
              /\ write_error (e_write (w_env w) f d) = Some e)
        /\ r = Raise e)
  \/ exists d,
       Key_toString key st pass PNone = Ok d
       /\ e_write (w_env w) f d = Written
       /\ ((* it is written and cannot be restricted *)
           (tail = [ser; EvSetContent f d m]
            /\ w_fs w' = <[f := mkFile d m]> (w_fs w)
            /\ exists e,
                 e_chmod (w_env w) f (octal "100600") = Some e /\ r = Raise e)
           \/ e_chmod (w_env w) f (octal "100600") = None
              /\ ((* the public key is not written *)
                  (tail = [ser; EvSetContent f d m;
                           EvChmod f (octal "100600"); pubser]
                   /\ w_fs w' = <[f := mkFile d (octal "100600")]> (w_fs w)
                   /\ exists e,
                        (Key_toString (Key_public key) PNone PNone comment
                         = Raise e
                         \/ exists pd,
                              Key_toString (Key_public key) PNone PNone comment
                              = Ok pd
                              /\ write_error
                                   (e_write (w_env w) (f +:+ ".pub") pd)
                                 = Some e)
                        /\ r = Raise e)
                  \/ (* both files are written *)
                     exists pd post,
                       Key_toString (Key_public key) PNone PNone comment = Ok pd
                       /\ e_write (w_env w) (f +:+ ".pub") pd = Written
                       /\ tail = [ser; EvSetContent f d m;
                                  EvChmod f (octal "100600"); pubser;
                                  EvSetContent (f +:+ ".pub") pd m] ++ post
                       /\ forallb is_dialogue post = true
                       /\ w_fs w'
                          = <[(f +:+ ".pub") := mkFile pd m]>
                              (<[f := mkFile d (octal "100600")]> (w_fs w))
                       /\ (forall v, w_options w !! "format" = Some v ->
                             v ≠ PStr "md5-hex" ->
                             v ≠ PStr "sha256-base64" ->
                             post = []
                             /\ r = Raise
                                      (BadFingerPrintFormat
                                         ("Unsupported fingerprint format: "
                                          +:+ py_str v))))).

(** ** The claims read word for word *)

(** The modes a path goes through in a run, in order. *)
Fixpoint modes_of (path : string) (evs : list Event) : list Z :=
  match evs with
  | [] => []
  | e :: rest =>
      match e with
      | EvSetContent p _ m | EvWrite p _ m | EvChmod p m =>
          if String.eqb p path then m :: modes_of path rest
          else modes_of path rest
      | _ => modes_of path rest
      end
  end.

(** A mode that grants nothing to group and others. *)
Definition owner_only (mode : Z) : Prop := Z.land mode (octal "077") = 0.

(** C2 word for word: from its creation to the return of the operation
    the file never has a mode that lets group or others in. *)
Definition never_exposed (path : string) (evs : list Event) : Prop :=
  Forall owner_only (modes_of path evs).

(** C3 word for word: an explicit yes, [y] or [yes] in any case. *)
Definition explicit_yes (yn : string) : bool :=
  let a := py_lower (py_strip yn) in
  String.eqb a "y" || String.eqb a "yes".


(** ** Concrete inputs *)

Module Inputs.

Definition linux : Env := Toy.env "Linux" (octal "022").
Definition windows : Env := Toy.env "Windows" (octal "022").

Definition ed25519 : Toy.ToyKey := Toy.mkToyKey "Ed25519" 256.

(** [ckeygen -t ed25519 -f /tmp/id_test --no-passphrase] *)
Definition w_generate : World :=
  Toy.world [("filename", PStr "/tmp/id_test"); ("no-passphrase", PInt 1)]
    [] [] [] linux.

(** The same with [-o sha1]. *)
Definition w_unsupported : World :=
  Toy.world [("filename", PStr "/tmp/id_test"); ("no-passphrase", PInt 1);
             ("format", PStr "sha1")]
    [] [] [] linux.

(** The same when [/tmp/id_test] exists and the operator answers
    [answer]. *)
Definition w_existing (answer : string) : World :=
  Toy.world [("filename", PStr "/tmp/id_test"); ("no-passphrase", PInt 1)]
    [("/tmp/id_test", mkFile "old" (octal "100600"))] [answer] [] linux.

(** [ckeygen -p -f /tmp/id_test -N new] on an unprotected key. *)
Definition w_change : World :=
  Toy.world [("filename", PStr "/tmp/id_test"); ("newpass", PStr "new")]
    [("/tmp/id_test", mkFile "P" (octal "100600"))] [] [] linux.

(** [ckeygen -p -f /tmp/id_test] on a key protected by [secret], with
    the lines [tty] typed at the terminal. *)
Definition w_encrypted (tty : list string) : World :=
  Toy.world [("filename", PStr "/tmp/id_test")]
    [("/tmp/id_test", mkFile "Esecret" (octal "100600"))] [] tty linux.

(** [ckeygen -l -f /tmp/id_test] next to [/tmp/id_test.pub]. *)
Definition w_pub : World :=
  Toy.world [("filename", PStr "/tmp/id_test")]
    [("/tmp/id_test", mkFile "Esecret" (octal "100600"));
     ("/tmp/id_test.pub", mkFile "P alice@example.org" (octal "100644"))]
    [] [] linux.

(** No option given, the lines [tty] typed at the terminal. *)
Definition w_ask (tty : list string) : World :=
  Toy.world [] [] [] tty linux.


(** [ckeygen -t ed25519 -f /tmp/id_test --no-passphrase
    --private-key-subtype <subtype>] *)
Definition w_generate_subtype (subtype : string) : World :=
  Toy.world [("filename", PStr "/tmp/id_test"); ("no-passphrase", PInt 1);
             ("private-key-subtype", PStr subtype)]
    [] [] [] linux.

(** [ckeygen -p -f /tmp/id_test -N new --private-key-subtype <subtype>]
    on an unprotected key. *)
Definition w_change_subtype (subtype : string) : World :=
  Toy.world [("filename", PStr "/tmp/id_test"); ("newpass", PStr "new");
             ("private-key-subtype", PStr subtype)]
    [("/tmp/id_test", mkFile "P" (octal "100600"))] [] [] linux.

(** A disk that is full once [n] bytes of a file are written. *)
Definition full_after (n : nat) (path data : string) : write_outcome :=
  Torn (OtherException "OSError" "[Errno 28] No space left on device") n.

(** A disk on which no file can be created or opened for writing. *)
Definition read_only (path data : string) : write_outcome :=
  Refused (OtherException "OSError" "[Errno 30] Read-only file system").

(** [ckeygen -p -f /tmp/id_test -N new] on an unprotected key, on the
    disk [disk]. *)
Definition w_change_on (disk : string -> string -> write_outcome) : World :=
  Toy.world [("filename", PStr "/tmp/id_test"); ("newpass", PStr "new")]
    [("/tmp/id_test", mkFile "P" (octal "100600"))] [] []
    (Toy.on_disk disk linux).

(** [ckeygen -t ed25519 -f /tmp/id_test --no-passphrase -o sha1] on the
    disk [disk]. *)
Definition w_unsupported_on (disk : string -> string -> write_outcome)
  : World :=
  Toy.world [("filename", PStr "/tmp/id_test"); ("no-passphrase", PInt 1);
             ("format", PStr "sha1")]
    [] [] [] (Toy.on_disk disk linux).

(** [ckeygen -t ed25519 -f /tmp/id_test --no-passphrase] in the
    environment [e]. *)
Definition w_generate_in (e : Env) : World :=
  Toy.world [("filename", PStr "/tmp/id_test"); ("no-passphrase", PInt 1)]
    [] [] [] e.

(** U+00A0, the no-break space, and U+001C, the file separator, as
    UTF-8. *)
Definition nbsp : string :=
  String (ascii_of_nat 194) (String (ascii_of_nat 160) "").
Definition fs_char : string := String (ascii_of_nat 28) "".

(** The Arabic-Indic digit of value [n], U+0660 + [n], as UTF-8. *)
Definition arabic_indic (n : nat) : string :=
  String (ascii_of_nat 217) (String (ascii_of_nat (160 + n)) "").

(** The numeral 1024 in Arabic-Indic digits. *)
Definition arabic_indic_1024 : string :=
  arabic_indic 1 +:+ arabic_indic 0 +:+ arabic_indic 2 +:+ arabic_indic 4.

End Inputs.

(** * The entry point *)

(** A dictionary in insertion order, as [supportedKeyTypes] is: [d[key]],
    and [key in d] when the result is not [None]. *)
Fixpoint dict_get {V} (key : string) (d : list (string * V)) : option V :=
  match d with
  | [] => None
  | (k, v) :: rest => if String.eqb k key then Some v else dict_get key rest
  end.

(** [v.lower()]: text and bytes have the method. *)
Definition lower (v : pyval) : M pyval :=
  match v with
  | PStr s => mret (PStr (py_lower s))
  | PBytes s => mret (PBytes (py_lower s))
  | _ => raise (OtherException "AttributeError" "lower")
  end.

(** The message of a [usage.UsageError], which is represented by its
    name. *)
Definition as_UsageError (e : exn) : option string :=
  match e with
  | OtherException name msg =>
      if String.eqb name "UsageError" then Some msg else None
  | _ => None
  end.

Section Program.
Context `{KeysLibrary}.

(** [options.parseOptions(sys.argv[1:])] and [options.opt_help()] are
    methods of [twisted.python.usage.Options], which the script only
    calls: [run] is embedded for every behaviour of the two.  The two
    calls that set up the log (lines 93-94) act on nothing in the
    world. *)
Variables (parseOptions opt_help : M unit).

(** [supportedKeyTypes], in the order in which [@_keyGenerator]
    registers the four functions. *)
Definition supportedKeyTypes : list (string * M unit) :=
  [("rsa", generateRSAkey); ("dsa", generateDSAkey);
   ("ecdsa", generateECDSAkey); ("ed25519", generateEd25519key)].

(** [run], lines 96-103: a key type is given. *)
Definition run_generate (type : pyval) : M unit :=
  lowered ← lower type;
  match (match lowered with
         | PStr name => dict_get name supportedKeyTypes
         | _ => None
         end) with
  | Some generator =>
      print ("Generating public/private " +:+ py_str type +:+ " key pair.");;
      generator
  | None =>
      sys_exit (PStr ("Key type was " +:+ py_str type +:+ ", must be one of "
                      +:+ String.concat ", " (supportedKeyTypes.*1)))
  end.

Definition run : M unit :=
  parsed ← try parseOptions;
  match parsed : result unit with
  | Ok _ => mret tt
  | Raise e =>
      match as_UsageError e with
      | Some u => print ("ERROR: " +:+ u);; opt_help;; sys_exit (PInt 1)
      | None => raise e
      end
  end;;
  type ← opt_index "type";
  if truthy type then run_generate type
  else
    fingerprint ← opt_index "fingerprint";
    if truthy fingerprint then printFingerprint
    else
      changepass ← opt_index "changepass";
      if truthy changepass then changePassPhrase
      else
        showpub ← opt_index "showpub";
        if truthy showpub then displayPublicKey
        else opt_help;; sys_exit (PInt 1).

End Program.

(** * Vocabulary of the further statements *)

(** A question put to the operator, on standard input or at the
    terminal. *)
Definition is_prompt (e : Event) : bool :=
  match e with
  | EvInput _ _ | EvGetpass _ _ => true
  | _ => false
  end.

Definition is_getpass (e : Event) : bool :=
  match e with
  | EvGetpass _ _ => true
  | _ => false
  end.

Definition is_generate (e : Event) : bool :=
  match e with
  | EvGenerate _ _ => true
  | _ => false
  end.

(** The names [enumrepresentation] accepts. *)
Definition format_names : list (string * FingerprintFormats) :=
  [("md5-hex", MD5_HEX); ("sha256-base64", SHA256_BASE64)].

(** The path [_saveKey] settles on from the two answers it gets when no
    file name is in the options: the second answer without its
    surrounding blanks, or else the first, or else the default. *)
Definition chosen_path (d first second : string) : string :=
  let d' := if String.eqb first "" then d else first in
  if String.eqb (py_strip second) "" then d' else py_strip second.

(** The passphrase [_saveKey] takes without asking. *)
Definition unprompted_passphrase (options : gmap string pyval)
  : option pyval :=
  if truthy (default PNone (options !! "no-passphrase")) then Some (PBytes "")
  else
    match options !! "pass" with
    | Some v => if truthy v then Some v else None
    | None => None
    end.

(** The four lines that end a successful [_saveKey]. *)
Definition saved_report `{KeysLibrary} (key : Key) (f : string)
    (fmt : FingerprintFormats) : list Event :=
  [EvPrint ("Your identification has been saved in " +:+ f);
   EvPrint ("Your public key has been saved in " +:+ f +:+ ".pub");
   EvPrint ("The key fingerprint in " +:+ py_str (PFmt fmt) +:+ " is:");
   EvPrint (Key_fingerprint key fmt)].

(** The message of the exits on a file that is not there. *)
Definition could_not_be_opened (f : string) : exn :=
  SystemExit (PStr (f +:+ " could not be opened, please specify a file.")).

(** What lines 252-255 turn a failure to load [target] into. *)
Definition fingerprint_error (target : string) (e : exn) : exn :=
  match e with
  | BadKeyError _ => SystemExit (PStr "bad key")
  | FileNotFoundError _ => could_not_be_opened target
  | _ => e
  end.

(** An event that leaves every file as it is. *)
Definition not_file_event (e : Event) : bool := negb (is_file_event e).

Definition is_print (e : Event) : bool :=
  match e with
  | EvPrint _ => true
  | _ => false
  end.

(** ** Further concrete inputs *)

Module MoreInputs.

(** [ckeygen -t <type> -f /tmp/id_test --no-passphrase] once the command
    line is parsed. *)
Definition w_type (type : string) : World :=
  Toy.world [("type", PStr type); ("filename", PStr "/tmp/id_test");
             ("no-passphrase", PInt 1)]
    [] [] [] Inputs.linux.

(** [ckeygen -l -p -f /tmp/id_test]: two actions are asked for. *)
Definition w_two_flags : World :=
  Toy.world [("fingerprint", PInt 1); ("changepass", PInt 1);
             ("filename", PStr "/tmp/id_test"); ("newpass", PStr "new")]
    [("/tmp/id_test", mkFile "P" (octal "100600"))] [] [] Inputs.linux.

(** [ckeygen -t ed25519 --no-passphrase], with two answers on standard
    input. *)
Definition w_two_answers : World :=
  Toy.world [("no-passphrase", PInt 1)] [] [""; " /tmp/k  "] [] Inputs.linux.

(** The same with the answers [a] and [b]. *)
Definition w_answers (a b : string) : World :=
  Toy.world [("no-passphrase", PInt 1)] [] [a; b] [] Inputs.linux.

(** [ckeygen -t ed25519 -f /tmp/id_test -P secret --no-passphrase] *)
Definition w_both : World :=
  Toy.world [("filename", PStr "/tmp/id_test"); ("pass", PStr "secret");
             ("no-passphrase", PInt 1)]
    [] [] [] Inputs.linux.

(** [ckeygen -t rsa -b <bits> -f /tmp/id_test --no-passphrase] *)
Definition w_bits (bits : string) : World :=
  Toy.world [("bits", PStr bits); ("filename", PStr "/tmp/id_test");
             ("no-passphrase", PInt 1)]
    [] [] [] Inputs.linux.

(** [ckeygen -p -f /tmp/id_test -P secret -N new] on a key protected by
    [secret]. *)
Definition w_change_all : World :=
  Toy.world [("filename", PStr "/tmp/id_test"); ("pass", PStr "secret");
             ("newpass", PStr "new")]
    [("/tmp/id_test", mkFile "Esecret" (octal "100600"))] [] [] Inputs.linux.

(** [ckeygen -p -f /tmp/id_test -N ""] on an unprotected key, with the
    lines [tty] typed at the terminal. *)
Definition w_plain (tty : list string) : World :=
  Toy.world [("filename", PStr "/tmp/id_test"); ("newpass", PStr "")]
    [("/tmp/id_test", mkFile "P" (octal "100600"))] [] tty Inputs.linux.

(** [ckeygen -t ed25519 -f /tmp/id_test --no-passphrase] when only
    [/tmp/id_test.pub] is there. *)
Definition w_stale_pub : World :=
  Toy.world [("filename", PStr "/tmp/id_test"); ("no-passphrase", PInt 1)]
    [("/tmp/id_test.pub", mkFile "P bob@example.org" (octal "100644"))]
    [] [] Inputs.linux.

(** A key of a type [_saveKey] has no name for. *)
Definition x448 : Toy.ToyKey := Toy.mkToyKey "X448" 448.

(** A parser that leaves the options as they are. *)
Definition parsed : M unit := mret tt.

(** A help that prints one line and exits with status 0. *)
Definition help : M unit :=
  print "Usage:    ckeygen [options]";; sys_exit (PInt 0).

End MoreInputs.

(** * Part II: properties *)

(** ** Running the monad *)

Section Runs.
Context {A B : Type}.

Lemma bind_run (m : M A) (f : A -> M B) (w : World) :
  (m ≫= f) w =
    match m w with
    | (Ok a, w1, e1) => let '(r, w2, e2) := f a w1 in (r, w2, e1 ++ e2)
    | (Raise e, w1, e1) => (Raise e, w1, e1)
    end.
Proof. reflexivity. Qed.

Lemma bind_ok (m : M A) (f : A -> M B) w a w1 e1 :
  m w = (Ok a, w1, e1) ->
  (m ≫= f) w = (result_of (f a w1), world_of (f a w1), e1 ++ events_of (f a w1)).
Proof.
  intros Hm. rewrite bind_run, Hm. by destruct (f a w1) as [[r w2] e2].
Qed.

Lemma bind_raise (m : M A) (f : A -> M B) w e w1 e1 :
  m w = (Raise e, w1, e1) -> (m ≫= f) w = (Raise e, w1, e1).
Proof. intros Hm. by rewrite bind_run, Hm. Qed.

Lemma bind_pure (m : M A) (f : A -> M B) w a :
  m w = (Ok a, w, []) -> (m ≫= f) w = f a w.
Proof. intros Hm. rewrite bind_run, Hm. by destruct (f a w) as [[? ?] ?]. Qed.

Lemma bind_fail (m : M A) (f : A -> M B) w e :
  m w = (Raise e, w, []) -> (m ≫= f) w = (Raise e, w, []).
Proof. apply bind_raise. Qed.

End Runs.

(** ** Blocks that leave the file system alone *)

Section Quiet.
Context {A B : Type} (allowed : Event -> bool) (touched : list string).

Lemma quiet_ret (a : A) : quiet allowed touched (mret a).
Proof. intros w r w' evs [= <- <- <-]. auto. Qed.

Lemma quiet_raise (e : exn) : quiet allowed touched (@raise A e).
Proof. intros w r w' evs [= <- <- <-]. auto. Qed.

Lemma quiet_bind (m : M A) (f : A -> M B) :
  quiet allowed touched m -> (forall a, quiet allowed touched (f a)) ->
  quiet allowed touched (m ≫= f).
Proof.
  intros Hm Hf w r w' evs. rewrite bind_run.
  destruct (m w) as [[[a|e] w1] e1] eqn:Em.
  - destruct (f a w1) as [[r2 w2] e2] eqn:Ef. intros [= <- <- <-].
    destruct (Hm _ _ _ _ Em) as (F1 & E1 & O1 & L1).
    destruct (Hf _ _ _ _ _ Ef) as (F2 & E2 & O2 & L2).
    repeat split; try congruence.
    + intros k Hk. rewrite O2, O1; auto.
    + rewrite forallb_app, L1, L2. done.
  - intros [= <- <- <-]. eauto.
Qed.

Lemma quiet_try (m : M A) :
  quiet allowed touched m -> quiet allowed touched (try m).
Proof.
  intros Hm w r w' evs. unfold try.
  destruct (m w) as [[r1 w1] e1] eqn:Em. intros [= <- <- <-]. eauto.
Qed.

End Quiet.

Lemma quiet_weaken {A} (P Q : Event -> bool) (t t' : list string) (m : M A) :
  (forall e, P e = true -> Q e = true) -> t ⊆ t' ->
  quiet P t m -> quiet Q t' m.
Proof.
  intros HPQ Ht Hm w r w' evs Hrun.
  destruct (Hm _ _ _ _ Hrun) as (F & E & O & L).
  split; [done|]. split; [done|]. split.
  - intros k Hk. apply O. contradict Hk. by apply Ht.
  - apply forallb_forall. intros e He. apply HPQ.
    by eapply forallb_forall in L.
Qed.

Section QuietPrimitives.
Context (allowed : Event -> bool) (touched : list string).

Lemma quiet_opt_index k : quiet allowed touched (opt_index k).
Proof.
  intros w r w' evs. unfold opt_index.
  destruct (w_options w !! k); intros [= <- <- <-]; auto.
Qed.

Lemma quiet_opt_get k : quiet allowed touched (opt_get k).
Proof. intros w r w' evs [= <- <- <-]. auto. Qed.

Lemma quiet_gets {A} (f : World -> A) : quiet allowed touched (gets f).
Proof. intros w r w' evs [= <- <- <-]. auto. Qed.

Lemma quiet_opt_set k v : k ∈ touched -> quiet allowed touched (opt_set k v).
Proof.
  intros Hk w r w' evs [= <- <- <-]. cbn. repeat split; auto.
  intros k' Hk'. apply lookup_insert_ne. intros ->. auto.
Qed.

Lemma quiet_when (b : bool) (m : M unit) :
  quiet allowed touched m -> quiet allowed touched (when b m).
Proof. destruct b; cbn; auto using quiet_ret. Qed.

Lemma quiet_path_exists p : quiet allowed touched (path_exists p).
Proof. apply quiet_gets. Qed.

Lemma quiet_emit e : allowed e = true -> quiet allowed touched (emit e).
Proof. intros He w r w' evs [= <- <- <-]. cbn. rewrite He. auto. Qed.

Lemma quiet_input prompt :
  (forall r, allowed (EvInput prompt r) = true) ->
  quiet allowed touched (input prompt).
Proof.
  intros He w r w' evs. unfold input.
  destruct (w_stdin w); intros [= <- <- <-]; cbn; rewrite He; auto.
Qed.

Lemma quiet_getpass prompt :
  (forall r, allowed (EvGetpass prompt r) = true) ->
  quiet allowed touched (getpass prompt).
Proof.
  intros He w r w' evs. unfold getpass.
  destruct (w_tty w); intros [= <- <- <-]; cbn; rewrite He; auto.
Qed.

End QuietPrimitives.

Lemma quiet_emits {A} P t (m : M A) : quiet P t m -> emits P m.
Proof. intros Hm w r w' evs Hrun. by destruct (Hm _ _ _ _ Hrun) as (_ & _ & _ & L). Qed.

Lemma emits_bind {A B} P (m : M A) (f : A -> M B) :
  emits P m -> (forall a, emits P (f a)) -> emits P (m ≫= f).
Proof.
  intros Hm Hf w r w' evs. rewrite bind_run.
  destruct (m w) as [[[a|e] w1] e1] eqn:Em.
  - destruct (f a w1) as [[r2 w2] e2] eqn:Ef. intros [= <- <- <-].
    rewrite forallb_app, (Hm _ _ _ _ Em), (Hf _ _ _ _ _ Ef). done.
  - intros [= <- <- <-]. eauto.
Qed.

Lemma emits_weaken {A} (P Q : Event -> bool) (m : M A) :
  (forall e, P e = true -> Q e = true) -> emits P m -> emits Q m.
Proof.
  intros HPQ Hm w r w' evs Hrun. apply forallb_forall. intros e He.
  apply HPQ. generalize (Hm _ _ _ _ Hrun). rewrite forallb_forall. auto.
Qed.

Lemma forallb_not_In {A} (P : A -> bool) (l : list A) (x : A) :
  forallb P l = true -> P x = false -> ~ In x l.
Proof.
  rewrite forallb_forall. intros Hl Hx Hin. apply Hl in Hin. congruence.
Qed.

(** An event of another kind is not in a list of events of one kind. *)
Ltac not_in_pre Hin :=
  exfalso; eapply forallb_not_In; [eassumption| |exact Hin]; reflexivity.

Ltac refute_in L Hin :=
  exfalso; eapply forallb_not_In; [exact L| |exact Hin]; reflexivity.

Lemma forallb_weaken {A} (P Q : A -> bool) (l : list A) :
  (forall x, P x = true -> Q x = true) ->
  forallb P l = true -> forallb Q l = true.
Proof. rewrite !forallb_forall. auto. Qed.

Lemma forallb_filter_nil {A} (P Q : A -> bool) (l : list A) :
  forallb P l = true -> (forall x, P x = true -> Q x = false) ->
  List.filter Q l = [].
Proof.
  intros Hl HPQ. induction l as [|x l IH]; [done|].
  cbn in *. apply andb_prop in Hl as [Hx Hl]. rewrite (HPQ _ Hx). auto.
Qed.

Ltac unfold_monad :=
  unfold when, sys_exit, opt_get, opt_set, print, opt_index, mbind, M_bind,
    bind, mret, M_ret, ret, raise, gets, modify, lift, emit, try in *.

Ltac red_all :=
  cbv beta iota zeta delta
    [default from_option id negb andb orb fst snd
     result_of world_of events_of] in *;
  cbn [app w_fs w_options w_tty w_stdin w_seed w_env set_options set_fs
       set_stdin set_tty set_seed] in *.

Ltac not_touched :=
  repeat (apply not_elem_of_cons; split; [discriminate|]);
  apply not_elem_of_nil.

Ltac quiet_step :=
  lazymatch goal with
  | |- quiet _ _ (mbind _ _) => apply quiet_bind; [|intros ?]
  | |- quiet _ _ (mret _) => apply quiet_ret
  | |- quiet _ _ (raise _) => apply quiet_raise
  | |- quiet _ _ (sys_exit _) => apply quiet_raise
  | |- quiet _ _ (opt_index _) => apply quiet_opt_index
  | |- quiet _ _ (opt_get _) => apply quiet_opt_get
  | |- quiet _ _ (gets _) => apply quiet_gets
  | |- quiet _ _ (path_exists _) => apply quiet_path_exists
  | |- quiet _ _ (opt_set _ _) => apply quiet_opt_set; repeat constructor
  | |- quiet _ _ (when _ _) => apply quiet_when
  | |- quiet _ _ (try _) => apply quiet_try
  | |- quiet _ _ (input _) => apply quiet_input; reflexivity
  | |- quiet _ _ (_inputSaveFile _) => apply quiet_input; reflexivity
  | |- quiet _ _ (getpass _) => apply quiet_getpass; reflexivity
  | |- quiet _ _ (print _) => apply quiet_emit; reflexivity
  | |- quiet _ _ (match ?x with _ => _ end) => destruct x
  end.

Section Blocks.
Context `{KeysLibrary}.

Lemma list_pair_ind {A} (P : list A -> Prop) :
  P [] -> (forall x, P [x]) -> (forall x y l, P l -> P (x :: y :: l)) ->
  forall l, P l.
Proof.
  intros H0 H1 H2 l.
  enough (P l /\ forall x, P (x :: l)) by tauto.
  induction l as [|a l [IH1 IH2]]; split; auto.
Qed.

Lemma passphraseLoop_on_events prompt tty r tty' evs :
  passphraseLoop_on prompt tty = (r, tty', evs) ->
  forallb (is_loop_event prompt) evs = true.
Proof.
  revert r tty' evs.
  induction tty as [|p1|p1 p2 rest IH] using list_pair_ind;
    intros r tty' evs Hrun; cbn in Hrun.
  - inversion Hrun; subst. cbn. by rewrite String.eqb_refl.
  - inversion Hrun; subst. cbn. by rewrite String.eqb_refl, orb_true_r.
  - assert (is_loop_event prompt (EvGetpass prompt (Some p1)) = true) as E1
      by (cbn; by rewrite String.eqb_refl).
    destruct (String.eqb p1 p2).
    + inversion Hrun; subst. cbn -[is_loop_event]. rewrite E1. cbn.
      by rewrite orb_true_r.
    + destruct (passphraseLoop_on prompt rest) as [[r0 t0] e0] eqn:Hrest.
      inversion Hrun; subst. cbn -[is_loop_event]. rewrite E1. cbn.
      rewrite orb_true_r. cbn. by eapply IH.
Qed.

Lemma is_loop_event_dialogue prompt e :
  is_loop_event prompt e = true -> is_dialogue e = true.
Proof. by destruct e. Qed.

Lemma quiet_passphraseLoop prompt t :
  quiet (is_loop_event prompt) t (passphraseLoop prompt).
Proof.
  intros w r w' evs. unfold passphraseLoop.
  destruct (passphraseLoop_on prompt (w_tty w)) as [[r0 t0] e0] eqn:Hloop.
  intros [= <- <- <-]. cbn. repeat split; auto.
  by eapply passphraseLoop_on_events.
Qed.

Lemma quiet_passphraseLoop_dialogue prompt t :
  quiet is_dialogue t (passphraseLoop prompt).
Proof.
  eapply quiet_weaken; [apply is_loop_event_dialogue| |apply quiet_passphraseLoop].
  done.
Qed.

Lemma quiet_getKeyOrDefault kt t :
  quiet is_dialogue t (_getKeyOrDefault None kt).
Proof. unfold _getKeyOrDefault. cbn. repeat quiet_step. Qed.

Lemma quiet_enumrepresentation :
  quiet is_dialogue ["format"] enumrepresentation.
Proof. unfold enumrepresentation. repeat quiet_step. Qed.

Lemma quiet_Key_fromFile f p t :
  quiet is_dialogue_or_load t (Key_fromFile f p).
Proof. intros w r w' evs [= <- <- <-]. auto. Qed.

Lemma is_dialogue_or_load_dialogue e :
  is_dialogue e = true -> is_dialogue_or_load e = true.
Proof. by destruct e. Qed.

Lemma quiet_load_private_key f :
  quiet is_dialogue_or_load ["pass"] (load_private_key f).
Proof.
  unfold load_private_key.
  repeat first [apply quiet_Key_fromFile | quiet_step ].
Qed.

Lemma quiet_ask_new_passphrase :
  quiet is_dialogue ["newpass"] ask_new_passphrase.
Proof.
  unfold ask_new_passphrase.
  repeat first [apply quiet_passphraseLoop_dialogue | quiet_step].
Qed.

Lemma quiet_resolve_subtype key :
  quiet is_dialogue ["private-key-subtype"] (resolve_subtype key).
Proof. unfold resolve_subtype. repeat quiet_step. Qed.

Lemma quiet_getKeyOrDefault_input kt t :
  quiet is_dialogue t (_getKeyOrDefault (Some input) kt).
Proof. unfold _getKeyOrDefault. cbn. repeat quiet_step. Qed.

Lemma quiet_save_path kt :
  quiet is_dialogue [] (save_path kt input).
Proof.
  unfold save_path, as_text.
  repeat first [apply quiet_getKeyOrDefault_input | quiet_step].
Qed.

Lemma quiet_declines yn t : quiet is_dialogue t (declines yn).
Proof. unfold declines. repeat quiet_step. Qed.

Lemma quiet_confirm_overwrite f :
  quiet is_dialogue [] (confirm_overwrite f input).
Proof.
  unfold confirm_overwrite.
  repeat first [apply quiet_declines | quiet_step].
Qed.

Lemma quiet_choose_passphrase :
  quiet is_dialogue ["pass"] choose_passphrase.
Proof.
  unfold choose_passphrase.
  repeat first [apply quiet_passphraseLoop_dialogue | quiet_step].
Qed.

Lemma quiet_report_saved key f :
  quiet is_dialogue ["format"] (report_saved key f).
Proof.
  unfold report_saved.
  repeat first [apply quiet_enumrepresentation | quiet_step].
Qed.

(** *** The blocks around serialisation *)

Lemma serialise_new_run key w r w' evs :
  serialise_new key w = (r, w', evs) ->
  w' = w
  /\ (evs = []
      \/ exists st np, w_options w !! "private-key-subtype" = Some st
           /\ w_options w !! "newpass" = Some np
           /\ evs = [EvToString (Key_type key) st np PNone]
           /\ (forall d, r = Ok d -> Key_toString key st np PNone = Ok d)
           /\ (forall e, r = Raise e ->
                 is_Ok (Key_toString key st np PNone) = false)).
Proof.
  unfold serialise_new, toString. unfold_monad.
  destruct (w_options w !! "private-key-subtype") as [st|]; red_all;
    [|intros [= <- <- <-]; auto].
  destruct (w_options w !! "newpass") as [np|]; red_all;
    [|intros [= <- <- <-]; auto].
  destruct (Key_toString key st np PNone) as [d|e] eqn:Es; red_all.
  - intros [= <- <- <-]. split; [done|]. right. exists st, np.
    split_and!; auto; [by intros ? [= <-]|intros; discriminate].
  - destruct (is_Exception e); red_all; intros [= <- <- <-];
      (split; [done|]; right; exists st, np; split_and!; auto;
       intros; (discriminate || by rewrite Es)).
Qed.

Lemma verify_new_run data w r w' evs :
  verify_new data w = (r, w', evs) ->
  w' = w
  /\ ((evs = [] /\ is_Ok r = false)
      \/ exists np, w_options w !! "newpass" = Some np
           /\ evs = [EvFromString data np]
           /\ is_Ok r = is_Ok (Key_fromString data np)
           /\ (forall e, Key_fromString data np = Raise e ->
                 r = Raise
                       match e with
                       | EncryptedKeyError m | BadKeyError m =>
                           SystemExit
                             (PStr ("Could not change passphrase: " +:+ m))
                       | _ => e
                       end)).
Proof.
  unfold verify_new, fromString. unfold_monad.
  destruct (w_options w !! "newpass") as [np|]; red_all;
    [|intros [= <- <- <-]; auto].
  destruct (Key_fromString data np) as [k|e] eqn:Ev; red_all.
  - intros [= <- <- <-]. split; [done|]. right. exists np.
    split_and!; auto; [by rewrite Ev | intros; congruence].
  - destruct e; red_all; intros [= <- <- <-];
      (split; [done|]; right; exists np; split_and!; auto;
       [by rewrite Ev | intros ? He; rewrite Ev in He; by injection He as <-]).
Qed.

End Blocks.

(** ** [changePassPhrase] *)

Section ChangePassPhrase.
Context `{KeysLibrary}.

Lemma resolve_subtype_run key w r w' evs :
  resolve_subtype key w = (r, w', evs) ->
  r = Ok tt /\ evs = [] /\ w_fs w' = w_fs w /\ w_env w' = w_env w
  /\ w_options w' !! "private-key-subtype"
     = Some (resolved_subtype (w_options w) (Key_type key))
  /\ (forall k, k ≠ "private-key-subtype" ->
        w_options w' !! k = w_options w !! k).
Proof.
  unfold resolve_subtype, resolved_subtype. unfold_monad. red_all.
  destruct (w_options w !! "private-key-subtype") as [v|] eqn:Ev; red_all.
  - destruct (bool_decide (v = PNone)) eqn:Eb; red_all;
      intros [= <- <- <-]; cbn.
    + apply bool_decide_eq_true in Eb. subst v.
      rewrite lookup_insert_eq. split_and!; auto.
      intros k Hk. by rewrite lookup_insert_ne.
    + apply bool_decide_eq_false in Eb.
      split_and!; auto. rewrite Ev. by destruct v.
  - rewrite bool_decide_eq_true_2 by done. red_all. intros [= <- <- <-]. cbn.
    rewrite lookup_insert_eq. split_and!; auto.
    intros k Hk. by rewrite lookup_insert_ne.
Qed.

(** The shape of every run of [changePassPhrase]: a dialogue with the
    operator and the loading of the key, then at most the
    serialisation, the round-trip check, the write and the final
    message, in this order.  The serialisation and the check are under
    the new passphrase, which the options hold from then on, and the
    write is attempted only after a check that succeeded. *)
Lemma changePassPhrase_shape w r w' evs :
  changePassPhrase w = (r, w', evs) ->
  exists pre tail,
    evs = pre ++ tail /\ forallb is_dialogue_or_load pre = true
    /\ ((tail = [] /\ is_Ok r = false /\ w_fs w' = w_fs w)
        \/ exists key st np,
             st = resolved_subtype (w_options w) (Key_type key)
             /\ w_options w' !! "newpass" = Some np
             /\ ((tail = [EvToString (Key_type key) st np PNone]
                  /\ is_Ok r = false /\ w_fs w' = w_fs w
                  /\ is_Ok (Key_toString key st np PNone) = false)
                 \/ exists d,
                      Key_toString key st np PNone = Ok d
                      /\ ((tail = [EvToString (Key_type key) st np PNone;
                                   EvFromString d np]
                           /\ w_fs w' = w_fs w
                           /\ exists e, Key_fromString d np = Raise e
                                /\ r = Raise (verification_error e))
                          \/ exists f k m,
                               Key_fromString d np = Ok k
                               /\ match e_write (w_env w) f d with
                                  | Written =>
                                      tail = [EvToString (Key_type key) st np PNone;
                                              EvFromString d np;
                                              EvWrite f d m;
                                              EvPrint "Your identification has been saved with the new passphrase."]
                                      /\ r = Ok tt
                                      /\ w_fs w' = <[f := mkFile d m]> (w_fs w)
                                  | Refused e =>
                                      tail = [EvToString (Key_type key) st np PNone;
                                              EvFromString d np]
                                      /\ r = Raise e
                                      /\ w_fs w' = w_fs w
                                  | Torn e n =>
                                      tail = [EvToString (Key_type key) st np PNone;
                                              EvFromString d np;
                                              EvWrite f (String.substring 0 n d) m]
                                      /\ r = Raise e
                                      /\ w_fs w'
                                         = <[f := mkFile (String.substring 0 n d) m]>
                                             (w_fs w)
                                  end))).
Proof.
  unfold changePassPhrase. intros Hrun.
  (* filename = _getKeyOrDefault(options) *)
  rewrite bind_run in Hrun.
  destruct (_getKeyOrDefault None None w) as [[[f|e] w1] e1] eqn:E1;
    destruct (quiet_getKeyOrDefault None [] _ _ _ _ E1) as (F1 & V1 & O1 & L1);
    apply (forallb_weaken _ _ _ is_dialogue_or_load_dialogue) in L1.
  2:{ injection Hrun as <- <- <-. exists e1, []. rewrite app_nil_r. auto 10. }
  (* the key is loaded *)
  rewrite bind_run in Hrun.
  destruct (load_private_key f w1) as [[[key|e] w2] e2] eqn:E2;
    destruct (quiet_load_private_key _ _ _ _ _ E2) as (F2 & V2 & O2 & L2).
  2:{ injection Hrun as <- <- <-. exists (e1 ++ e2), [].
      rewrite app_nil_r, forallb_app, L1, L2. split_and!; auto.
      left. split_and!; auto. congruence. }
  (* the new passphrase *)
  rewrite bind_run in Hrun.
  destruct (ask_new_passphrase w2) as [[[[]|e] w3] e3] eqn:E3;
    destruct (quiet_ask_new_passphrase _ _ _ _ E3) as (F3 & V3 & O3 & L3);
    apply (forallb_weaken _ _ _ is_dialogue_or_load_dialogue) in L3.
  2:{ injection Hrun as <- <- <-. exists (e1 ++ e2 ++ e3), [].
      rewrite app_nil_r, !forallb_app, L1, L2, L3. split_and!; auto.
      left. split_and!; auto. congruence. }
  (* the subtype *)
  rewrite bind_run in Hrun.
  destruct (resolve_subtype key w3) as [[r4 w4] e4] eqn:E4.
  destruct (resolve_subtype_run _ _ _ _ _ E4) as (-> & -> & F4 & V4 & S4 & O4).
  assert (resolved_subtype (w_options w3) (Key_type key)
          = resolved_subtype (w_options w) (Key_type key)) as Hst.
  { unfold resolved_subtype.
    rewrite O3, O2, O1 by not_touched. done. }
  rewrite Hst in S4. clear Hst.
  assert (w_fs w4 = w_fs w) as F by congruence.
  assert (w_env w4 = w_env w) as V by congruence.
  (* the serialisation *)
  rewrite bind_run in Hrun.
  destruct (serialise_new key w4) as [[[d|e] w5] e5] eqn:E5;
    destruct (serialise_new_run _ _ _ _ _ E5) as (-> & S5).
  2:{ injection Hrun as <- <- <-. exists (e1 ++ e2 ++ e3).
      destruct S5 as [-> | (st & np & Hst & Hnp & -> & _ & Hfail)].
      - exists []. rewrite !app_nil_r, !forallb_app, L1, L2, L3.
        split_and!; auto; by rewrite <- ?app_assoc.
      - exists [EvToString (Key_type key) st np PNone].
        rewrite !forallb_app, L1, L2, L3.
        split_and!; auto; try by rewrite <- !app_assoc.
        right. exists key, st, np. split; [congruence|]. split; [done|].
        left. split_and!; auto. by apply (Hfail e). }
  destruct S5 as [-> | (st & np & Hst & Hnp & -> & Hd & _)].
  { (* without an event there is no serialised key *)
    exfalso. revert E5. unfold serialise_new, toString. unfold_monad.
    destruct (w_options w4 !! "private-key-subtype"); [|done].
    destruct (w_options w4 !! "newpass"); [|done]. red_all.
    destruct (Key_toString key p p0 PNone) as [|e0]; [done|].
    destruct (is_Exception e0); done. }
  specialize (Hd _ eq_refl).
  assert (st = resolved_subtype (w_options w) (Key_type key)) as Est
    by congruence.
  (* the round-trip check *)
  rewrite bind_run in Hrun.
  destruct (verify_new d w4) as [[[[]|e] w6] e6] eqn:E6;
    destruct (verify_new_run _ _ _ _ _ E6) as (-> & S6).
  2:{ injection Hrun as <- <- <-. exists (e1 ++ e2 ++ e3).
      destruct S6 as [[-> _] | (np' & Hnp' & -> & Hok & He)].
      - exfalso. revert E6. unfold verify_new, fromString. unfold_monad.
        rewrite Hnp. red_all. by destruct (Key_fromString d np) as [|[]].
      - assert (np' = np) as -> by congruence.
        exists [EvToString (Key_type key) st np PNone; EvFromString d np].
        rewrite !forallb_app, L1, L2, L3.
        split_and!; auto; try by rewrite <- !app_assoc.
        right. exists key, st, np. split; [done|]. split; [done|].
        right. exists d.
        split; [done|]. left. split_and!; auto.
        destruct (Key_fromString d np) as [k|e'] eqn:Ev; [done|].
        exists e'. split; [done|]. apply (He e' eq_refl). }
  destruct S6 as [[_ ?] | (np' & Hnp' & -> & Hok & He)]; [done|].
  assert (np' = np) as -> by congruence.
  destruct (Key_fromString d np) as [k|e'] eqn:Ev; [|done].
  (* the write and the message *)
  unfold open_wb_write in Hrun. unfold_monad. red_all. rewrite V in Hrun.
  revert Hrun.
  set (m := match w_fs w4 !! f with
            | Some f0 => f_mode f0
            | None => create_mode (w_env w) (octal "666")
            end).
  intros Hrun. exists (e1 ++ e2 ++ e3).
  assert (forall tail,
            evs = e1 ++ e2 ++ e3 ++ EvToString (Key_type key) st np PNone
                       :: EvFromString d np :: tail ->
            evs = (e1 ++ e2 ++ e3)
                  ++ EvToString (Key_type key) st np PNone
                       :: EvFromString d np :: tail) as Hassoc.
  { intros tail ->. by rewrite <- !app_assoc. }
  revert Hrun.
  destruct (e_write (w_env w) f d) as [|e|e n] eqn:Ew; red_all;
    intros [= <- <- <-]; eexists;
    (split; [apply Hassoc; reflexivity|]);
    rewrite !forallb_app, L1, L2, L3; (split; [done|]);
    right; exists key, st, np; (split; [done|]); (split; [done|]);
    right; exists d; (split; [done|]); right; exists f, k, m;
    (split; [done|]); rewrite Ew; cbn [w_fs set_fs]; rewrite ?F; done.
Qed.

End ChangePassPhrase.

(** ** [_saveKey] *)

Section SaveKey.
Context `{KeysLibrary}.

Lemma chmod_owner_only :
  Z.lor S_IFREG (Z.land (octal "100600") (octal "7777")) = octal "100600".
Proof. reflexivity. Qed.

(** The runs of lines 383-397: the private key is serialised, written
    and restricted, then the public key is serialised and written; a
    serialisation, a write or the change of mode that fails ends
    them. *)
Lemma write_key_pair_run key f w r w' evs :
  write_key_pair key f w = (r, w', evs) ->
  let m := create_mode (w_env w) (octal "777") in
  let pubser := EvToString (Key_type (Key_public key)) PNone PNone
                  (PStr (key_comment (w_env w))) in
  (evs = [] /\ is_Ok r = false /\ w' = w)
  \/ exists st pass,
       let ser := EvToString (Key_type key) st pass PNone in
       w_options w !! "private-key-subtype" = Some st
       /\ w_options w !! "pass" = Some pass
       /\ ((evs = [ser] /\ w' = w
            /\ exists e,
                 (Key_toString key st pass PNone = Raise e
                  \/ exists d,
                       Key_toString key st pass PNone = Ok d
                       /\ write_error (e_write (w_env w) f d) = Some e)
                 /\ r = Raise e)
           \/ exists d,
                Key_toString key st pass PNone = Ok d
                /\ e_write (w_env w) f d = Written
                /\ ((evs = [ser; EvSetContent f d m]
                     /\ w' = set_fs (<[f := mkFile d m]> (w_fs w)) w
                     /\ exists e,
                          e_chmod (w_env w) f (octal "100600") = Some e
                          /\ r = Raise e)
                    \/ e_chmod (w_env w) f (octal "100600") = None
                       /\ ((evs = [ser; EvSetContent f d m;
                                   EvChmod f (octal "100600"); pubser]
                            /\ w' = set_fs (<[f := mkFile d (octal "100600")]>
                                              (w_fs w)) w
                            /\ exists e,
                                 (Key_toString (Key_public key) PNone PNone
                                    (PStr (key_comment (w_env w))) = Raise e
                                  \/ exists pd,
                                       Key_toString (Key_public key) PNone PNone
                                         (PStr (key_comment (w_env w))) = Ok pd
                                       /\ write_error
                                            (e_write (w_env w) (f +:+ ".pub") pd)
                                          = Some e)
                                 /\ r = Raise e)
                           \/ exists pd,
                                Key_toString (Key_public key) PNone PNone
                                  (PStr (key_comment (w_env w))) = Ok pd
                                /\ e_write (w_env w) (f +:+ ".pub") pd = Written
                                /\ evs = [ser; EvSetContent f d m;
                                          EvChmod f (octal "100600"); pubser;
                                          EvSetContent (f +:+ ".pub") pd m]
                                /\ r = Ok tt
                                /\ w' = set_fs
                                         (<[(f +:+ ".pub") := mkFile pd m]>
                                            (<[f := mkFile d (octal "100600")]>
                                               (w_fs w)))
                                         w))).
Proof.
  unfold write_key_pair, toString, setContent, chmod, key_comment.
  unfold_monad. red_all.
  destruct (w_options w !! "private-key-subtype") as [st|] eqn:Est; red_all;
    [|intros [= <- <- <-]; auto].
  destruct (w_options w !! "pass") as [pass|] eqn:Epass; red_all;
    [|intros [= <- <- <-]; auto].
  intros Hrun. right. exists st, pass. split_and!; auto.
  destruct (Key_toString key st pass PNone) as [d|e] eqn:Ed; red_all.
  2:{ injection Hrun as <- <- <-. left. eauto 10. }
  destruct (e_write (w_env w) f d) as [|e|e n] eqn:Ew; red_all.
  2,3: injection Hrun as <- <- <-; left; split_and!; auto;
       exists e; split; [|done]; right; exists d; by rewrite Ew.
  right. exists d. split; [done|]. split; [done|].
  rewrite lookup_insert_eq in Hrun. red_all.
  destruct (e_chmod (w_env w) f (octal "100600")) as [e|] eqn:Ec; red_all.
  { injection Hrun as <- <- <-. left. eauto. }
  right. split; [done|].
  rewrite insert_insert_eq, chmod_owner_only in Hrun.
  destruct (Key_toString (Key_public key) PNone PNone _) as [pd|e] eqn:Ep;
    red_all.
  2:{ injection Hrun as <- <- <-. left. split_and!; eauto. }
  destruct (e_write (w_env w) (f +:+ ".pub") pd) as [|e|e n] eqn:Ewp; red_all;
    injection Hrun as <- <- <-.
  - right. exists pd. auto.
  - left. split_and!; auto. exists e. split; [|done]. right. exists pd.
    by rewrite Ewp.
  - left. split_and!; auto. exists e. split; [|done]. right. exists pd.
    by rewrite Ewp.
Qed.

(** The run of lines 383-397 in which nothing fails. *)
Lemma write_key_pair_ok key f w st pass d pd :
  w_options w !! "private-key-subtype" = Some st ->
  w_options w !! "pass" = Some pass ->
  Key_toString key st pass PNone = Ok d ->
  Key_toString (Key_public key) PNone PNone (PStr (key_comment (w_env w)))
  = Ok pd ->
  e_write (w_env w) f d = Written ->
  e_chmod (w_env w) f (octal "100600") = None ->
  e_write (w_env w) (f +:+ ".pub") pd = Written ->
  let m := create_mode (w_env w) (octal "777") in
  write_key_pair key f w
  = (Ok tt,
     set_fs (<[(f +:+ ".pub") := mkFile pd m]>
               (<[f := mkFile d (octal "100600")]> (w_fs w))) w,
     [EvToString (Key_type key) st pass PNone; EvSetContent f d m;
      EvChmod f (octal "100600");
      EvToString (Key_type (Key_public key)) PNone PNone
        (PStr (key_comment (w_env w)));
      EvSetContent (f +:+ ".pub") pd m]).
Proof.
  intros Hst Hpass Hd Hpd Hw Hc Hwp m.
  destruct (write_key_pair key f w) as [[r w'] evs] eqn:E.
  revert E. unfold write_key_pair, toString, setContent, chmod, key_comment.
  unfold_monad. red_all. rewrite Hst. red_all. rewrite Hpass. red_all.
  rewrite Hd. red_all. rewrite Hw. red_all.
  rewrite lookup_insert_eq. red_all. rewrite Hc. red_all.
  rewrite insert_insert_eq, chmod_owner_only.
  unfold key_comment in Hpd. rewrite Hpd. red_all. rewrite Hwp. red_all.
  by intros [= <- <- <-].
Qed.

Lemma enumrepresentation_unsupported w v :
  w_options w !! "format" = Some v ->
  v ≠ PStr "md5-hex" -> v ≠ PStr "sha256-base64" ->
  enumrepresentation w
  = (Raise (BadFingerPrintFormat
              ("Unsupported fingerprint format: " +:+ py_str v)), w, []).
Proof.
  intros Hv H1 H2. unfold enumrepresentation. unfold_monad. rewrite Hv.
  red_all. rewrite decide_False by done. rewrite Hv. red_all.
  rewrite decide_False by done. rewrite Hv. reflexivity.
Qed.

(** The shape of every run of [_saveKey] with the default collector: a
    dialogue, then at most the events of the two writes, then the
    report. *)
Lemma saveKey_shape key w r w' evs :
  _saveKey key None w = (r, w', evs) ->
  exists pre tail,
    evs = pre ++ tail /\ forallb is_dialogue pre = true
    /\ ((tail = [] /\ is_Ok r = false /\ w_fs w' = w_fs w)
        \/ exists ktn f w1 e1 pass,
             KeyTypeMapping !! Key_type key = Some ktn
             /\ save_path ktn input w = (Ok f, w1, e1)
             /\ saveKey_outcome key w f pass tail r w').
Proof.
  unfold _saveKey, saveKey_outcome. cbn [default from_option]. intros Hrun.
  (* keyTypeName = KeyTypeMapping[key.type()] *)
  rewrite bind_run in Hrun. unfold dict_index in Hrun at 1.
  destruct (KeyTypeMapping !! Key_type key) as [ktn|] eqn:Hktn;
    unfold_monad; red_all.
  2:{ injection Hrun as <- <- <-. exists [], []. auto 10. }
  (* the path *)
  destruct (save_path ktn input w) as [[[f|e] w1] e1] eqn:E1;
    destruct (quiet_save_path _ _ _ _ _ E1) as (F1 & V1 & O1 & L1).
  2:{ injection Hrun as <- <- <-. exists e1, []. rewrite app_nil_r. auto 10. }
  (* the confirmation *)
  destruct (confirm_overwrite f input w1) as [[[[]|e] w2] e2] eqn:E2;
    destruct (quiet_confirm_overwrite _ _ _ _ _ E2) as (F2 & V2 & O2 & L2).
  2:{ injection Hrun as <- <- <-. exists (e1 ++ e2), [].
      rewrite app_nil_r, forallb_app, L1, L2. split_and!; auto.
      left. split_and!; auto. congruence. }
  (* the passphrase *)
  destruct (choose_passphrase w2) as [[[[]|e] w3] e3] eqn:E3;
    destruct (quiet_choose_passphrase _ _ _ _ E3) as (F3 & V3 & O3 & L3).
  2:{ injection Hrun as <- <- <-. exists (e1 ++ e2 ++ e3), [].
      rewrite app_nil_r, !forallb_app, L1, L2, L3. split_and!; auto.
      left. split_and!; auto. congruence. }
  (* the subtype *)
  destruct (resolve_subtype key w3) as [[r4 w4] e4] eqn:E4.
  destruct (resolve_subtype_run _ _ _ _ _ E4) as (-> & -> & F4 & V4 & S4 & O4).
  assert (resolved_subtype (w_options w3) (Key_type key)
          = resolved_subtype (w_options w) (Key_type key)) as Hst.
  { unfold resolved_subtype.
    rewrite O3, O2, O1 by not_touched. done. }
  rewrite Hst in S4. clear Hst.
  assert (w_fs w4 = w_fs w) as F by congruence.
  assert (w_env w4 = w_env w) as V by congruence.
  (* the two files *)
  destruct (write_key_pair key f w4) as [[r5 w5] e5] eqn:E5.
  destruct (write_key_pair_run _ _ _ _ _ _ E5)
    as [(-> & Hr & ->) | (st & pass & Hst & Hpass & Hcases)].
  { destruct r5 as [[]|e]; [done|]. injection Hrun as <- <- <-.
    exists (e1 ++ e2 ++ e3), []. rewrite !app_nil_r, !forallb_app, L1, L2, L3.
    split_and!; auto. }
  assert (st = resolved_subtype (w_options w) (Key_type key)) as ->
    by congruence.
  rewrite V in Hcases.
  destruct Hcases
    as [(-> & -> & e & He & ->)
       | (d & Hd & Hw & [(-> & -> & e & He & ->)
            | (Hc & [(-> & -> & e & He & ->)
                    | (pd & Hpd & Hwp & -> & -> & ->)])])].
  - injection Hrun as <- <- <-. exists (e1 ++ e2 ++ e3). eexists.
    rewrite !forallb_app, L1, L2, L3.
    split; [by rewrite <- !app_assoc|]. split; [done|].
    right. exists ktn, f, w1, e1, pass. split; [done|]. split; [done|]. left. eauto.
  - injection Hrun as <- <- <-. exists (e1 ++ e2 ++ e3). eexists.
    rewrite !forallb_app, L1, L2, L3.
    split; [by rewrite <- !app_assoc|]. split; [done|].
    right. exists ktn, f, w1, e1, pass. split; [done|]. split; [done|]. right. exists d. split; [done|]. split; [done|].
    left. split_and!; eauto. cbn [w_fs set_fs]. by rewrite F.
  - injection Hrun as <- <- <-. exists (e1 ++ e2 ++ e3). eexists.
    rewrite !forallb_app, L1, L2, L3.
    split; [by rewrite <- !app_assoc|]. split; [done|].
    right. exists ktn, f, w1, e1, pass. split; [done|]. split; [done|]. right. exists d. split; [done|]. split; [done|].
    right. split; [done|].
    left. split_and!; eauto. cbn [w_fs set_fs]. by rewrite F.
  - (* the report *)
    destruct (report_saved key f _) as [[r6 w6] e6] eqn:E6.
    destruct (quiet_report_saved _ _ _ _ _ _ E6) as (F6 & _ & _ & L6).
    injection Hrun as <- <- <-. exists (e1 ++ e2 ++ e3). eexists.
    rewrite !forallb_app, L1, L2, L3.
    split; [by rewrite <- !app_assoc|]. split; [done|].
    right. exists ktn, f, w1, e1, pass. split; [done|]. split; [done|]. right. exists d. split; [done|]. split; [done|].
    right. split; [done|].
    right. exists pd, e6. split_and!; auto.
    + rewrite F6. cbn [w_fs set_fs]. by rewrite F.
    + intros v Hv H1 H2.
      assert (w_options w4 !! "format" = Some v) as Hv4.
      { rewrite O4 by done. rewrite O3, O2, O1 by not_touched. done. }
      revert E6. unfold report_saved. rewrite bind_run.
      rewrite (enumrepresentation_unsupported _ v) by done.
      by intros [= <- <- <-].
Qed.

(** [_saveKey] once its dialogue has gone through: the subtype is
    resolved, and what remains is the two files and the report. *)
Lemma saveKey_after_dialogue key w ktn f w1 e1 w2 e2 w3 e3 :
  KeyTypeMapping !! Key_type key = Some ktn ->
  save_path ktn input w = (Ok f, w1, e1) ->
  confirm_overwrite f input w1 = (Ok tt, w2, e2) ->
  choose_passphrase w2 = (Ok tt, w3, e3) ->
  exists w4,
    w_fs w4 = w_fs w /\ w_env w4 = w_env w
    /\ w_options w4 !! "private-key-subtype"
       = Some (resolved_subtype (w_options w) (Key_type key))
    /\ w_options w4 !! "pass" = w_options w3 !! "pass"
    /\ w_options w4 !! "format" = w_options w !! "format"
    /\ _saveKey key None w
       = (let '(r, w', e) := (write_key_pair key f;; report_saved key f) w4 in
          (r, w', e1 ++ e2 ++ e3 ++ e)).
Proof.
  intros Hktn E1 E2 E3.
  destruct (quiet_save_path _ _ _ _ _ E1) as (F1 & V1 & O1 & L1).
  destruct (quiet_confirm_overwrite _ _ _ _ _ E2) as (F2 & V2 & O2 & L2).
  destruct (quiet_choose_passphrase _ _ _ _ E3) as (F3 & V3 & O3 & L3).
  destruct (resolve_subtype key w3) as [[r4 w4] e4] eqn:E4.
  destruct (resolve_subtype_run _ _ _ _ _ E4) as (-> & -> & F4 & V4 & S4 & O4).
  exists w4. split_and!; try congruence.
  - rewrite S4. unfold resolved_subtype.
    rewrite O3, O2, O1 by not_touched. done.
  - by apply O4.
  - rewrite O4 by done. rewrite O3, O2, O1 by not_touched. done.
  - unfold _saveKey. cbn [default from_option].
    rewrite (bind_pure _ _ _ ktn) by (unfold dict_index; by rewrite Hktn).
    rewrite (bind_ok _ _ _ _ _ _ E1), (bind_ok _ _ _ _ _ _ E2),
      (bind_ok _ _ _ _ _ _ E3), (bind_ok _ _ _ _ _ _ E4).
    destruct (mbind _ (write_key_pair key f) w4) as [[r w'] e]. cbn [app].
    reflexivity.
Qed.

End SaveKey.

(** ** The claims *)

Lemma run_eta {A} (o : result A * World * list Event) :
  o = (result_of o, world_of o, events_of o).
Proof. by destruct o as [[? ?] ?]. Qed.

Lemma substring_prefix (n : nat) (s : string) :
  String.prefix (String.substring 0 n s) s = true.
Proof.
  revert n. induction s as [|c s IH]; intros [|n]; cbn; try done.
  destruct (ascii_dec c c); [apply IH|done].
Qed.

Lemma prefix_refl (s : string) : String.prefix s s = true.
Proof.
  induction s as [|c s IH]; cbn; [done|].
  by destruct (ascii_dec c c).
Qed.

Lemma append_ne_self (s1 s2 : string) : s2 ≠ "" -> s1 +:+ s2 ≠ s1.
Proof.
  intros Hs2. induction s1 as [|c s1 IH].
  - done.
  - change (String c s1 +:+ s2) with (String c (s1 +:+ s2)).
    intros [= Heq]. by apply IH.
Qed.

Section Claims.
Context `{KeysLibrary}.

(** C1.  In every run of [changePassPhrase] the round-trip check is the
    re-parsing, under the new passphrase the options hold, of the bytes
    the key has just been serialised to under that passphrase.  When the
    check fails, the run ends with an error — the [SystemExit] carrying
    "Could not change passphrase: ..." when the parser raised
    [BadKeyError] or [EncryptedKeyError], the exception itself
    otherwise —, the files are what they were, and no write was
    attempted.  A write, when there is one, comes after a check that
    succeeded, and what it puts in the file is the bytes checked, or
    their first part when the system fails in the middle of it; when
    there is none the files are what they were.  A run that succeeds has
    written. *)
Theorem changePassPhrase_verifies_before_writing w r w' evs :
  changePassPhrase w = (r, w', evs) ->
  (forall data pass,
     In (EvFromString data pass) evs ->
     w_options w' !! "newpass" = Some pass
     /\ exists key st,
          In (EvToString (Key_type key) st pass PNone) evs
          /\ Key_toString key st pass PNone = Ok data)
  /\ (forall data pass e,
        In (EvFromString data pass) evs ->
        Key_fromString data pass = Raise e ->
        r = Raise (verification_error e) /\ w_fs w' = w_fs w
        /\ forall p d m, ~ In (EvWrite p d m) evs)
  /\ (forall p d m,
        In (EvWrite p d m) evs ->
        exists before after full pass,
          evs = before ++ EvWrite p d m :: after
          /\ w_options w' !! "newpass" = Some pass
          /\ In (EvFromString full pass) before
          /\ is_Ok (Key_fromString full pass) = true
          /\ String.prefix d full = true
          /\ (is_Ok r = true -> d = full)
          /\ forall p' d' m', ~ In (EvWrite p' d' m') before)
  /\ ((forall p d m, ~ In (EvWrite p d m) evs) -> w_fs w' = w_fs w)
  /\ (is_Ok r = true ->
      exists p d m,
        In (EvWrite p d m) evs /\ w_fs w' !! p = Some (mkFile d m)).
Proof.
  intros Hrun.
  destruct (changePassPhrase_shape _ _ _ _ Hrun)
    as (pre & tail & -> & Lpre & Hshape).
  assert (forall p d m, ~ In (EvWrite p d m) pre) as Hnw.
  { intros p d m Hin. not_in_pre Hin. }
  assert (forall d p, ~ In (EvFromString d p) pre) as Hnv.
  { intros d p Hin. not_in_pre Hin. }
  assert (forall key st np d rest,
            w_options w' !! "newpass" = Some np ->
            Key_toString key st np PNone = Ok d ->
            (forall d' p', ~ In (EvFromString d' p') rest) ->
            forall data pass,
              In (EvFromString data pass)
                 (pre ++ EvToString (Key_type key) st np PNone
                      :: EvFromString d np :: rest) ->
              data = d /\ pass = np
              /\ w_options w' !! "newpass" = Some pass
              /\ exists key0 st0,
                   In (EvToString (Key_type key0) st0 pass PNone)
                      (pre ++ EvToString (Key_type key) st np PNone
                           :: EvFromString d np :: rest)
                   /\ Key_toString key0 st0 pass PNone = Ok data) as Hcheck.
  { intros key st np d rest Hnp Hd Hrest data pass
      [Hin|[Hin|[Hin|Hin]]]%in_app_or;
      [by apply Hnv in Hin|done| |by apply Hrest in Hin].
    injection Hin as <- <-. split_and!; try done.
    exists key, st. split; [|done]. apply in_or_app. right. by left. }
  assert (forall key st np d part m f rest,
            w_options w' !! "newpass" = Some np ->
            is_Ok (Key_fromString d np) = true ->
            String.prefix part d = true ->
            (is_Ok r = true -> part = d) ->
            (forall p' d' m', ~ In (EvWrite p' d' m') rest) ->
            forall p d' m',
              In (EvWrite p d' m')
                 (pre ++ EvToString (Key_type key) st np PNone
                      :: EvFromString d np :: EvWrite f part m :: rest) ->
              exists before after full pass,
                pre ++ EvToString (Key_type key) st np PNone
                    :: EvFromString d np :: EvWrite f part m :: rest
                = before ++ EvWrite p d' m' :: after
                /\ w_options w' !! "newpass" = Some pass
                /\ In (EvFromString full pass) before
                /\ is_Ok (Key_fromString full pass) = true
                /\ String.prefix d' full = true
                /\ (is_Ok r = true -> d' = full)
                /\ forall p' d' m', ~ In (EvWrite p' d' m') before) as Hwrite.
  { intros key st np d part m f rest Hnp Hok Hpart Hfull Hrest p d' m'
      [Hin|[Hin|[Hin|[Hin|Hin]]]]%in_app_or;
      [by apply Hnw in Hin|done|done| |by apply Hrest in Hin].
    injection Hin as <- <- <-.
    exists (pre ++ [EvToString (Key_type key) st np PNone; EvFromString d np]),
      rest, d, np.
    split_and!; try done.
    - by rewrite <- app_assoc.
    - apply in_or_app. right. right. by left.
    - intros p' d' m' [Hin|[Hin|[Hin|[]]]]%in_app_or;
        [by apply Hnw in Hin|done..]. }
  destruct Hshape as [(-> & Hr & Hfs)
    | (key & st & np & Hst & Hnp & [(-> & Hr & Hfs & Hser)
        | (d & Hd & [(-> & Hfs & e & He & ->)
                    | (f & k & m0 & Hk & Hw)])])].
  - rewrite app_nil_r. split_and!; auto.
    + intros data pass Hin. by apply Hnv in Hin.
    + intros data pass e Hin. by apply Hnv in Hin.
    + intros p d m Hin. by apply Hnw in Hin.
    + intros Hr'. congruence.
  - split_and!; auto.
    + intros data pass [Hin|[Hin|[]]]%in_app_or; [by apply Hnv in Hin|done].
    + intros data pass e [Hin|[Hin|[]]]%in_app_or; [by apply Hnv in Hin|done].
    + intros p d m [Hin|[Hin|[]]]%in_app_or; [by apply Hnw in Hin|done].
    + intros Hr'. congruence.
  - split_and!; auto.
    + intros data pass Hin.
      destruct (Hcheck key st np d [] Hnp Hd ltac:(by intros ? ? []) _ _ Hin)
        as (_ & _ & Hp & Hs).
      split; [exact Hp|exact Hs].
    + intros data pass e' Hin Hfail.
      destruct (Hcheck key st np d [] Hnp Hd ltac:(by intros ? ? []) _ _ Hin)
        as (-> & -> & _).
      rewrite He in Hfail. injection Hfail as <-. split_and!; auto.
      intros p d' m [Hin'|[Hin'|[Hin'|[]]]]%in_app_or;
        [by apply Hnw in Hin'|done..].
    + intros p d' m [Hin|[Hin|[Hin|[]]]]%in_app_or;
        [by apply Hnw in Hin|done..].
    + done.
  - destruct (e_write (w_env w) f d) as [|e|e n];
      destruct Hw as (-> & -> & Hfs).
    + assert (forall d' p',
                ~ In (EvFromString d' p')
                     [EvWrite f d m0;
                      EvPrint "Your identification has been saved with the new passphrase."])
        as Hrest by (by intros ? ? [?|[?|[]]]).
      split_and!.
      * intros data pass Hin.
        destruct (Hcheck key st np d _ Hnp Hd Hrest _ _ Hin)
          as (_ & _ & Hp & Hs).
        split; [exact Hp|exact Hs].
      * intros data pass e' Hin Hfail.
        destruct (Hcheck key st np d _ Hnp Hd Hrest _ _ Hin) as (-> & -> & _).
        congruence.
      * apply Hwrite; try done; [by rewrite Hk|apply prefix_refl|].
        by intros ? ? ? [?|[]].
      * intros Hno. exfalso. eapply Hno. apply in_or_app. right.
        right. right. by left.
      * intros _. exists f, d, m0. split.
        -- apply in_or_app. right. right. right. by left.
        -- by rewrite Hfs, lookup_insert_eq.
    + split_and!; try done.
      * intros data pass Hin.
        destruct (Hcheck key st np d [] Hnp Hd ltac:(by intros ? ? []) _ _ Hin)
          as (_ & _ & Hp & Hs).
        split; [exact Hp|exact Hs].
      * intros data pass e' Hin Hfail.
        destruct (Hcheck key st np d [] Hnp Hd ltac:(by intros ? ? []) _ _ Hin)
          as (-> & -> & _).
        congruence.
      * intros p d' m [Hin|[Hin|[Hin|[]]]]%in_app_or;
          [by apply Hnw in Hin|done..].
    + split_and!; try done.
      * intros data pass Hin.
        destruct (Hcheck key st np d [EvWrite f (String.substring 0 n d) m0]
                    Hnp Hd ltac:(by intros ? ? [?|[]]) _ _ Hin)
          as (_ & _ & Hp & Hs).
        split; [exact Hp|exact Hs].
      * intros data pass e' Hin Hfail.
        destruct (Hcheck key st np d [EvWrite f (String.substring 0 n d) m0]
                    Hnp Hd ltac:(by intros ? ? [?|[]]) _ _ Hin)
          as (-> & -> & _).
        congruence.
      * apply Hwrite; try done;
          [by rewrite Hk|apply substring_prefix|by intros ? ? ? []].
      * intros Hno. exfalso. eapply Hno. apply in_or_app. right.
        right. right. by left.
Qed.


(** C4.  The subtype under which [_saveKey] (the end of every generate
    operation) and [changePassPhrase] serialise the private key is the
    one resolved from the options: the one given there when there is
    one, whatever the type of the key, and otherwise ['v1'] for an
    Ed25519 key and ['PEM'] for a key of any other type.  Every
    serialisation of a private key in a run of either is under that
    subtype, and a run that succeeds has serialised the key so and left
    these bytes in the file. *)
Theorem private_key_subtype_used key w :
  let save := _saveKey key None w in
  let change := changePassPhrase w in
  let subtype := resolved_subtype (w_options w) in
  (forall kt,
     (forall v, w_options w !! "private-key-subtype" = Some v -> v ≠ PNone ->
        subtype kt = v)
     /\ (default PNone (w_options w !! "private-key-subtype") = PNone ->
         (kt = "Ed25519" -> subtype kt = PStr "v1")
         /\ (kt ≠ "Ed25519" -> subtype kt = PStr "PEM")))
  /\ (forall kt st pass,
        In (EvToString kt st pass PNone) (events_of save)
        \/ In (EvToString kt st pass PNone) (events_of change) ->
        st = subtype kt)
  /\ (result_of save = Ok tt ->
      exists f pass d,
        In (EvToString (Key_type key) (subtype (Key_type key)) pass PNone)
           (events_of save)
        /\ Key_toString key (subtype (Key_type key)) pass PNone = Ok d
        /\ In (EvSetContent f d (create_mode (w_env w) (octal "777")))
              (events_of save)
        /\ w_fs (world_of save) !! f = Some (mkFile d (octal "100600")))
  /\ (result_of change = Ok tt ->
      exists loaded f np d m,
        In (EvToString (Key_type loaded) (subtype (Key_type loaded)) np PNone)
           (events_of change)
        /\ Key_toString loaded (subtype (Key_type loaded)) np PNone = Ok d
        /\ In (EvWrite f d m) (events_of change)
        /\ w_fs (world_of change) !! f = Some (mkFile d m)).
Proof.
  intros save change subtype.
  destruct (saveKey_shape key w _ _ _ (run_eta save))
    as (pre & tail & Hevs & Lpre & Hshape).
  unfold saveKey_outcome in Hshape.
  destruct (changePassPhrase_shape w _ _ _ (run_eta change))
    as (pre' & tail' & Hevs' & Lpre' & Hshape').
  split_and!.
  - intros kt. unfold subtype, resolved_subtype, _defaultPrivateKeySubtype.
    split.
    + intros v -> Hv. by destruct v.
    + intros ->. split.
      * intros ->. done.
      * intros Hkt. apply String.eqb_neq in Hkt. by rewrite Hkt.
  - intros kt st pass [Hin|Hin].
    + rewrite Hevs in Hin. apply in_app_or in Hin as [Hin|Hin];
        [refute_in Lpre Hin|].
      destruct Hshape as [(-> & _)
        | (ktn & f & w1 & e1 & pass' & _ & _ & [(-> & _)
            | (d & _ & _ & [(-> & _)
                | (_ & [(-> & _) | (pd & post & _ & _ & -> & Lpost & _)])])])].
      * done.
      * destruct Hin as [[= <- <- <-]|[]]. done.
      * destruct Hin as [[= <- <- <-]|[?|[]]]; done.
      * destruct Hin as [[= <- <- <-]|[?|[?|[?|[]]]]]; done.
      * cbn [app] in Hin.
        destruct Hin as [[= <- <- <-]|[?|[?|[?|[?|Hin]]]]]; try done.
        refute_in Lpost Hin.
    + rewrite Hevs' in Hin. apply in_app_or in Hin as [Hin|Hin];
        [refute_in Lpre' Hin|].
      destruct Hshape' as [(-> & _) | (key' & st' & np & -> & _ & [(-> & _)
        | (d & _ & [(-> & _) | (f & k & m & _ & Hw)])])].
      * done.
      * destruct Hin as [[= <- <- <-]|[]]. done.
      * destruct Hin as [[= <- <- <-]|[?|[]]]; done.
      * destruct (e_write (w_env w) f d); destruct Hw as (-> & _).
        -- destruct Hin as [[= <- <- <-]|[?|[?|[?|[]]]]]; done.
        -- destruct Hin as [[= <- <- <-]|[?|[]]]; done.
        -- destruct Hin as [[= <- <- <-]|[?|[?|[]]]]; done.
  - intros Hok. rewrite Hevs.
    destruct Hshape as [(_ & Hr & _)
      | (ktn & f & w1 & e1 & pass & _ & _ & [(_ & _ & e & _ & Hr)
          | (d & Hd & _ & [(_ & _ & e & _ & Hr)
              | (_ & [(_ & _ & e & _ & Hr)
                     | (pd & post & _ & _ & -> & _ & Hfs & _)])])])];
      try (rewrite Hok in Hr; done).
    exists f, pass, d. split_and!.
    + apply in_or_app. right. by left.
    + done.
    + apply in_or_app. right. right. by left.
    + rewrite Hfs, lookup_insert_ne, lookup_insert_eq; [done|].
      by apply append_ne_self.
  - intros Hok. rewrite Hevs'.
    destruct Hshape' as [(_ & Hr & _)
      | (loaded & st & np & -> & _ & [(_ & Hr & _)
          | (d & Hd & [(_ & _ & e & _ & Hr) | (f & k & m & _ & Hw)])])];
      try (rewrite Hok in Hr; done).
    destruct (e_write (w_env w) f d); destruct Hw as (-> & Hr & Hfs);
      try (rewrite Hok in Hr; done).
    exists loaded, f, np, d, m. split_and!.
    + apply in_or_app. right. by left.
    + done.
    + apply in_or_app. right. right. right. by left.
    + by rewrite Hfs, lookup_insert_eq.
Qed.

End Claims.
Lemma group_other_bits_of_created (u : Z) :
  Z.land (Z.lor S_IFREG (Z.ldiff (octal "777") u)) (octal "077")
  = Z.ldiff (octal "077") u.
Proof.
  apply Z.bits_inj'. intros n Hn.
  rewrite Z.land_spec, Z.lor_spec, !Z.ldiff_spec.
  destruct (Z.testbit (octal "077") n) eqn:E77.
  - assert (n < 6) as Hlt.
    { destruct (Z.ltb_spec n 6); [done|].
      rewrite (Z.bits_above_log2 (octal "077") n) in E77; [done|done|].
      change (Z.log2 (octal "077")) with 5. lia. }
    assert (n = 0 \/ n = 1 \/ n = 2 \/ n = 3 \/ n = 4 \/ n = 5) as Hcases by lia.
    destruct Hcases as [->|[->|[->|[->|[->| ->]]]]]; cbn;
      by rewrite ?andb_true_r, ?orb_false_l.
  - by rewrite andb_false_r.
Qed.

Section ClaimsSave.
Context `{KeysLibrary}.

Lemma dialogue_no_file_event (l : list Event) :
  forallb is_dialogue l = true -> List.filter is_file_event l = [].
Proof.
  intros Hl. eapply forallb_filter_nil; [exact Hl|]. by intros [].
Qed.

(** C2, as the code has it.  In every successful run of [_saveKey] the
    private key file is written first, with the mode a new file gets
    from the creation mask, and restricted to owner-only read and write
    ([0o100600]) by the next file operation, before the public key is
    written; that is its mode when the operation returns.  Between the
    write and the [chmod] the file has the default mode, which grants
    nothing to group and others exactly when the mask removes all their
    bits.  The public key file keeps the default mode. *)
Theorem saveKey_restricts_after_writing key w r w' evs :
  _saveKey key None w = (r, w', evs) -> r = Ok tt ->
  let created := create_mode (w_env w) (octal "777") in
  exists f d pd,
    List.filter is_file_event evs
    = [EvSetContent f d created; EvChmod f (octal "100600");
       EvSetContent (f +:+ ".pub") pd created]
    /\ w_fs w' !! f = Some (mkFile d (octal "100600"))
    /\ w_fs w' !! (f +:+ ".pub") = Some (mkFile pd created)
    /\ Z.land (octal "100600") (octal "077") = 0
    /\ (Z.land created (octal "077") = 0
        <-> Z.ldiff (octal "077") (e_umask (w_env w)) = 0).
Proof.
  intros Hrun -> created.
  destruct (saveKey_shape _ _ _ _ _ Hrun)
    as (pre & tail & -> & Lpre & Hshape).
  unfold saveKey_outcome in Hshape.
  destruct Hshape as [(_ & Hr & _)
    | (ktn & f & w1 & e1 & pass & _ & _ & [(_ & _ & e & _ & He)
        | (d & Hd & _ & [(_ & _ & e & _ & He)
            | (_ & [(_ & _ & e & _ & He)
                   | (pd & post & Hpd & _ & -> & Lpost & Hfs & _)])])])];
    try done.
  exists f, d, pd. split_and!.
  - rewrite !List.filter_app, (dialogue_no_file_event pre),
      (dialogue_no_file_event post) by done. reflexivity.
  - rewrite Hfs, lookup_insert_ne, lookup_insert_eq; [done|].
    by apply append_ne_self.
  - by rewrite Hfs, lookup_insert_eq.
  - reflexivity.
  - unfold created, create_mode. by rewrite group_other_bits_of_created.
Qed.

(** C9.  When the fingerprint format in the options is neither
    ['md5-hex'] nor ['sha256-base64'], a run of [_saveKey] never returns
    normally, and the format is looked at only once both files are
    written: when the dialogue goes through, the two serialisations
    succeed and the system takes the two writes and the change of mode,
    the run writes the private key file, restricts it, writes the public
    key file, and then ends with [BadFingerPrintFormat], both files
    being on disk.  A run ends in one of these ways: before any file is
    written; with the private key file written and not restricted,
    because the change of mode failed; with the private key file alone
    written, because the public key could not be serialised or written;
    or with both files written and [BadFingerPrintFormat] raised as the
    next step after the second write. *)
Theorem unsupported_format_found_after_writing key w r w' evs v :
  _saveKey key None w = (r, w', evs) ->
  w_options w !! "format" = Some v ->
  v ≠ PStr "md5-hex" -> v ≠ PStr "sha256-base64" ->
  let created := create_mode (w_env w) (octal "777") in
  let st := resolved_subtype (w_options w) (Key_type key) in
  let comment := PStr (key_comment (w_env w)) in
  let unsupported :=
    BadFingerPrintFormat ("Unsupported fingerprint format: " +:+ py_str v) in
  is_Ok r = false
  /\ (forall ktn f w1 e1 w2 e2 w3 e3 pass d pd,
        KeyTypeMapping !! Key_type key = Some ktn ->
        save_path ktn input w = (Ok f, w1, e1) ->
        confirm_overwrite f input w1 = (Ok tt, w2, e2) ->
        choose_passphrase w2 = (Ok tt, w3, e3) ->
        w_options w3 !! "pass" = Some pass ->
        Key_toString key st pass PNone = Ok d ->
        Key_toString (Key_public key) PNone PNone comment = Ok pd ->
        e_write (w_env w) f d = Written ->
        e_chmod (w_env w) f (octal "100600") = None ->
        e_write (w_env w) (f +:+ ".pub") pd = Written ->
        r = Raise unsupported
        /\ evs = e1 ++ e2 ++ e3
                 ++ [EvToString (Key_type key) st pass PNone;
                     EvSetContent f d created;
                     EvChmod f (octal "100600");
                     EvToString (Key_type (Key_public key)) PNone PNone comment;
                     EvSetContent (f +:+ ".pub") pd created]
        /\ w_fs w'
           = <[(f +:+ ".pub") := mkFile pd created]>
               (<[f := mkFile d (octal "100600")]> (w_fs w)))
  /\ ((List.filter is_file_event evs = [] /\ w_fs w' = w_fs w)
      \/ (exists f d e,
            List.filter is_file_event evs = [EvSetContent f d created]
            /\ e_chmod (w_env w) f (octal "100600") = Some e
            /\ r = Raise e
            /\ w_fs w' = <[f := mkFile d created]> (w_fs w))
      \/ (exists f d e,
            List.filter is_file_event evs
            = [EvSetContent f d created; EvChmod f (octal "100600")]
            /\ (Key_toString (Key_public key) PNone PNone comment = Raise e
                \/ exists pd,
                     Key_toString (Key_public key) PNone PNone comment = Ok pd
                     /\ write_error (e_write (w_env w) (f +:+ ".pub") pd)
                        = Some e)
            /\ r = Raise e
            /\ w_fs w' = <[f := mkFile d (octal "100600")]> (w_fs w))
      \/ (exists f d pd before,
            evs = before ++ [EvSetContent (f +:+ ".pub") pd created]
            /\ List.filter is_file_event before
               = [EvSetContent f d created; EvChmod f (octal "100600")]
            /\ r = Raise unsupported
            /\ w_fs w' !! f = Some (mkFile d (octal "100600"))
            /\ w_fs w' !! (f +:+ ".pub") = Some (mkFile pd created))).
Proof.
  intros Hrun Hv H1 H2 created st comment unsupported.
  destruct (saveKey_shape _ _ _ _ _ Hrun)
    as (pre & tail & Hevs & Lpre & Hshape).
  unfold saveKey_outcome in Hshape.
  pose proof (dialogue_no_file_event pre Lpre) as Fpre.
  split_and!.
  - destruct Hshape as [(_ & Hr & _)
      | (ktn & f & w1 & e1 & pass & _ & _ & [(_ & _ & e & _ & ->)
          | (d & Hd & _ & [(_ & _ & e & _ & ->)
              | (_ & [(_ & _ & e & _ & ->)
                     | (pd & post & _ & _ & _ & _ & _ & Hfmt)])])])];
      try done.
    by destruct (Hfmt v Hv H1 H2) as [_ ->].
  - intros ktn f w1 e1 w2 e2 w3 e3 pass d pd Hktn E1 E2 E3 Hpass Hd Hpd
      Hw Hc Hwp.
    destruct (saveKey_after_dialogue _ _ _ _ _ _ _ _ _ _ Hktn E1 E2 E3)
      as (w4 & F4 & V4 & S4 & P4 & O4 & Heq).
    pose proof (write_key_pair_ok key f w4 st pass d pd) as Hpair.
    rewrite V4 in Hpair.
    specialize (Hpair S4 ltac:(congruence) Hd Hpd Hw Hc Hwp).
    rewrite Heq in Hrun. clear Heq. revert Hrun.
    rewrite bind_run, Hpair.
    unfold report_saved. rewrite bind_run.
    rewrite (enumrepresentation_unsupported _ v) by (cbn; congruence).
    intros [= <- <- <-]. cbn [w_fs set_fs]. by rewrite F4.
  - subst evs.
    destruct Hshape as [(-> & Hr & Hfs)
      | (ktn & f & w1 & e1 & pass & _ & _ & [(-> & Hfs & e & _ & ->)
          | (d & Hd & _ & [(-> & Hfs & e & He & ->)
              | (_ & [(-> & Hfs & e & He & ->)
                     | (pd & post & Hpd & _ & -> & Lpost & Hfs & Hfmt)])])])].
    + left. by rewrite app_nil_r.
    + left. by rewrite List.filter_app, Fpre.
    + right. left. exists f, d, e. by rewrite List.filter_app, Fpre.
    + right. right. left. exists f, d, e. by rewrite List.filter_app, Fpre.
    + destruct (Hfmt v Hv H1 H2) as [-> ->]. right. right. right.
      exists f, d, pd. eexists. split_and!.
      * rewrite app_nil_r.
        change [?a; ?b; ?c; ?d'; ?e'] with ([a; b; c; d'] ++ [e']).
        by rewrite app_assoc.
      * by rewrite List.filter_app, Fpre.
      * done.
      * rewrite Hfs, lookup_insert_ne, lookup_insert_eq; [done|].
        by apply append_ne_self.
      * by rewrite Hfs, lookup_insert_eq.
Qed.

End ClaimsSave.

Section ClaimsConfirm.
Context `{KeysLibrary}.

Lemma confirm_overwrite_existing f w :
  is_Some (w_fs w !! f) ->
  confirm_overwrite f input w =
    match w_stdin w with
    | [] => (Raise EOFError, w,
             [EvPrint (f +:+ " already exists.");
              EvInput "Overwrite (y/n)? " None])
    | yn :: rest =>
        (if affirmative yn then Ok tt
         else Raise (if String.eqb yn "" then IndexError else SystemExit PNone),
         set_stdin rest w,
         [EvPrint (f +:+ " already exists.");
          EvInput "Overwrite (y/n)? " (Some yn)])
    end.
Proof.
  intros Hf. unfold confirm_overwrite, path_exists, input, declines.
  unfold_monad. rewrite bool_decide_eq_true_2 by done. red_all.
  destruct (w_stdin w) as [|yn rest]; [done|]. red_all.
  destruct yn as [|c yn]; [done|]. cbn [affirmative String.eqb]. red_all.
  by destruct (String.eqb (py_lower (String c "")) "y").
Qed.

(** C3, as the code has it.  When the path [_saveKey] resolves for the
    private key exists, the run announces it and asks
    ["Overwrite (y/n)? "] before any file operation.  On an answer that
    is not empty and whose first character is neither [y] nor [Y] the
    run ends there with [SystemExit] and the files are what they were.
    On an answer whose first character is [y] or [Y] the run goes on as
    it does for a path that is free: passphrase, subtype, the two files
    and the report.  Unless the answer begins with [y] or [Y] nothing
    more happens and no file is changed; and a run that succeeds had
    such an answer and has replaced the file by the new key. *)
Theorem overwrite_declined_unless_leading_y key ktn w f w1 e1 r w' evs :
  _saveKey key None w = (r, w', evs) ->
  KeyTypeMapping !! Key_type key = Some ktn ->
  save_path ktn input w = (Ok f, w1, e1) ->
  is_Some (w_fs w !! f) ->
  List.filter is_file_event e1 = []
  /\ exists rest,
       evs = e1 ++ EvPrint (f +:+ " already exists.")
                :: EvInput "Overwrite (y/n)? " (head (w_stdin w1)) :: rest
       /\ (forall yn, head (w_stdin w1) = Some yn ->
             yn ≠ "" -> affirmative yn = false ->
             rest = [] /\ r = Raise (SystemExit PNone) /\ w_fs w' = w_fs w)
       /\ (forall yn, head (w_stdin w1) = Some yn -> affirmative yn = true ->
             (r, w', rest)
             = (choose_passphrase;; resolve_subtype key;;
                write_key_pair key f;; report_saved key f)
                 (set_stdin (List.tl (w_stdin w1)) w1))
       /\ ((forall yn, head (w_stdin w1) = Some yn -> affirmative yn = false) ->
           rest = [] /\ is_Ok r = false /\ w_fs w' = w_fs w)
       /\ (r = Ok tt ->
           exists yn pass d,
             head (w_stdin w1) = Some yn /\ affirmative yn = true
             /\ Key_toString key
                  (resolved_subtype (w_options w) (Key_type key)) pass PNone
                = Ok d
             /\ w_fs w' !! f = Some (mkFile d (octal "100600"))).
Proof.
  intros Hrun Hktn Hpath Hf.
  destruct (quiet_save_path _ _ _ _ _ Hpath) as (F1 & _ & _ & L1).
  split; [by apply dialogue_no_file_event|].
  assert (r = Ok tt ->
          exists pass d,
            Key_toString key
              (resolved_subtype (w_options w) (Key_type key)) pass PNone
            = Ok d
            /\ w_fs w' !! f = Some (mkFile d (octal "100600"))) as Hdone.
  { intros ->.
    destruct (saveKey_shape _ _ _ _ _ Hrun)
      as (pre & tail & _ & _ & Hshape).
    unfold saveKey_outcome in Hshape.
    destruct Hshape as [(_ & Hr & _)
      | (ktn' & f' & w1' & e1' & pass & Hktn' & Hpath' & [(_ & _ & e & _ & He)
          | (d & Hd & _ & [(_ & _ & e & _ & He)
              | (_ & [(_ & _ & e & _ & He)
                     | (pd & post & _ & _ & _ & _ & Hfs & _)])])])];
      try done.
    assert (ktn' = ktn) as -> by congruence.
    assert (f' = f) as -> by congruence.
    exists pass, d. split; [done|].
    rewrite Hfs, lookup_insert_ne, lookup_insert_eq; [done|].
    by apply append_ne_self. }
  revert Hrun. unfold _saveKey. cbn [default from_option].
  rewrite bind_run. unfold dict_index at 1. rewrite Hktn.
  unfold mret at 1, M_ret, ret. cbn iota beta. rewrite bind_run, Hpath.
  rewrite bind_run, confirm_overwrite_existing by (by rewrite F1).
  destruct (w_stdin w1) as [|yn stdin']; cbn [head List.tl].
  - intros [= <- <- <-]. exists []. by split_and!.
  - destruct (affirmative yn) eqn:Hyn.
    + destruct (mbind _ choose_passphrase _) as [[r2 w2] e2].
      intros [= <- <- <-]. exists e2. cbn [app].
      split_and!; [done| | | |].
      * intros ? [= <-]. congruence.
      * intros ? [= <-] _. reflexivity.
      * intros Hno. specialize (Hno _ eq_refl). congruence.
      * intros Hr. destruct (Hdone Hr) as (pass & d & Hd & Hfile).
        by exists yn, pass, d.
    + intros [= <- <- <-]. exists []. cbn [app]. split_and!; [done| | | |].
      * intros ? [= <-] Hne _. cbn [w_fs set_stdin]. rewrite F1.
        by destruct (String.eqb_spec yn "").
      * intros ? [= <-]. congruence.
      * intros _. cbn [w_fs set_stdin]. by rewrite F1.
      * by destruct (String.eqb yn "").
Qed.

End ClaimsConfirm.

(** ** The passphrase loop *)

Section Loop.
Context `{KeysLibrary}.

Lemma agrees_at_shift a b tty k p :
  agrees_at (a :: b :: tty) (S k) p <-> agrees_at tty k p.
Proof.
  unfold agrees_at. replace (2 * S k)%nat with (S (S (2 * k))) by lia. done.
Qed.

Lemma differs_at_shift a b tty k :
  differs_at (a :: b :: tty) (S k) <-> differs_at tty k.
Proof.
  unfold differs_at. replace (2 * S k)%nat with (S (S (2 * k))) by lia. done.
Qed.

Lemma mismatch_notices_getpass p r l :
  mismatch_notices (EvGetpass p r :: l) = mismatch_notices l.
Proof.
  unfold mismatch_notices. cbn [List.filter].
  by rewrite bool_decide_eq_false_2.
Qed.

Lemma mismatch_notices_notice l :
  mismatch_notices (EvPrint "Passphrases do not match.  Try again." :: l)
  = S (mismatch_notices l).
Proof.
  unfold mismatch_notices. cbn [List.filter].
  by rewrite bool_decide_eq_true_2.
Qed.

Lemma passphraseLoop_on_outcome prompt tty r tty' evs :
  passphraseLoop_on prompt tty = (r, tty', evs) ->
  loop_outcome tty (accepted_of r) tty' evs
  /\ (is_Ok r = false -> r = Raise EOFError).
Proof.
  revert r tty' evs.
  induction tty as [|p1|p1 p2 rest IH] using list_pair_ind;
    intros r tty' evs Hrun; cbn in Hrun.
  - injection Hrun as <- <- <-. split; [|done]. unfold loop_outcome.
    rewrite mismatch_notices_getpass. split; [intros j; cbn; lia|].
    split; [|done]. by intros j x [? _].
  - injection Hrun as <- <- <-. split; [|done]. unfold loop_outcome.
    rewrite !mismatch_notices_getpass. split; [intros j; cbn; lia|].
    split; [|done]. intros j x [_ Hx]. by destruct j.
  - destruct (String.eqb_spec p1 p2) as [<-|Hne].
    + injection Hrun as <- <- <-. split; [|done]. unfold loop_outcome.
      rewrite !mismatch_notices_getpass. split; [intros j; cbn; lia|]. done.
    + destruct (passphraseLoop_on prompt rest) as [[r0 t0] e0] eqn:Hrest.
      injection Hrun as <- <- <-.
      destruct (IH _ _ _ eq_refl) as [[Hdiff Hacc] Herr]. split; [|done].
      unfold loop_outcome. cbn [app].
      rewrite !mismatch_notices_getpass, mismatch_notices_notice.
      split.
      * intros [|j] Hj; [by exists p1, p2|]. apply differs_at_shift, Hdiff. lia.
      * destruct (accepted_of r0) as [p|].
        -- destruct Hacc as [Hp ->]. split; [by apply agrees_at_shift|].
           by replace (2 * S (mismatch_notices e0) + 2)%nat
             with (S (S (2 * mismatch_notices e0 + 2))) by lia.
        -- destruct Hacc as [Hno ->]. split; [|done].
           intros [|j] x; [|by rewrite agrees_at_shift].
           intros [[= ->] [= ->]]. done.
Qed.

Lemma loop_outcome_first tty accepted tty' evs k x :
  loop_outcome tty accepted tty' evs ->
  agrees_at tty k x -> (forall j, (j < k)%nat -> differs_at tty j) ->
  accepted = Some x /\ mismatch_notices evs = k.
Proof.
  intros [Hdiff Hacc] Hk Hbefore.
  destruct accepted as [p|]; [|by destruct Hacc as [Hno _]; apply Hno in Hk].
  destruct Hacc as [Hp _].
  assert (forall j y, agrees_at tty j y -> differs_at tty j -> False) as Hex.
  { intros j y [Ha Hb] (a & b & Ha' & Hb' & Hab). congruence. }
  destruct (Nat.lt_trichotomy (mismatch_notices evs) k) as [Hlt|[Heq|Hgt]].
  - exfalso. eauto.
  - subst k. destruct Hp as [Hp _], Hk as [Hk _]. split; [congruence|done].
  - exfalso. eauto.
Qed.

End Loop.

Section ClaimsLoop.
Context `{KeysLibrary}.

Lemma collects_loop key prompt w r w' evs :
  (p ← passphraseLoop prompt; opt_set key (PStr p)) w = (r, w', evs) ->
  collects key w r w' evs.
Proof.
  rewrite bind_run. unfold passphraseLoop.
  destruct (passphraseLoop_on prompt (w_tty w)) as [[r0 t0] e0] eqn:Hloop.
  destruct (passphraseLoop_on_outcome _ _ _ _ _ Hloop) as [Hout Herr].
  intros Hrun. exists (accepted_of r0).
  assert (w_tty w' = t0 /\ evs = e0) as [-> ->].
  { destruct r0; cbn in Hrun; injection Hrun as <- <- <-;
      by rewrite ?app_nil_r. }
  split; [done|]. split; [|split].
  - split.
    + intros [p Hp]. rewrite Hp in Hout. destruct Hout as [_ [Hagree _]]. eauto.
    + intros (k & x & Hk). destruct (accepted_of r0) eqn:Hacc; [done|].
      destruct Hout as [_ [Hno _]]. by apply Hno in Hk.
  - intros k x Hk Hbefore. by eapply loop_outcome_first.
  - destruct r0 as [p|e]; cbn in Hrun |- *; injection Hrun as <- <-.
    + split; [done|]. cbn. by rewrite lookup_insert_eq.
    + by injection (Herr eq_refl) as ->.
Qed.

(** C6.  When [_saveKey] (lines 371-378) or [changePassPhrase] (lines
    277-284) asks for a passphrase, each round prompts for two entries,
    the lines [2k] and [2k+1] of the terminal: the loop accepts in the
    first round whose two entries are equal, after one notice per
    earlier round, however many there are; the passphrase stored in the
    options is the agreed entry, and the empty entry is agreed on and
    stored like any other.  The loop ends by accepting exactly when some
    round has equal entries; otherwise it goes on as long as there are
    lines, and ends with the [EOFError] of [getpass] once they are used
    up. *)
Theorem passphrase_accepted_when_a_round_agrees w r w' evs :
  (truthy (default PNone (w_options w !! "no-passphrase")) = false ->
   (exists v, w_options w !! "pass" = Some v /\ truthy v = false) ->
   choose_passphrase w = (r, w', evs) -> collects "pass" w r w' evs)
  /\ (truthy (default PNone (w_options w !! "newpass")) = false ->
      ask_new_passphrase w = (r, w', evs) -> collects "newpass" w r w' evs).
Proof.
  split.
  - intros Hno (v & Hv & Hfalse) Hrun.
    eapply (collects_loop _ "Enter passphrase (empty for no passphrase): ").
    rewrite <- Hrun. clear Hrun. unfold choose_passphrase. unfold_monad.
    rewrite Hno. red_all. rewrite Hv. red_all. rewrite Hfalse. red_all.
    by destruct (passphraseLoop _ w) as [[[p|e] w1] e1].
  - intros Hno Hrun.
    eapply (collects_loop _ "Enter new passphrase (empty for no passphrase): ").
    rewrite <- Hrun. clear Hrun. unfold ask_new_passphrase. unfold_monad.
    rewrite Hno. red_all.
    by destruct (passphraseLoop _ w) as [[[p|e] w1] e1].
Qed.

End ClaimsLoop.

(** ** The old passphrase *)

Section ClaimsOldPassphrase.
Context `{KeysLibrary}.

Lemma getKeyOrDefault_run kt w :
  _getKeyOrDefault None kt w =
    match w_options w !! "filename" with
    | None => (Raise (KeyError "filename"), w, [])
    | Some v =>
        if truthy v then (Ok (py_str v), w, [])
        else
          let d := default_filename (w_env w) (default "rsa" kt) in
          let prompt := "Enter file in which the key is (" +:+ d +:+ "): " in
          match w_stdin w with
          | [] => (Raise EOFError, w, [EvInput prompt None])
          | l :: rest =>
              (Ok (if String.eqb l "" then d else l), set_stdin rest w,
               [EvInput prompt (Some l)])
          end
    end.
Proof.
  unfold _getKeyOrDefault, input. unfold_monad. red_all.
  destruct (w_options w !! "filename") as [v|]; [|done]. red_all.
  destruct (truthy v); [done|]. red_all.
  by destruct (w_stdin w).
Qed.

Lemma getKeyOrDefault_keeps kt w r w' evs :
  _getKeyOrDefault None kt w = (r, w', evs) ->
  w_fs w' = w_fs w /\ w_options w' = w_options w /\ w_tty w' = w_tty w
  /\ w_env w' = w_env w
  /\ forallb (fun e => match e with EvInput _ _ => true | _ => false end) evs
     = true.
Proof.
  rewrite getKeyOrDefault_run.
  destruct (w_options w !! "filename") as [v|]; [|by intros [= <- <- <-]].
  destruct (truthy v); [by intros [= <- <- <-]|].
  destruct (w_stdin w); by intros [= <- <- <-].
Qed.

Lemma load_private_key_encrypted f w file m :
  w_fs w !! f = Some file ->
  Key_fromString (f_data file) PNone = Raise (EncryptedKeyError m) ->
  load_private_key f w =
    let supplied := default PNone (w_options w !! "pass") in
    let outcome pass :=
      match Key_fromString (f_data file) pass with
      | Ok k => Ok k
      | Raise e => Raise (old_passphrase_error e)
      end in
    if truthy supplied then
      (outcome supplied, w, [EvFromFile f PNone; EvFromFile f supplied])
    else
      match w_tty w with
      | [] => (Raise EOFError, w,
               [EvFromFile f PNone; EvGetpass "Enter old passphrase: " None])
      | p :: rest =>
          (outcome (PStr p),
           set_options (<["pass" := PStr p]> (w_options w)) (set_tty rest w),
           [EvFromFile f PNone; EvGetpass "Enter old passphrase: " (Some p);
            EvFromFile f (PStr p)])
      end.
Proof.
  intros Hf Henc. unfold load_private_key, Key_fromFile, getpass.
  unfold_monad. rewrite Hf, Henc. red_all.
  destruct (w_options w !! "pass") as [v|] eqn:Hv; red_all.
  - destruct (truthy v) eqn:Htv; red_all.
    + do 2 (rewrite ?Hv, ?Hf; red_all).
      by destruct (Key_fromString (f_data file) v) as [k|[]].
    + destruct (w_tty w) as [|p rest]; [done|].
      do 3 (red_all; rewrite ?lookup_insert_eq, ?Hf).
      by destruct (Key_fromString (f_data file) (PStr p)) as [k|[]].
  - cbn [truthy]. destruct (w_tty w) as [|p rest]; [done|].
    do 3 (red_all; rewrite ?lookup_insert_eq, ?Hf).
    by destruct (Key_fromString (f_data file) (PStr p)) as [k|[]].
Qed.

Lemma is_loop_event_not_old e :
  is_loop_event "Enter new passphrase (empty for no passphrase): " e = true ->
  not_old_passphrase_prompt e = true.
Proof.
  destruct e; try done. unfold not_old_passphrase_prompt. cbn.
  destruct (String.eqb_spec prompt "Enter old passphrase: ") as [->|]; done.
Qed.

Lemma ask_new_passphrase_no_old_prompt :
  emits not_old_passphrase_prompt ask_new_passphrase.
Proof.
  eapply emits_weaken; [apply is_loop_event_not_old|].
  eapply (quiet_emits _ ["newpass"]). unfold ask_new_passphrase.
  repeat first [apply quiet_passphraseLoop | quiet_step].
Qed.

Lemma changePassPhrase_rest_no_old_prompt key f :
  emits not_old_passphrase_prompt
    (ask_new_passphrase;;
     resolve_subtype key;;
     newkeydata ← serialise_new key;
     verify_new newkeydata;;
     open_wb_write f newkeydata;;
     print "Your identification has been saved with the new passphrase.").
Proof.
  apply emits_bind; [apply ask_new_passphrase_no_old_prompt|intros _].
  apply emits_bind.
  { intros w r w' evs Hrun.
    by destruct (resolve_subtype_run _ _ _ _ _ Hrun) as (_ & -> & _). }
  intros _. apply emits_bind.
  { intros w r w' evs Hrun.
    by destruct (serialise_new_run _ _ _ _ _ Hrun)
      as (_ & [-> | (? & ? & _ & _ & -> & _)]). }
  intros d. apply emits_bind.
  { intros w r w' evs Hrun.
    by destruct (verify_new_run _ _ _ _ _ Hrun)
      as (_ & [[-> _] | (? & _ & -> & _)]). }
  intros _. apply emits_bind.
  { intros w r w' evs. unfold open_wb_write.
    by destruct (e_write (w_env w) f d); intros [= <- <- <-]. }
  intros _. by intros w r w' evs [= <- <- <-].
Qed.

(** C5.  When the key file [changePassPhrase] works on is encrypted and
    no old passphrase is in the options, the run asks
    ["Enter old passphrase: "] exactly once; when one is in the
    options it does not ask.  If the load with that passphrase fails,
    the run ends there, with the wrong-passphrase exit
    ("Could not change passphrase: old passphrase error") when the
    parser raised [BadKeyError]: no second prompt, no further load, and
    the files untouched. *)
Theorem old_passphrase_asked_once w f w1 e1 file m r w' evs :
  changePassPhrase w = (r, w', evs) ->
  _getKeyOrDefault None None w = (Ok f, w1, e1) ->
  w_fs w !! f = Some file ->
  Key_fromString (f_data file) PNone = Raise (EncryptedKeyError m) ->
  let supplied := default PNone (w_options w !! "pass") in
  (truthy supplied = false ->
   List.length (List.filter is_old_passphrase_prompt evs) = 1%nat
   /\ forall p rest e,
        w_tty w = p :: rest ->
        Key_fromString (f_data file) (PStr p) = Raise e ->
        r = Raise (old_passphrase_error e)
        /\ evs = e1 ++ [EvFromFile f PNone;
                        EvGetpass "Enter old passphrase: " (Some p);
                        EvFromFile f (PStr p)]
        /\ w_tty w' = rest /\ w_fs w' = w_fs w)
  /\ (truthy supplied = true ->
      List.filter is_old_passphrase_prompt evs = []
      /\ forall e,
           Key_fromString (f_data file) supplied = Raise e ->
           r = Raise (old_passphrase_error e)
           /\ evs = e1 ++ [EvFromFile f PNone; EvFromFile f supplied]
           /\ w_tty w' = w_tty w /\ w_fs w' = w_fs w).
Proof.
  intros Hrun Hpath Hf Henc supplied.
  destruct (getKeyOrDefault_keeps _ _ _ _ _ Hpath) as (F1 & O1 & T1 & _ & L1).
  assert (List.filter is_old_passphrase_prompt e1 = []) as N1.
  { eapply forallb_filter_nil; [exact L1|]. by intros []. }
  revert Hrun. unfold changePassPhrase. rewrite bind_run, Hpath, bind_run.
  rewrite (load_private_key_encrypted f w1 file m) by congruence.
  rewrite O1, T1. fold supplied. cbv zeta.
  assert (forall k (w2 : World) (ev : list Event) r2 w3 e3,
            (ask_new_passphrase;;
             resolve_subtype k;;
             newkeydata ← serialise_new k;
             verify_new newkeydata;;
             open_wb_write f newkeydata;;
             print "Your identification has been saved with the new passphrase.")
              w2 = (r2, w3, e3) ->
            List.filter is_old_passphrase_prompt e3 = []) as Hrest.
  { intros k w2 ev r2 w3 e3 Hk.
    eapply forallb_filter_nil;
      [exact (changePassPhrase_rest_no_old_prompt k f _ _ _ _ Hk)|].
    intros x. unfold not_old_passphrase_prompt.
    by destruct (is_old_passphrase_prompt x). }
  destruct (truthy supplied) eqn:Hsup.
  - intros Hrun. split; [done|]. intros _.
    destruct (Key_fromString (f_data file) supplied) as [k|e] eqn:Hload.
    + destruct (mbind _ ask_new_passphrase _) as [[r2 w3] e3] eqn:Hk.
      injection Hrun as <- <- <-. split; [|done].
      rewrite List.filter_app, N1. cbn.
      by rewrite (Hrest _ _ [] _ _ _ Hk).
    + injection Hrun as <- <- <-. split.
      * by rewrite List.filter_app, N1.
      * intros ? [= <-]. split_and!; auto; congruence.
  - intros Hrun. split; [|done]. intros _.
    destruct (w_tty w) as [|p rest] eqn:Htty.
    + injection Hrun as <- <- <-. split; [|done].
      by rewrite List.filter_app, N1.
    + destruct (Key_fromString (f_data file) (PStr p)) as [k|e] eqn:Hload.
      * destruct (mbind _ ask_new_passphrase _) as [[r2 w3] e3] eqn:Hk.
        injection Hrun as <- <- <-.
        split; [|intros ? ? ? [= <- <-] ?; congruence].
        rewrite List.filter_app, N1. cbn.
        by rewrite (Hrest _ _ [] _ _ _ Hk).
      * injection Hrun as <- <- <-. split.
        -- by rewrite List.filter_app, N1.
        -- intros ? ? ? [= <- <-] He. rewrite Hload in He.
           injection He as <-. split_and!; auto;
             cbn [w_fs set_options set_tty]; congruence.
Qed.

End ClaimsOldPassphrase.

(** ** The fingerprint *)

Section ClaimsFingerprint.
Context `{KeysLibrary}.

Lemma enumrepresentation_supported w fmt :
  requested_format (w_options w) = Some fmt ->
  enumrepresentation w
  = (Ok tt, set_options (<["format" := PFmt fmt]> (w_options w)) w, []).
Proof.
  unfold requested_format, enumrepresentation. unfold_monad.
  destruct (w_options w !! "format") as [[|s| | |]|] eqn:Hf; try done.
  red_all. destruct (String.eqb_spec s "md5-hex") as [->|Hmd5].
  { intros [= <-]. by rewrite decide_True. }
  rewrite decide_False by congruence. red_all.
  destruct (String.eqb_spec s "sha256-base64") as [->|Hsha]; [|done].
  intros [= <-]. rewrite Hf. red_all. by rewrite decide_True.
Qed.

Lemma show_fingerprint_run f w r w' evs :
  show_fingerprint f w = (r, w', evs) ->
  w_fs w' = w_fs w
  /\ exists rest, evs = EvFromFile f PNone :: rest
       /\ forallb is_dialogue rest = true.
Proof.
  unfold show_fingerprint, Key_fromFile. unfold_monad.
  destruct (match w_fs w !! f with
            | Some f0 => Key_fromString (f_data f0) PNone
            | None => Raise (FileNotFoundError f)
            end) as [key|e]; red_all.
  - destruct (w_options w !! "format") as [[]|]; red_all;
      intros [= <- <- <-]; eauto.
  - destruct e; red_all; intros [= <- <- <-]; eauto.
Qed.

(** C7.  [printFingerprint] never changes a file.  Once the path [f] is
    resolved, the only file it loads is [f.pub] when that file exists
    and [f] otherwise, without a passphrase; and when the format asked
    for is one of the two supported and the file parses, it prints the
    size of the key, its fingerprint in that format and what
    [os.path.basename] of the platform makes of the path of the file
    loaded. *)
Theorem printFingerprint_prefers_pub_sibling w r w' evs :
  printFingerprint w = (r, w', evs) ->
  w_fs w' = w_fs w
  /\ forall f w1 e1,
       _getKeyOrDefault None None w = (Ok f, w1, e1) ->
       let sibling := f +:+ ".pub" in
       let target :=
         if bool_decide (is_Some (w_fs w !! sibling)) then sibling else f in
       (is_Some (w_fs w !! sibling) ->
        forall p pass, In (EvFromFile p pass) evs -> p = sibling)
       /\ (forall p pass, In (EvFromFile p pass) evs ->
             p = target /\ pass = PNone)
       /\ (forall fmt file key,
             requested_format (w_options w) = Some fmt ->
             w_fs w !! target = Some file ->
             Key_fromString (f_data file) PNone = Ok key ->
             r = Ok tt
             /\ evs = e1 ++ [EvFromFile target PNone;
                             EvPrint (pretty (Key_size key) +:+ " "
                                      +:+ Key_fingerprint key fmt +:+ " "
                                      +:+ os_path_basename (w_env w) target)]).
Proof.
  unfold printFingerprint. rewrite bind_run.
  destruct (_getKeyOrDefault None None w) as [[[f|e] w1] e1] eqn:E1;
    destruct (getKeyOrDefault_keeps _ _ _ _ _ E1) as (F1 & O1 & _ & V1 & L1).
  2:{ intros [= <- <- <-]. split; [done|]. intros ? ? ? [=]. }
  assert (forall p pass, ~ In (EvFromFile p pass) e1) as N1.
  { intros p pass Hin. not_in_pre Hin. }
  rewrite bind_run. unfold path_exists at 1, gets at 1. cbn beta iota.
  rewrite F1.
  set (target := if bool_decide (is_Some (w_fs w !! (f +:+ ".pub")))
                 then f +:+ ".pub" else f).
  rewrite bind_run.
  destruct (enumrepresentation w1) as [[[[]|e] w2] e2] eqn:E2;
    destruct (quiet_enumrepresentation _ _ _ _ E2) as (F2 & V2 & _ & L2).
  2:{ intros [= <- <- <-]. split; [congruence|].
      intros ? ? ? [= <- <- <-]. split_and!.
      - intros _ p pass [Hin|Hin]%in_app_or; [by apply N1 in Hin|].
        cbn in Hin. not_in_pre Hin.
      - intros p pass [Hin|Hin]%in_app_or; [by apply N1 in Hin|].
        cbn in Hin. not_in_pre Hin.
      - intros fmt file key Hfmt. rewrite <- O1 in Hfmt.
        by rewrite (enumrepresentation_supported _ _ Hfmt) in E2. }
  assert (forall p pass, ~ In (EvFromFile p pass) e2) as N2.
  { intros p pass Hin. not_in_pre Hin. }
  assert (forall fmt file key,
            requested_format (w_options w) = Some fmt ->
            w_fs w !! target = Some file ->
            Key_fromString (f_data file) PNone = Ok key ->
            w_fs w2 !! target = Some file
            /\ w_options w2 !! "format" = Some (PFmt fmt)
            /\ e2 = []) as Hsucc.
  { intros fmt file key Hfmt Hfile Hkey. rewrite <- O1 in Hfmt.
    rewrite (enumrepresentation_supported _ _ Hfmt) in E2.
    injection E2 as <- <-. cbn [w_fs w_options set_options].
    by rewrite F1, Hfile, lookup_insert_eq. }
  destruct (show_fingerprint target w2) as [[r3 w3] e3] eqn:E3.
  destruct (show_fingerprint_run _ _ _ _ _ E3) as (F3 & e3' & -> & L3).
  intros [= <- <- <-]. split; [congruence|].
  intros ? ? ? [= <- <- <-]. fold target.
  assert (forall p pass,
            In (EvFromFile p pass)
               (e1 ++ [] ++ e2 ++ EvFromFile target PNone :: e3') ->
            p = target /\ pass = PNone) as Honly.
  { intros p pass [Hin|Hin]%in_app_or; [by apply N1 in Hin|].
    cbn [app] in Hin. apply in_app_or in Hin as [Hin|Hin];
      [by apply N2 in Hin|].
    destruct Hin as [[= <- <-]|Hin]; [done|]. not_in_pre Hin. }
  split_and!; [|done|].
  - intros Hsib p pass Hin. destruct (Honly _ _ Hin) as [-> _].
    unfold target. by rewrite bool_decide_eq_true_2.
  - intros fmt file key Hfmt Hfile Hkey.
    destruct (Hsucc _ _ _ Hfmt Hfile Hkey) as (Hl & Hf & ->).
    revert E3. unfold show_fingerprint, Key_fromFile. unfold_monad.
    rewrite Hl, Hkey. red_all. rewrite Hf. red_all.
    intros [= <- <- <-]. by rewrite V2, V1.
Qed.

End ClaimsFingerprint.

(** ** Defaults *)




Section ClaimsDefaults.
Context `{KeysLibrary}.

Lemma curveTable_lookup bits c :
  _curveTable !! ("ecdsa-sha2-nistp" +:+ bits) = Some c ->
  (bits = "256" /\ c = SECP256R1) \/ (bits = "384" /\ c = SECP384R1)
  \/ (bits = "521" /\ c = SECP521R1).
Proof.
  unfold _curveTable. cbn [list_to_map foldr uncurry fst snd].
  change "ecdsa-sha2-nistp256" with ("ecdsa-sha2-nistp" +:+ "256").
  change "ecdsa-sha2-nistp384" with ("ecdsa-sha2-nistp" +:+ "384").
  change "ecdsa-sha2-nistp521" with ("ecdsa-sha2-nistp" +:+ "521").
  rewrite !lookup_insert_Some, lookup_empty.
  intros [[Heq <-]|[_ [[Heq <-]|[_ [[Heq <-]|[_ ?]]]]]]; [..|done];
    apply (inj (String.append _)) in Heq; auto.
Qed.




End ClaimsDefaults.

(** ** The generators *)

Section Generators.
Context `{KeysLibrary}.

(** Each of the four generate functions is at most one call of a key
    generator followed by [_saveKey] on the generated key, with the
    files, the environment, the input and every option but [bits] as
    they were: what is proved of [_saveKey key None] holds of every
    generate operation. *)
Lemma generators_end_in_saveKey (g : M unit) w r w' evs :
  In g [generateRSAkey; generateDSAkey; generateECDSAkey; generateEd25519key] ->
  g w = (r, w', evs) ->
  (is_Ok r = false /\ w_fs w' = w_fs w
   /\ (evs = [] \/ exists kind arg, evs = [EvGenerate kind arg]))
  \/ exists key w1 kind arg rest,
       evs = EvGenerate kind arg :: rest
       /\ _saveKey key None w1 = (r, w', rest)
       /\ w_fs w1 = w_fs w /\ w_env w1 = w_env w
       /\ w_stdin w1 = w_stdin w /\ w_tty w1 = w_tty w
       /\ forall k, k ≠ "bits" -> w_options w1 !! k = w_options w !! k.
Proof.
  assert (forall kind arg gen w0 r0 w0' evs0,
            w_fs w0 = w_fs w -> w_env w0 = w_env w ->
            w_stdin w0 = w_stdin w -> w_tty w0 = w_tty w ->
            (forall k, k ≠ "bits" -> w_options w0 !! k = w_options w !! k) ->
            (key ← generate kind arg gen; _saveKey key None) w0
            = (r0, w0', evs0) ->
            (is_Ok r0 = false /\ w_fs w0' = w_fs w
             /\ (evs0 = [] \/ exists kind arg, evs0 = [EvGenerate kind arg]))
            \/ exists key w1 kind arg rest,
                 evs0 = EvGenerate kind arg :: rest
                 /\ _saveKey key None w1 = (r0, w0', rest)
                 /\ w_fs w1 = w_fs w /\ w_env w1 = w_env w
                 /\ w_stdin w1 = w_stdin w /\ w_tty w1 = w_tty w
                 /\ forall k, k ≠ "bits" ->
                      w_options w1 !! k = w_options w !! k) as Hgen.
  { intros kind arg gen w0 r0 w0' evs0 F V I T O. rewrite bind_run.
    unfold generate at 1. destruct (gen (w_seed w0)) as [key|e].
    - destruct (_saveKey key None _) as [[r1 w1] e1] eqn:Hsave.
      intros [= <- <- <-]. right. eexists key, _, kind, arg, e1.
      split_and!; [done|exact Hsave|done..].
    - intros [= <- <- <-]. left. split_and!; eauto. }
  assert (forall n (k : M unit) r0 w0' evs0,
            (forall w0 r1 w1 e1,
               w_fs w0 = w_fs w -> w_env w0 = w_env w ->
               w_stdin w0 = w_stdin w -> w_tty w0 = w_tty w ->
               (forall k, k ≠ "bits" -> w_options w0 !! k = w_options w !! k) ->
               w_options w0 !! "bits" <> None ->
               k w0 = (r1, w1, e1) ->
               (is_Ok r1 = false /\ w_fs w1 = w_fs w
                /\ (e1 = [] \/ exists kind arg, e1 = [EvGenerate kind arg]))
               \/ exists key w2 kind arg rest,
                    e1 = EvGenerate kind arg :: rest
                    /\ _saveKey key None w2 = (r1, w1, rest)
                    /\ w_fs w2 = w_fs w /\ w_env w2 = w_env w
                    /\ w_stdin w2 = w_stdin w /\ w_tty w2 = w_tty w
                    /\ forall k, k ≠ "bits" ->
                         w_options w2 !! k = w_options w !! k) ->
            (bits ← opt_index "bits";
             when (negb (truthy bits)) (opt_set "bits" (PInt n));; k) w
            = (r0, w0', evs0) ->
            (is_Ok r0 = false /\ w_fs w0' = w_fs w
             /\ (evs0 = [] \/ exists kind arg, evs0 = [EvGenerate kind arg]))
            \/ exists key w1 kind arg rest,
                 evs0 = EvGenerate kind arg :: rest
                 /\ _saveKey key None w1 = (r0, w0', rest)
                 /\ w_fs w1 = w_fs w /\ w_env w1 = w_env w
                 /\ w_stdin w1 = w_stdin w /\ w_tty w1 = w_tty w
                 /\ forall k, k ≠ "bits" ->
                      w_options w1 !! k = w_options w !! k) as Hbits.
  { intros n k r0 w0' evs0 Hk.
    destruct (w_options w !! "bits") as [v|] eqn:Hv.
    2:{ rewrite (bind_fail _ _ _ (KeyError "bits"))
          by (unfold opt_index; by rewrite Hv).
        intros [= <- <- <-]. left. auto. }
    rewrite (bind_pure _ _ _ v) by (unfold opt_index; by rewrite Hv).
    destruct (truthy v); cbn [negb when].
    - rewrite (bind_pure _ _ _ tt) by done.
      intros Ek. eapply Hk; [done..| |exact Ek]. by rewrite Hv.
    - rewrite bind_run. unfold opt_set, modify. cbn beta iota.
      destruct (k _) as [[r1 w1] e1] eqn:Ek. intros [= <- <- <-].
      eapply Hk; [..|exact Ek]; try done.
      + intros k' Hk'. cbn. by rewrite lookup_insert_ne.
      + cbn. by rewrite lookup_insert_eq. }
  assert (forall kind gen (w0 : World) r1 w1 e1,
            w_fs w0 = w_fs w -> w_env w0 = w_env w ->
            w_stdin w0 = w_stdin w -> w_tty w0 = w_tty w ->
            (forall k, k ≠ "bits" -> w_options w0 !! k = w_options w !! k) ->
            w_options w0 !! "bits" <> None ->
            (bits ← opt_index "bits";
             key_size ← py_int bits;
             key ← generate kind (PInt key_size) (gen key_size);
             _saveKey key None) w0 = (r1, w1, e1) ->
            (is_Ok r1 = false /\ w_fs w1 = w_fs w
             /\ (e1 = [] \/ exists kind arg, e1 = [EvGenerate kind arg]))
            \/ exists key w2 kind arg rest,
                 e1 = EvGenerate kind arg :: rest
                 /\ _saveKey key None w2 = (r1, w1, rest)
                 /\ w_fs w2 = w_fs w /\ w_env w2 = w_env w
                 /\ w_stdin w2 = w_stdin w /\ w_tty w2 = w_tty w
                 /\ forall k, k ≠ "bits" ->
                      w_options w2 !! k = w_options w !! k) as Hsized.
  { intros kind gen w0 r1 w1 e1 F V I T O Hsome.
    destruct (w_options w0 !! "bits") as [v|] eqn:Hv; [|done].
    rewrite (bind_pure _ _ _ v) by (unfold opt_index; by rewrite Hv).
    assert ((exists z, py_int v w0 = (Ok z, w0, []))
            \/ exists e, py_int v w0 = (Raise e, w0, [])) as [[z Hz]|[e He]].
    { unfold py_int. destruct v as [|s|s|z|]; eauto; unfold_monad; red_all.
      - destruct (int_of_text (w_env w0) s); eauto.
      - destruct (int_of_ascii (e_int_max_str_digits (w_env w0)) s); eauto. }
    - rewrite (bind_pure _ _ _ z) by done. intros Hk.
      eapply (Hgen kind); [..|exact Hk]; done.
    - rewrite (bind_fail _ _ _ e) by done. intros [= <- <- <-]. left. auto. }
  intros [<-|[<-|[<-|[<-|[]]]]] Hrun.
  - eapply (Hbits 2048); [|exact Hrun]. intros w0 r1 w1 e1.
    apply (Hsized "rsa" (fun n => rsa_generate_private_key n 65537)).
  - eapply (Hbits 1024); [|exact Hrun]. intros w0 r1 w1 e1.
    apply (Hsized "dsa" dsa_generate_private_key).
  - eapply (Hbits 256); [|exact Hrun].
    intros w0 r1 w1 e1 F V I T O Hsome.
    destruct (w_options w0 !! "bits") as [v|] eqn:Hv; [|done].
    rewrite (bind_pure _ _ _ v) by (unfold opt_index; by rewrite Hv).
    unfold encode_ascii. destruct (is_ascii (py_str v)).
    2:{ rewrite (bind_fail _ _ _ (OtherException "UnicodeEncodeError" ""))
          by done.
        intros [= <- <- <-]. left. auto. }
    rewrite (bind_pure _ _ _ (py_str v)) by done.
    unfold dict_index. destruct (_curveTable !! _) as [c|].
    2:{ rewrite (bind_fail _ _ _ (KeyError ("ecdsa-sha2-nistp" +:+ py_str v)))
          by done.
        intros [= <- <- <-]. left. auto. }
    rewrite (bind_pure _ _ _ c) by done. intros Hk.
    eapply (Hgen "ecdsa"); [..|exact Hk]; done.
  - unfold generateEd25519key in Hrun.
    eapply (Hgen "ed25519"); [..|exact Hrun]; done.
Qed.

End Generators.

(** ** The claims on concrete inputs *)

Lemma changePassPhrase_verifies_before_writing_witness :
  (* a serialiser whose bytes do not parse *)
  (In (EvFromString "garbage" (PStr "new"))
      (events_of (@changePassPhrase (Toy.keys false) Inputs.w_change))
   /\ @Key_fromString (Toy.keys false) "garbage" (PStr "new")
      = Raise (BadKeyError "unknown key format")
   /\ result_of (@changePassPhrase (Toy.keys false) Inputs.w_change)
      = Raise (SystemExit
                 (PStr "Could not change passphrase: unknown key format"))
   /\ w_fs (world_of (@changePassPhrase (Toy.keys false) Inputs.w_change))
      = w_fs Inputs.w_change)
  (* a run that writes *)
  /\ (In (EvWrite "/tmp/id_test" "Enew" (octal "100600"))
         (events_of (@changePassPhrase (Toy.keys true) Inputs.w_change))
      /\ exists before after full pass,
           events_of (@changePassPhrase (Toy.keys true) Inputs.w_change)
           = before ++ EvWrite "/tmp/id_test" "Enew" (octal "100600") :: after
           /\ In (EvFromString full pass) before
           /\ is_Ok (@Key_fromString (Toy.keys true) full pass) = true
           /\ "Enew" = full)
  (* a disk that is full after two bytes *)
  /\ (In (EvWrite "/tmp/id_test" "En" (octal "100600"))
         (events_of (@changePassPhrase (Toy.keys true)
                       (Inputs.w_change_on (Inputs.full_after 2))))
      /\ exists before after full pass,
           events_of (@changePassPhrase (Toy.keys true)
                        (Inputs.w_change_on (Inputs.full_after 2)))
           = before ++ EvWrite "/tmp/id_test" "En" (octal "100600") :: after
           /\ In (EvFromString full pass) before
           /\ is_Ok (@Key_fromString (Toy.keys true) full pass) = true
           /\ String.prefix "En" full = true)
  (* a disk that cannot be written *)
  /\ ((forall p d m,
         ~ In (EvWrite p d m)
              (events_of (@changePassPhrase (Toy.keys true)
                            (Inputs.w_change_on Inputs.read_only))))
      /\ w_fs (world_of (@changePassPhrase (Toy.keys true)
                           (Inputs.w_change_on Inputs.read_only)))
         = w_fs (Inputs.w_change_on Inputs.read_only)).
Proof.
  split; [|split; [|split]].
  - assert (In (EvFromString "garbage" (PStr "new"))
              (events_of (@changePassPhrase (Toy.keys false) Inputs.w_change)))
      as Hin by (vm_compute; auto 10).
    split; [exact Hin|]. split; [reflexivity|].
    destruct (proj1 (proj2 (@changePassPhrase_verifies_before_writing
                              (Toy.keys false) _ _ _ _ (run_eta _)))
                _ _ _ Hin eq_refl) as (Hr & Hfs & _).
    split; [exact Hr|exact Hfs].
  - assert (In (EvWrite "/tmp/id_test" "Enew" (octal "100600"))
              (events_of (@changePassPhrase (Toy.keys true) Inputs.w_change)))
      as Hin by (vm_compute; auto 10).
    split; [exact Hin|].
    destruct (proj1 (proj2 (proj2 (@changePassPhrase_verifies_before_writing
                                     (Toy.keys true) _ _ _ _ (run_eta _))))
                _ _ _ Hin)
      as (before & after & full & pass & Hevs & _ & Hchk & Hok & _ & Hfull & _).
    exists before, after, full, pass. split_and!; try done.
    apply Hfull. vm_compute. reflexivity.
  - assert (In (EvWrite "/tmp/id_test" "En" (octal "100600"))
              (events_of (@changePassPhrase (Toy.keys true)
                            (Inputs.w_change_on (Inputs.full_after 2)))))
      as Hin by (vm_compute; auto 10).
    split; [exact Hin|].
    destruct (proj1 (proj2 (proj2 (@changePassPhrase_verifies_before_writing
                                     (Toy.keys true) _ _ _ _ (run_eta _))))
                _ _ _ Hin)
      as (before & after & full & pass & Hevs & _ & Hchk & Hok & Hpre & _).
    exists before, after, full, pass. split_and!; done.
  - assert (forall p d m,
              ~ In (EvWrite p d m)
                   (events_of (@changePassPhrase (Toy.keys true)
                                 (Inputs.w_change_on Inputs.read_only))))
      as Hno.
    { intros p d m Hin. vm_compute in Hin.
      destruct Hin as [Hin|[Hin|[Hin|[]]]]; discriminate Hin. }
    split; [exact Hno|].
    exact (proj1 (proj2 (proj2 (proj2
             (@changePassPhrase_verifies_before_writing
                (Toy.keys true) _ _ _ _ (run_eta _))))) Hno).
Defined.

(** A run that does write: the bytes written were checked first. *)
Example changePassPhrase_run :
  @changePassPhrase (Toy.keys true) Inputs.w_change
  = (Ok tt,
     set_fs (<["/tmp/id_test" := mkFile "Enew" (octal "100600")]>
               (w_fs Inputs.w_change))
       (set_options (<["private-key-subtype" := PStr "PEM"]>
                       (w_options Inputs.w_change)) Inputs.w_change),
     [EvFromFile "/tmp/id_test" PNone;
      EvToString "RSA" (PStr "PEM") (PStr "new") PNone;
      EvFromString "Enew" (PStr "new");
      EvWrite "/tmp/id_test" "Enew" (octal "100600");
      EvPrint "Your identification has been saved with the new passphrase."]).
Proof. vm_compute. reflexivity. Qed.

(** A run in which the disk is full once the file is opened: the key
    file is left empty, after a check that succeeded. *)
Example changePassPhrase_on_a_full_disk :
  let run := @changePassPhrase (Toy.keys true)
               (Inputs.w_change_on (Inputs.full_after 0)) in
  result_of run
  = Raise (OtherException "OSError" "[Errno 28] No space left on device")
  /\ events_of run
     = [EvFromFile "/tmp/id_test" PNone;
        EvToString "RSA" (PStr "PEM") (PStr "new") PNone;
        EvFromString "Enew" (PStr "new");
        EvWrite "/tmp/id_test" "" (octal "100600")]
  /\ w_fs (world_of run) !! "/tmp/id_test" = Some (mkFile "" (octal "100600")).
Proof. vm_compute. auto. Qed.

(** C2 word for word fails under the usual creation mask 022: the
    private key file exists with mode [0o100755] until the [chmod]. *)
Lemma private_key_created_with_default_mode :
  result_of (@_saveKey (Toy.keys true) Inputs.ed25519 None Inputs.w_generate)
  = Ok tt
  /\ modes_of "/tmp/id_test"
       (events_of (@_saveKey (Toy.keys true) Inputs.ed25519 None
                     Inputs.w_generate))
     = [octal "100755"; octal "100600"]
  /\ ~ never_exposed "/tmp/id_test"
         (events_of (@_saveKey (Toy.keys true) Inputs.ed25519 None
                       Inputs.w_generate)).
Proof.
  split; [by vm_compute|]. split; [by vm_compute|].
  intros Hnever. assert (modes_of "/tmp/id_test"
    (events_of (@_saveKey (Toy.keys true) Inputs.ed25519 None Inputs.w_generate))
    = [octal "100755"; octal "100600"]) as Hmodes by (by vm_compute).
  unfold never_exposed in Hnever. rewrite Hmodes in Hnever.
  apply Forall_cons_1 in Hnever as [Hfirst _]. by vm_compute in Hfirst.
Qed.

Lemma saveKey_restricts_after_writing_witness :
  result_of (@_saveKey (Toy.keys true) Inputs.ed25519 None Inputs.w_generate)
  = Ok tt
  /\ exists f d pd,
       List.filter is_file_event
         (events_of (@_saveKey (Toy.keys true) Inputs.ed25519 None
                       Inputs.w_generate))
       = [EvSetContent f d (create_mode Inputs.linux (octal "777"));
          EvChmod f (octal "100600");
          EvSetContent (f +:+ ".pub") pd
            (create_mode Inputs.linux (octal "777"))].
Proof.
  assert (result_of (@_saveKey (Toy.keys true) Inputs.ed25519 None
                       Inputs.w_generate) = Ok tt) as Hok by (by vm_compute).
  split; [exact Hok|].
  destruct (@saveKey_restricts_after_writing (Toy.keys true) Inputs.ed25519
              Inputs.w_generate _ _ _ (run_eta _) Hok)
    as (f & d & pd & Hevs & _).
  exists f, d, pd. exact Hevs.
Defined.

(** C3 word for word fails: ["yellow"] is no explicit yes, and the
    existing file is overwritten all the same. *)
Lemma overwritten_on_an_answer_that_is_not_yes :
  explicit_yes "yellow" = false
  /\ w_fs (Inputs.w_existing "yellow") !! "/tmp/id_test"
     = Some (mkFile "old" (octal "100600"))
  /\ result_of (@_saveKey (Toy.keys true) Inputs.ed25519 None
                  (Inputs.w_existing "yellow")) = Ok tt
  /\ w_fs (world_of (@_saveKey (Toy.keys true) Inputs.ed25519 None
                       (Inputs.w_existing "yellow"))) !! "/tmp/id_test"
     = Some (mkFile "P" (octal "100600"))
  /\ w_fs (world_of (@_saveKey (Toy.keys true) Inputs.ed25519 None
                       (Inputs.w_existing "yellow")))
     ≠ w_fs (Inputs.w_existing "yellow").
Proof.
  split_and!;
    [vm_compute; reflexivity|vm_compute; reflexivity|vm_compute; reflexivity
    |vm_compute; reflexivity|].
  intros Heq.
  assert (w_fs (world_of (@_saveKey (Toy.keys true) Inputs.ed25519 None
                            (Inputs.w_existing "yellow"))) !! "/tmp/id_test"
          = Some (mkFile "P" (octal "100600"))) as Hnew by (by vm_compute).
  rewrite Heq in Hnew. vm_compute in Hnew. discriminate Hnew.
Qed.

Lemma overwrite_declined_unless_leading_y_witness :
  (* the answer [no] *)
  (KeyTypeMapping !! Toy.tk_type Inputs.ed25519 = Some "ed25519"
   /\ @save_path "ed25519" input (Inputs.w_existing "no")
      = (Ok "/tmp/id_test", Inputs.w_existing "no", [])
   /\ is_Some (w_fs (Inputs.w_existing "no") !! "/tmp/id_test")
   /\ affirmative "no" = false
   /\ events_of (@_saveKey (Toy.keys true) Inputs.ed25519 None
                   (Inputs.w_existing "no"))
      = [EvPrint "/tmp/id_test already exists.";
         EvInput "Overwrite (y/n)? " (Some "no")]
   /\ result_of (@_saveKey (Toy.keys true) Inputs.ed25519 None
                   (Inputs.w_existing "no")) = Raise (SystemExit PNone)
   /\ w_fs (world_of (@_saveKey (Toy.keys true) Inputs.ed25519 None
                        (Inputs.w_existing "no")))
      = w_fs (Inputs.w_existing "no"))
  (* the answer [Yes] *)
  /\ (affirmative "Yes" = true
      /\ @_saveKey (Toy.keys true) Inputs.ed25519 None (Inputs.w_existing "Yes")
         = (let '(r, w', rest) :=
              (choose_passphrase;;
               @resolve_subtype (Toy.keys true) Inputs.ed25519;;
               @write_key_pair (Toy.keys true) Inputs.ed25519 "/tmp/id_test";;
               @report_saved (Toy.keys true) Inputs.ed25519 "/tmp/id_test")
                (set_stdin [] (Inputs.w_existing "Yes")) in
            (r, w', EvPrint "/tmp/id_test already exists."
                    :: EvInput "Overwrite (y/n)? " (Some "Yes") :: rest))
      /\ exists pass d,
           @Key_toString (Toy.keys true) Inputs.ed25519 (PStr "v1") pass PNone
           = Ok d
           /\ w_fs (world_of (@_saveKey (Toy.keys true) Inputs.ed25519 None
                                (Inputs.w_existing "Yes"))) !! "/tmp/id_test"
              = Some (mkFile d (octal "100600")))
  (* no answer at all *)
  /\ w_fs (world_of (@_saveKey (Toy.keys true) Inputs.ed25519 None
                       (Toy.world [("filename", PStr "/tmp/id_test")]
                          [("/tmp/id_test", mkFile "old" (octal "100600"))]
                          [] [] Inputs.linux)))
     = list_to_map [("/tmp/id_test", mkFile "old" (octal "100600"))].
Proof.
  assert (KeyTypeMapping !! Toy.tk_type Inputs.ed25519 = Some "ed25519")
    as Hktn by reflexivity.
  split; [|split].
  - assert (@save_path "ed25519" input (Inputs.w_existing "no")
            = (Ok "/tmp/id_test", Inputs.w_existing "no", [])) as Hpath
      by (by vm_compute).
    assert (is_Some (w_fs (Inputs.w_existing "no") !! "/tmp/id_test")) as Hf
      by (vm_compute; eauto).
    destruct (@overwrite_declined_unless_leading_y (Toy.keys true)
                Inputs.ed25519 _ _ _ _ _ _ _ _ (run_eta _) Hktn Hpath Hf)
      as (_ & rest & Hevs & Hno & _).
    destruct (Hno "no" eq_refl ltac:(discriminate) eq_refl) as (-> & Hr & Hfs).
    split_and!; done.
  - assert (@save_path "ed25519" input (Inputs.w_existing "Yes")
            = (Ok "/tmp/id_test", Inputs.w_existing "Yes", [])) as Hpath
      by (by vm_compute).
    assert (is_Some (w_fs (Inputs.w_existing "Yes") !! "/tmp/id_test")) as Hf
      by (vm_compute; eauto).
    destruct (@overwrite_declined_unless_leading_y (Toy.keys true)
                Inputs.ed25519 _ _ _ _ _ _ _ _ (run_eta _) Hktn Hpath Hf)
      as (_ & rest & Hevs & _ & Hyes & _ & Hdone).
    split; [reflexivity|]. split.
    + specialize (Hyes "Yes" eq_refl eq_refl).
      change (List.tl (w_stdin (Inputs.w_existing "Yes"))) with (@nil string)
        in Hyes.
      rewrite <- Hyes. rewrite (run_eta (_saveKey _ _ _)) at 1.
      by rewrite Hevs.
    + destruct (Hdone ltac:(by vm_compute))
        as (yn & pass & d & _ & _ & Hd & Hfile).
      exists pass, d. split; [exact Hd|exact Hfile].
  - set (w := Toy.world _ _ _ _ _).
    assert (@save_path "ed25519" input w = (Ok "/tmp/id_test", w, []))
      as Hpath by (by vm_compute).
    assert (is_Some (w_fs w !! "/tmp/id_test")) as Hf by (vm_compute; eauto).
    destruct (@overwrite_declined_unless_leading_y (Toy.keys true)
                Inputs.ed25519 _ _ _ _ _ _ _ _ (run_eta _) Hktn Hpath Hf)
      as (_ & rest & _ & _ & _ & Hnone & _).
    destruct (Hnone ltac:(by intros yn [=])) as (_ & _ & Hfs).
    exact Hfs.
Defined.

Lemma private_key_subtype_used_witness :
  (* an Ed25519 key saved with no subtype in the options *)
  (default PNone (w_options Inputs.w_generate !! "private-key-subtype")
   = PNone
   /\ exists f pass d,
        In (EvToString "Ed25519" (PStr "v1") pass PNone)
           (events_of (@_saveKey (Toy.keys true) Inputs.ed25519 None
                         Inputs.w_generate))
        /\ @Key_toString (Toy.keys true) Inputs.ed25519 (PStr "v1") pass PNone
           = Ok d
        /\ w_fs (world_of (@_saveKey (Toy.keys true) Inputs.ed25519 None
                             Inputs.w_generate)) !! f
           = Some (mkFile d (octal "100600")))
  (* the same key saved with the subtype PEM in the options *)
  /\ (w_options (Inputs.w_generate_subtype "PEM") !! "private-key-subtype"
      = Some (PStr "PEM")
      /\ forall kt st pass,
           In (EvToString kt st pass PNone)
              (events_of (@_saveKey (Toy.keys true) Inputs.ed25519 None
                            (Inputs.w_generate_subtype "PEM"))) ->
           st = PStr "PEM")
  (* the passphrase of an RSA key changed with no subtype in the options *)
  /\ (default PNone (w_options Inputs.w_change !! "private-key-subtype")
      = PNone
      /\ exists loaded f np d m,
           @Key_type (Toy.keys true) loaded = "RSA"
           /\ In (EvToString "RSA" (PStr "PEM") np PNone)
                 (events_of (@changePassPhrase (Toy.keys true) Inputs.w_change))
           /\ @Key_toString (Toy.keys true) loaded (PStr "PEM") np PNone = Ok d
           /\ w_fs (world_of (@changePassPhrase (Toy.keys true)
                                Inputs.w_change)) !! f
              = Some (mkFile d m))
  (* and with the subtype v1 in the options *)
  /\ (w_options (Inputs.w_change_subtype "v1") !! "private-key-subtype"
      = Some (PStr "v1")
      /\ In (EvToString "RSA" (PStr "v1") (PStr "new") PNone)
            (events_of (@changePassPhrase (Toy.keys true)
                          (Inputs.w_change_subtype "v1")))
      /\ forall kt st pass,
           In (EvToString kt st pass PNone)
              (events_of (@changePassPhrase (Toy.keys true)
                            (Inputs.w_change_subtype "v1"))) ->
           st = PStr "v1").
Proof.
  split; [|split; [|split]].
  - destruct (@private_key_subtype_used (Toy.keys true) Inputs.ed25519
                Inputs.w_generate) as (Hsub & _ & Hsave & _).
    split; [reflexivity|].
    destruct (Hsave ltac:(by vm_compute)) as (f & pass & d & Hin & Hd & _ & Hf).
    change (@Key_type (Toy.keys true) Inputs.ed25519) with "Ed25519"
      in Hin, Hd.
    rewrite (proj1 (proj2 (Hsub "Ed25519") eq_refl) eq_refl) in Hin, Hd.
    exists f, pass, d. split_and!; [exact Hin|exact Hd|exact Hf].
  - destruct (@private_key_subtype_used (Toy.keys true) Inputs.ed25519
                (Inputs.w_generate_subtype "PEM")) as (Hsub & Hall & _).
    split; [reflexivity|].
    intros kt st pass Hin. rewrite (Hall kt st pass (or_introl Hin)).
    apply (proj1 (Hsub kt) (PStr "PEM")); [reflexivity|discriminate].
  - destruct (@private_key_subtype_used (Toy.keys true) Inputs.ed25519
                Inputs.w_change) as (Hsub & Hall & _ & Hchange).
    split; [reflexivity|].
    destruct (Hchange ltac:(by vm_compute))
      as (loaded & f & np & d & m & Hin & Hd & Hw & Hf).
    assert (@Key_type (Toy.keys true) loaded = "RSA") as Hty.
    { vm_compute in Hw.
      destruct Hw as [Hw|[Hw|[Hw|[Hw|[Hw|[]]]]]]; try discriminate Hw.
      injection Hw as <- <- <-. vm_compute in Hin.
      destruct Hin as [Hin|[Hin|[Hin|[Hin|[Hin|[]]]]]]; try discriminate Hin.
      by injection Hin. }
    rewrite Hty in Hin, Hd.
    rewrite (proj2 (proj2 (Hsub "RSA") eq_refl) ltac:(discriminate)) in Hin, Hd.
    exists loaded, f, np, d, m. split_and!; done.
  - destruct (@private_key_subtype_used (Toy.keys true) Inputs.ed25519
                (Inputs.w_change_subtype "v1")) as (Hsub & Hall & _).
    split; [reflexivity|]. split; [vm_compute; auto 10|].
    intros kt st pass Hin. rewrite (Hall kt st pass (or_intror Hin)).
    apply (proj1 (Hsub kt) (PStr "v1")); [reflexivity|discriminate].
Defined.

Lemma old_passphrase_asked_once_witness :
  @_getKeyOrDefault None None (Inputs.w_encrypted ["wrong"])
  = (Ok "/tmp/id_test", Inputs.w_encrypted ["wrong"], [])
  /\ w_fs (Inputs.w_encrypted ["wrong"]) !! "/tmp/id_test"
     = Some (mkFile "Esecret" (octal "100600"))
  /\ @Key_fromString (Toy.keys true) "Esecret" PNone
     = Raise (EncryptedKeyError
                "Passphrase must be provided for an encrypted key")
  /\ List.length
       (List.filter is_old_passphrase_prompt
          (events_of (@changePassPhrase (Toy.keys true)
                        (Inputs.w_encrypted ["wrong"])))) = 1%nat
  /\ result_of (@changePassPhrase (Toy.keys true)
                  (Inputs.w_encrypted ["wrong"]))
     = Raise (SystemExit
                (PStr "Could not change passphrase: old passphrase error"))
  /\ events_of (@changePassPhrase (Toy.keys true)
                  (Inputs.w_encrypted ["wrong"]))
     = [EvFromFile "/tmp/id_test" PNone;
        EvGetpass "Enter old passphrase: " (Some "wrong");
        EvFromFile "/tmp/id_test" (PStr "wrong")].
Proof.
  assert (@_getKeyOrDefault None None (Inputs.w_encrypted ["wrong"])
          = (Ok "/tmp/id_test", Inputs.w_encrypted ["wrong"], [])) as Hpath
    by (by vm_compute).
  assert (w_fs (Inputs.w_encrypted ["wrong"]) !! "/tmp/id_test"
          = Some (mkFile "Esecret" (octal "100600"))) as Hf by (by vm_compute).
  assert (@Key_fromString (Toy.keys true) "Esecret" PNone
          = Raise (EncryptedKeyError
                     "Passphrase must be provided for an encrypted key"))
    as Henc by reflexivity.
  destruct (proj1 (@old_passphrase_asked_once (Toy.keys true) _ _ _ _ _ _ _ _ _
                     (run_eta _) Hpath Hf Henc) eq_refl) as (Honce & Hfail).
  destruct (Hfail "wrong" [] (BadKeyError "wrong passphrase") eq_refl eq_refl)
    as (Hr & Hevs & _).
  split_and!; try done.
Defined.

(** The entries compared are those of one round: in the lines
    [a b b c] two neighbours agree, and the loop, which compares [a]
    with [b] and [b] with [c], does not accept. *)
Example neighbours_of_two_rounds_do_not_end_the_loop :
  adjacent_match ["a"; "b"; "b"; "c"]
  /\ result_of (ask_new_passphrase (Inputs.w_ask ["a"; "b"; "b"; "c"]))
     = Raise EOFError
  /\ ~ (is_Ok (result_of (ask_new_passphrase
                            (Inputs.w_ask ["a"; "b"; "b"; "c"]))) = true
        <-> adjacent_match ["a"; "b"; "b"; "c"]).
Proof.
  assert (adjacent_match ["a"; "b"; "b"; "c"]) as Hadj
    by (by exists 1%nat, "b").
  split; [exact Hadj|]. split; [by vm_compute|].
  intros [_ Hacc]. specialize (Hacc Hadj). by vm_compute in Hacc.
Qed.

Lemma passphrase_accepted_when_a_round_agrees_witness :
  (* [changePassPhrase]: one round that differs, then the empty entry
     twice *)
  (truthy (default PNone
             (w_options (Inputs.w_ask ["a"; "b"; ""; ""; "x"]) !! "newpass"))
   = false
   /\ collects "newpass" (Inputs.w_ask ["a"; "b"; ""; ""; "x"])
        (result_of (ask_new_passphrase (Inputs.w_ask ["a"; "b"; ""; ""; "x"])))
        (world_of (ask_new_passphrase (Inputs.w_ask ["a"; "b"; ""; ""; "x"])))
        (events_of (ask_new_passphrase (Inputs.w_ask ["a"; "b"; ""; ""; "x"])))
   /\ result_of (ask_new_passphrase (Inputs.w_ask ["a"; "b"; ""; ""; "x"]))
      = Ok tt
   /\ w_options (world_of (ask_new_passphrase
                             (Inputs.w_ask ["a"; "b"; ""; ""; "x"])))
        !! "newpass" = Some (PStr "")
   /\ truthy (PStr "") = false)
  (* [_saveKey]: two rounds that differ, then [s3cret] twice *)
  /\ (truthy (default PNone
                (w_options (Inputs.w_ask ["a"; "b"; "b"; "c"; "s3cret"; "s3cret"])
                   !! "no-passphrase")) = false
      /\ collects "pass" (Inputs.w_ask ["a"; "b"; "b"; "c"; "s3cret"; "s3cret"])
           (result_of (choose_passphrase
                         (Inputs.w_ask ["a"; "b"; "b"; "c"; "s3cret"; "s3cret"])))
           (world_of (choose_passphrase
                        (Inputs.w_ask ["a"; "b"; "b"; "c"; "s3cret"; "s3cret"])))
           (events_of (choose_passphrase
                         (Inputs.w_ask ["a"; "b"; "b"; "c"; "s3cret"; "s3cret"])))
      /\ w_options (world_of (choose_passphrase
                                (Inputs.w_ask
                                   ["a"; "b"; "b"; "c"; "s3cret"; "s3cret"])))
           !! "pass" = Some (PStr "s3cret")
      /\ mismatch_notices
           (events_of (choose_passphrase
                         (Inputs.w_ask ["a"; "b"; "b"; "c"; "s3cret"; "s3cret"])))
         = 2%nat).
Proof.
  split.
  - split; [reflexivity|].
    split; [|by vm_compute].
    exact (proj2 (passphrase_accepted_when_a_round_agrees
                    (Inputs.w_ask ["a"; "b"; ""; ""; "x"]) _ _ _)
             eq_refl (run_eta _)).
  - split; [reflexivity|].
    split; [|by vm_compute].
    refine (proj1 (passphrase_accepted_when_a_round_agrees
                     (Inputs.w_ask ["a"; "b"; "b"; "c"; "s3cret"; "s3cret"])
                     _ _ _)
              eq_refl _ (run_eta _)).
    exists PNone. split; reflexivity.
Defined.

Lemma printFingerprint_prefers_pub_sibling_witness :
  @_getKeyOrDefault None None Inputs.w_pub
  = (Ok "/tmp/id_test", Inputs.w_pub, [])
  /\ requested_format (w_options Inputs.w_pub) = Some SHA256_BASE64
  /\ w_fs Inputs.w_pub !! "/tmp/id_test.pub"
     = Some (mkFile "P alice@example.org" (octal "100644"))
  /\ w_fs (world_of (@printFingerprint (Toy.keys true) Inputs.w_pub))
     = w_fs Inputs.w_pub
  /\ result_of (@printFingerprint (Toy.keys true) Inputs.w_pub) = Ok tt
  /\ events_of (@printFingerprint (Toy.keys true) Inputs.w_pub)
     = [EvFromFile "/tmp/id_test.pub" PNone;
        EvPrint "2048 FBeBkGJ8Dgh7rZCtoOmWfrP9qP+FDdIgKr5yfwjmNeo= id_test.pub"].
Proof.
  assert (@_getKeyOrDefault None None Inputs.w_pub
          = (Ok "/tmp/id_test", Inputs.w_pub, [])) as Hpath
    by (vm_compute; reflexivity).
  assert (requested_format (w_options Inputs.w_pub) = Some SHA256_BASE64)
    as Hfmt by (vm_compute; reflexivity).
  assert (w_fs Inputs.w_pub !! "/tmp/id_test.pub"
          = Some (mkFile "P alice@example.org" (octal "100644"))) as Hfile
    by (vm_compute; reflexivity).
  destruct (@printFingerprint_prefers_pub_sibling (Toy.keys true)
              Inputs.w_pub _ _ _ (run_eta _)) as (Hfs & Hrest).
  destruct (Hrest _ _ _ Hpath) as (_ & _ & Hprint).
  destruct (Hprint SHA256_BASE64
              (mkFile "P alice@example.org" (octal "100644"))
              (Toy.mkToyKey "RSA" 2048) Hfmt Hfile eq_refl) as (Hr & Hevs).
  split_and!; [exact Hpath|exact Hfmt|exact Hfile|exact Hfs|exact Hr|].
  rewrite Hevs. vm_compute. reflexivity.
Defined.


(** The sizes and the curve the four generators use when none is given. *)
Example generators_default_events :
  head (events_of (@generateRSAkey (Toy.keys true) Inputs.w_generate))
  = Some (EvGenerate "rsa" (PInt 2048))
  /\ head (events_of (@generateDSAkey (Toy.keys true) Inputs.w_generate))
     = Some (EvGenerate "dsa" (PInt 1024))
  /\ head (events_of (@generateECDSAkey (Toy.keys true) Inputs.w_generate))
     = Some (EvGenerate "ecdsa" (PStr "secp256r1"))
  /\ head (events_of (@generateEd25519key (Toy.keys true) Inputs.w_generate))
     = Some (EvGenerate "ed25519" PNone).
Proof. vm_compute. auto. Qed.

Lemma unsupported_format_found_after_writing_witness :
  w_options Inputs.w_unsupported !! "format" = Some (PStr "sha1")
  /\ PStr "sha1" ≠ PStr "md5-hex" /\ PStr "sha1" ≠ PStr "sha256-base64"
  /\ is_Ok (result_of (@_saveKey (Toy.keys true) Inputs.ed25519 None
                         Inputs.w_unsupported)) = false
  /\ result_of (@_saveKey (Toy.keys true) Inputs.ed25519 None
                  Inputs.w_unsupported)
     = Raise (BadFingerPrintFormat "Unsupported fingerprint format: sha1")
  /\ events_of (@_saveKey (Toy.keys true) Inputs.ed25519 None
                  Inputs.w_unsupported)
     = [EvToString "Ed25519" (PStr "v1") (PBytes "") PNone;
        EvSetContent "/tmp/id_test" "P" (octal "100755");
        EvChmod "/tmp/id_test" (octal "100600");
        EvToString "Ed25519" PNone PNone (PStr "alice@example.org");
        EvSetContent "/tmp/id_test.pub" "P alice@example.org" (octal "100755")]
  /\ w_fs (world_of (@_saveKey (Toy.keys true) Inputs.ed25519 None
                       Inputs.w_unsupported))
     = <["/tmp/id_test.pub" := mkFile "P alice@example.org" (octal "100755")]>
         (<["/tmp/id_test" := mkFile "P" (octal "100600")]>
            (w_fs Inputs.w_unsupported)).
Proof.
  assert (w_options Inputs.w_unsupported !! "format" = Some (PStr "sha1"))
    as Hfmt by (vm_compute; reflexivity).
  assert (PStr "sha1" ≠ PStr "md5-hex") as H1 by discriminate.
  assert (PStr "sha1" ≠ PStr "sha256-base64") as H2 by discriminate.
  destruct (@unsupported_format_found_after_writing (Toy.keys true)
              Inputs.ed25519 Inputs.w_unsupported _ _ _ _ (run_eta _)
              Hfmt H1 H2) as (Hr & Hgo & _).
  destruct (Hgo "ed25519" "/tmp/id_test" Inputs.w_unsupported []
              Inputs.w_unsupported []
              (set_options (<["pass" := PBytes ""]>
                              (w_options Inputs.w_unsupported))
                 Inputs.w_unsupported) []
              (PBytes "") "P" "P alice@example.org")
    as (Hres & Hevs & Hfs);
    try (vm_compute; reflexivity).
  split_and!; [exact Hfmt|exact H1|exact H2|exact Hr|exact Hres|exact Hevs
              |exact Hfs].
Defined.

(** The run of C9 in full: both files are written before the format is
    looked at. *)
Example unsupported_format_run :
  events_of (@_saveKey (Toy.keys true) Inputs.ed25519 None Inputs.w_unsupported)
  = [EvToString "Ed25519" (PStr "v1") (PBytes "") PNone;
     EvSetContent "/tmp/id_test" "P" (octal "100755");
     EvChmod "/tmp/id_test" (octal "100600");
     EvToString "Ed25519" PNone PNone (PStr "alice@example.org");
     EvSetContent "/tmp/id_test.pub" "P alice@example.org" (octal "100755")].
Proof. vm_compute. reflexivity. Qed.

(** The same on a disk that cannot be written: the run ends with the
    error of the first write, and the format is not looked at. *)
Example unsupported_format_on_a_read_only_disk :
  let run := @_saveKey (Toy.keys true) Inputs.ed25519 None
               (Inputs.w_unsupported_on Inputs.read_only) in
  result_of run
  = Raise (OtherException "OSError" "[Errno 30] Read-only file system")
  /\ events_of run = [EvToString "Ed25519" (PStr "v1") (PBytes "") PNone]
  /\ w_fs (world_of run) = w_fs (Inputs.w_unsupported_on Inputs.read_only).
Proof. vm_compute. auto. Qed.

(** A run in which the mode of the private key file cannot be changed:
    the file stays as it was created. *)
Example saveKey_when_chmod_fails :
  let run := @_saveKey (Toy.keys true) Inputs.ed25519 None
               (Inputs.w_generate_in (Toy.fixed_modes Inputs.linux)) in
  result_of run = Raise (OtherException "PermissionError" "/tmp/id_test")
  /\ events_of run
     = [EvToString "Ed25519" (PStr "v1") (PBytes "") PNone;
        EvSetContent "/tmp/id_test" "P" (octal "100755")]
  /\ w_fs (world_of run) !! "/tmp/id_test"
     = Some (mkFile "P" (octal "100755"))
  /\ w_fs (world_of run) !! "/tmp/id_test.pub" = None.
Proof. vm_compute. auto. Qed.



(** ** Small checks of the helpers *)

Example py_strip_ex :
  py_strip "  /tmp/id x  " = "/tmp/id x"
  /\ py_strip (Inputs.nbsp +:+ "/tmp/k" +:+ Inputs.nbsp +:+ " ") = "/tmp/k"
  /\ py_strip (Inputs.fs_char +:+ "k") = "k".
Proof. vm_compute. auto. Qed.

Example basename_ex :
  os_path_basename Inputs.linux "/home/u/.ssh/id_rsa.pub" = "id_rsa.pub"
  /\ os_path_basename Inputs.linux "C:\keys\id_rsa.pub"
     = "C:\keys\id_rsa.pub"
  /\ os_path_basename Inputs.windows "C:\keys\id_rsa.pub" = "id_rsa.pub".
Proof. vm_compute. auto. Qed.

Example int_of_text_ex :
  int_of_text Inputs.linux " 2_048 " = Some 2048
  /\ int_of_text Inputs.linux "-7" = Some (-7)
  /\ int_of_text Inputs.linux "4__0" = None
  /\ int_of_text Inputs.linux "" = None
  /\ int_of_text Inputs.linux (Inputs.fs_char +:+ "2048") = None
  /\ int_of_text Inputs.linux Inputs.arabic_indic_1024 = Some 1024
  /\ int_of_text Inputs.linux (Inputs.nbsp +:+ "2048" +:+ Inputs.nbsp)
     = Some 2048
  /\ int_of_text Inputs.linux (Inputs.nbsp +:+ "20 48") = None.
Proof. vm_compute. auto 10. Qed.

Example py_str_ex : py_str (PInt 256) = "256".
Proof. reflexivity. Qed.

Example affirmative_ex :
  affirmative "y" = true /\ affirmative "Yes" = true
  /\ affirmative "yellow" = true /\ affirmative "n" = false
  /\ affirmative " y" = false /\ affirmative "" = false.
Proof. vm_compute. auto 10. Qed.

(** A first run in full: an Ed25519 key saved without passphrase under
    the creation mask 022. *)
Example generate_ed25519_run :
  result_of (@generateEd25519key (Toy.keys true) Inputs.w_generate) = Ok tt
  /\ events_of (@generateEd25519key (Toy.keys true) Inputs.w_generate)
     = [EvGenerate "ed25519" PNone;
        EvToString "Ed25519" (PStr "v1") (PBytes "") PNone;
        EvSetContent "/tmp/id_test" "P" (octal "100755");
        EvChmod "/tmp/id_test" (octal "100600");
        EvToString "Ed25519" PNone PNone (PStr "alice@example.org");
        EvSetContent "/tmp/id_test.pub" "P alice@example.org" (octal "100755");
        EvPrint "Your identification has been saved in /tmp/id_test";
        EvPrint "Your public key has been saved in /tmp/id_test.pub";
        EvPrint "The key fingerprint in <FingerprintFormats=SHA256_BASE64> is:";
        EvPrint "FBeBkGJ8Dgh7rZCtoOmWfrP9qP+FDdIgKr5yfwjmNeo="].
Proof. vm_compute. split; reflexivity. Qed.

(** * Part III: the rest of the script *)

(** ** The fingerprint format *)

Section FormatProperties.
Context `{KeysLibrary}.

Lemma enumrepresentation_cases w :
  match w_options w !! "format" with
  | None => enumrepresentation w = (Raise (KeyError "format"), w, [])
  | Some v =>
      match requested_format (w_options w) with
      | Some fmt =>
          enumrepresentation w
          = (Ok tt, set_options (<["format" := PFmt fmt]> (w_options w)) w, [])
      | None =>
          enumrepresentation w
          = (Raise (BadFingerPrintFormat
                      ("Unsupported fingerprint format: " +:+ py_str v)),
             w, [])
      end
  end.
Proof.
  destruct (w_options w !! "format") as [v|] eqn:Hv.
  2:{ unfold enumrepresentation. unfold_monad. by rewrite Hv. }
  destruct (requested_format (w_options w)) as [fmt|] eqn:Hf.
  { by apply enumrepresentation_supported. }
  apply enumrepresentation_unsupported; [done|..]; intros ->;
    unfold requested_format in Hf; by rewrite Hv in Hf.
Qed.

Lemma requested_format_names options fmt :
  requested_format options = Some fmt <->
  exists name, (name, fmt) ∈ format_names
               /\ options !! "format" = Some (PStr name).
Proof.
  unfold requested_format, format_names. split.
  - destruct (options !! "format") as [[|s| | |]|]; try done.
    destruct (String.eqb_spec s "md5-hex") as [->|_].
    { intros [= <-]. exists "md5-hex". split; [|done]. set_solver. }
    destruct (String.eqb_spec s "sha256-base64") as [->|_]; [|done].
    intros [= <-]. exists "sha256-base64". split; [|done]. set_solver.
  - intros (name & Hin & ->).
    apply elem_of_cons in Hin as [[= -> ->]|Hin]; [done|].
    apply elem_of_cons in Hin as [[= -> ->]|Hin]; [done|].
    by apply elem_of_nil in Hin.
Qed.

(** X1.  [enumrepresentation] succeeds exactly on the two names
    [md5-hex] and [sha256-base64], written so; it then replaces the name
    in the options by its constant and changes nothing else.  In every
    other case it raises and leaves the options as they were: [KeyError]
    when there is no format, [BadFingerPrintFormat] with the rejected
    value in the message otherwise. *)
Theorem enumrepresentation_accepts_two_names w r w' evs :
  enumrepresentation w = (r, w', evs) ->
  evs = []
  /\ (r = Ok tt <->
      exists name fmt, (name, fmt) ∈ format_names
                       /\ w_options w !! "format" = Some (PStr name))
  /\ (forall name fmt,
        (name, fmt) ∈ format_names ->
        w_options w !! "format" = Some (PStr name) ->
        w' = set_options (<["format" := PFmt fmt]> (w_options w)) w)
  /\ (forall e, r = Raise e ->
        w' = w
        /\ match w_options w !! "format" with
           | None => e = KeyError "format"
           | Some v =>
               e = BadFingerPrintFormat
                     ("Unsupported fingerprint format: " +:+ py_str v)
           end).
Proof.
  intros Hrun. generalize (enumrepresentation_cases w). rewrite Hrun.
  destruct (w_options w !! "format") as [v|] eqn:Hv.
  - destruct (requested_format (w_options w)) as [fmt|] eqn:Hf.
    + intros [= -> -> ->]. split_and!; [done| |..].
      * split; [intros _|done].
        apply requested_format_names in Hf as (name & Hin & Hn).
        exists name, fmt. split; [done|]. congruence.
      * intros name fmt' Hin Hn.
        assert (requested_format (w_options w) = Some fmt') as Hf'.
        { apply requested_format_names. exists name. split; [done|].
          congruence. }
        congruence.
      * done.
    + intros [= -> -> ->]. split_and!; [done| |..].
      * split; [done|]. intros (name & fmt & Hin & Hn).
        assert (requested_format (w_options w) = Some fmt) as Hf'.
        { apply requested_format_names. exists name. split; [done|].
          congruence. }
        congruence.
      * intros name fmt Hin Hn.
        assert (requested_format (w_options w) = Some fmt) as Hf'.
        { apply requested_format_names. exists name. split; [done|].
          congruence. }
        congruence.
      * by intros e [= <-].
  - intros [= -> -> ->]. split_and!; [done| |..].
    + split; [done|]. by intros (name & fmt & _ & ?).
    + by intros name fmt _ ?.
    + by intros e [= <-].
Qed.

(** X2.  [enumrepresentation] cannot be applied twice: once it has
    replaced the name by its constant, a second call on the same options
    finds a value that is neither of the two names and raises
    [BadFingerPrintFormat], leaving the options as the first call left
    them. *)
Theorem enumrepresentation_twice_raises w w' evs :
  enumrepresentation w = (Ok tt, w', evs) ->
  exists fmt,
    w_options w' !! "format" = Some (PFmt fmt)
    /\ enumrepresentation w'
       = (Raise (BadFingerPrintFormat
                   ("Unsupported fingerprint format: " +:+ py_str (PFmt fmt))),
          w', []).
Proof.
  intros Hrun. generalize (enumrepresentation_cases w). rewrite Hrun.
  destruct (w_options w !! "format") as [v|] eqn:Hv; [|done].
  destruct (requested_format (w_options w)) as [fmt|] eqn:Hf; [|done].
  intros [= -> ->]. exists fmt.
  assert (w_options (set_options (<["format" := PFmt fmt]> (w_options w)) w)
            !! "format" = Some (PFmt fmt)) as Hv'
    by (cbn [w_options set_options]; apply lookup_insert_eq).
  split; [done|]. by apply enumrepresentation_unsupported.
Qed.

End FormatProperties.

(** ** Operations that only read *)

Section ReadOnly.
Context `{KeysLibrary}.

Lemma quiet_Key_fromFile_read f p t :
  quiet not_file_event t (Key_fromFile f p).
Proof. intros w r w' evs [= <- <- <-]. auto. Qed.

Lemma quiet_toString_read key st p c t :
  quiet not_file_event t (toString key st p c).
Proof. intros w r w' evs [= <- <- <-]. auto. Qed.

Lemma quiet_decode_ascii s t : quiet not_file_event t (decode_ascii s).
Proof. unfold decode_ascii. destruct (is_ascii s); quiet_step. Qed.

Lemma quiet_printFingerprint :
  quiet not_file_event ["format"] printFingerprint.
Proof.
  unfold printFingerprint, show_fingerprint, enumrepresentation,
    _getKeyOrDefault.
  cbn [default from_option].
  repeat first [apply quiet_Key_fromFile_read | quiet_step].
Qed.

Lemma quiet_displayPublicKey :
  quiet not_file_event ["pass"] displayPublicKey.
Proof.
  unfold displayPublicKey, _getKeyOrDefault. cbn [default from_option].
  repeat first [apply quiet_Key_fromFile_read | apply quiet_toString_read
               | apply quiet_decode_ascii | quiet_step].
Qed.

(** X3.  [displayPublicKey] only reads: whatever the run, no file is
    written, restricted or rewritten, the files are as they were, and of
    the options at most [pass] has changed. *)
Theorem displayPublicKey_reads_only w r w' evs :
  displayPublicKey w = (r, w', evs) ->
  w_fs w' = w_fs w
  /\ forallb not_file_event evs = true
  /\ forall k, k ≠ "pass" -> w_options w' !! k = w_options w !! k.
Proof.
  intros Hrun.
  destruct (quiet_displayPublicKey _ _ _ _ Hrun) as (F & _ & O & L).
  split_and!; [done..|]. intros k Hk. apply O.
  apply not_elem_of_cons. split; [done|apply not_elem_of_nil].
Qed.

(** X4.  When the file [displayPublicKey] is to read is not there, the
    run ends with the exit that names it, right after the attempt to
    load it: no passphrase is asked and nothing is printed.  The same
    holds of [changePassPhrase]. *)
Theorem missing_key_file_is_reported w f w1 e1 :
  _getKeyOrDefault None None w = (Ok f, w1, e1) ->
  w_fs w !! f = None ->
  displayPublicKey w
  = (Raise (could_not_be_opened f), w1, e1 ++ [EvFromFile f PNone])
  /\ changePassPhrase w
     = (Raise (could_not_be_opened f), w1, e1 ++ [EvFromFile f PNone]).
Proof.
  intros Hf Hnone.
  destruct (getKeyOrDefault_keeps _ _ _ _ _ Hf) as (F1 & _).
  split.
  - unfold displayPublicKey. rewrite bind_run, Hf.
    unfold Key_fromFile. unfold_monad. rewrite F1, Hnone. done.
  - unfold changePassPhrase. rewrite bind_run, Hf.
    rewrite bind_run. unfold load_private_key, Key_fromFile. unfold_monad.
    rewrite F1, Hnone. done.
Qed.

(** X5.  Every successful run of [displayPublicKey] prints one line and
    no other: the serialisation, with no passphrase and no comment, of
    the public part of the key held by the file.  The key was parsed
    from that file, without a passphrase or with the one the options
    hold at the end, and the line is the last event of the run. *)
Theorem displayPublicKey_prints_the_public_part w w' evs :
  displayPublicKey w = (Ok tt, w', evs) ->
  exists f file pass key d pre,
    evs = pre ++ [EvFromFile f pass;
                  EvToString (Key_type (Key_public key)) PNone PNone PNone;
                  EvPrint d]
    /\ forallb is_dialogue_or_load pre = true
    /\ forallb (fun e => negb (is_print e)) pre = true
    /\ w_fs w !! f = Some file
    /\ Key_fromString (f_data file) pass = Ok key
    /\ (pass = PNone \/ w_options w' !! "pass" = Some pass)
    /\ Key_toString (Key_public key) PNone PNone PNone = Ok d.
Proof.
  unfold displayPublicKey. rewrite bind_run.
  destruct (_getKeyOrDefault None None w) as [[[f|e] w1] e1] eqn:E1; [|done].
  destruct (getKeyOrDefault_keeps _ _ _ _ _ E1) as (F1 & O1 & _ & _ & L1).
  assert (forallb is_dialogue_or_load e1 = true) as D1.
  { eapply forallb_weaken; [|exact L1]. by intros []. }
  assert (forallb (fun e => negb (is_print e)) e1 = true) as P1.
  { eapply forallb_weaken; [|exact L1]. by intros []. }
  unfold Key_fromFile, toString, decode_ascii, getpass. unfold_monad.
  rewrite F1. destruct (w_fs w !! f) as [file|] eqn:Hfile; [|done].
  destruct (Key_fromString (f_data file) PNone) as [key|e] eqn:Hkey; red_all.
  - (* the file is not protected *)
    destruct (Key_toString (Key_public key) PNone PNone PNone) as [d|]
      eqn:Hd; [|done].
    destruct (is_ascii d); [|done]. intros [= <- <-].
    exists f, file, PNone, key, d, e1. split_and!; auto.
  - (* another load is attempted on an encrypted key only *)
    destruct e; try done. red_all.
    destruct (w_options w1 !! "pass") as [v|] eqn:Hv; red_all.
    + destruct (truthy v) eqn:Htv; red_all.
      * rewrite Hv. red_all. rewrite F1, Hfile.
        destruct (Key_fromString (f_data file) v) as [key|] eqn:Hk; [|done].
        red_all.
        destruct (Key_toString (Key_public key) PNone PNone PNone) as [d|]
          eqn:Hd; [|done].
        destruct (is_ascii d); [|done]. intros [= <- <-].
        exists f, file, v, key, d, (e1 ++ [EvFromFile f PNone]).
        rewrite !forallb_app, D1, P1. split_and!; auto.
        by rewrite <- !app_assoc.
      * destruct (w_tty w1) as [|p rest]; [done|]. red_all.
        rewrite lookup_insert_eq. red_all. rewrite F1, Hfile.
        destruct (Key_fromString (f_data file) (PStr p)) as [key|] eqn:Hk;
          [|done].
        red_all.
        destruct (Key_toString (Key_public key) PNone PNone PNone) as [d|]
          eqn:Hd; [|done].
        destruct (is_ascii d); [|done]. intros [= <- <-].
        exists f, file, (PStr p), key, d,
          (e1 ++ [EvFromFile f PNone; EvGetpass "Enter passphrase: " (Some p)]).
        rewrite !forallb_app, D1, P1. split_and!; auto.
        -- by rewrite <- !app_assoc.
        -- right. cbn [w_options set_options]. apply lookup_insert_eq.
    + cbn [truthy]. red_all.
      destruct (w_tty w1) as [|p rest]; [done|]. red_all.
      rewrite lookup_insert_eq. red_all. rewrite F1, Hfile.
      destruct (Key_fromString (f_data file) (PStr p)) as [key|] eqn:Hk;
        [|done].
      red_all.
      destruct (Key_toString (Key_public key) PNone PNone PNone) as [d|]
        eqn:Hd; [|done].
      destruct (is_ascii d); [|done]. intros [= <- <-].
      exists f, file, (PStr p), key, d,
        (e1 ++ [EvFromFile f PNone; EvGetpass "Enter passphrase: " (Some p)]).
      rewrite !forallb_app, D1, P1. split_and!; auto.
      * by rewrite <- !app_assoc.
      * right. cbn [w_options set_options]. apply lookup_insert_eq.
Qed.

(** X6.  On an encrypted key [displayPublicKey] asks for the passphrase
    once when the options hold none and not at all when they hold one.
    When the second load, with that passphrase, fails, the exception of
    the library ends the run as it is: it is not turned into an exit
    with a message, and nothing is printed. *)
Theorem displayPublicKey_asks_passphrase_once w f w1 e1 file m r w' evs :
  _getKeyOrDefault None None w = (Ok f, w1, e1) ->
  w_fs w !! f = Some file ->
  Key_fromString (f_data file) PNone = Raise (EncryptedKeyError m) ->
  displayPublicKey w = (r, w', evs) ->
  let supplied := default PNone (w_options w !! "pass") in
  List.length (List.filter is_getpass evs)
  = (if truthy supplied then 0 else 1)%nat
  /\ (forall p reply, In (EvGetpass p reply) evs -> p = "Enter passphrase: ")
  /\ forall pass e,
       (if truthy supplied then pass = supplied
        else exists p rest, w_tty w = p :: rest /\ pass = PStr p) ->
       Key_fromString (f_data file) pass = Raise e ->
       r = Raise e /\ forallb (fun e => negb (is_print e)) evs = true.
Proof.
  intros E1 Hfile Hkey.
  destruct (getKeyOrDefault_keeps _ _ _ _ _ E1) as (F1 & O1 & T1 & _ & L1).
  assert (List.filter is_getpass e1 = []) as G1.
  { eapply forallb_filter_nil; [exact L1|]. by intros []. }
  assert (forall p reply, ~ In (EvGetpass p reply) e1) as N1.
  { intros p reply Hin. not_in_pre Hin. }
  assert (forallb (fun e => negb (is_print e)) e1 = true) as P1.
  { eapply forallb_weaken; [|exact L1]. by intros []. }
  unfold displayPublicKey. rewrite bind_run, E1.
  unfold Key_fromFile, toString, decode_ascii, getpass. unfold_monad.
  rewrite F1, Hfile, Hkey, O1. red_all.
  destruct (w_options w !! "pass") as [v|] eqn:Hv; red_all;
    [destruct (truthy v) eqn:Htv|cbn [truthy]]; red_all.
  2,3: destruct (w_tty w1) as [|p rest] eqn:Htty; red_all;
       rewrite ?lookup_insert_eq; red_all.
  all: rewrite ?O1, ?Hv; red_all; rewrite ?F1, ?Hfile; rewrite <- ?T1.
  all: try match goal with
         | |- context [Key_fromString (f_data ?fl) ?pw] =>
             destruct (Key_fromString (f_data fl) pw) as [key|e2] eqn:Hk;
             red_all;
             [destruct (Key_toString (Key_public key) PNone PNone PNone)
                as [d|];
              [destruct (is_ascii d)|]|]
         end.
  all: intros [= <- <- <-].
  all: split_and!.
  all: try (rewrite ?List.filter_app, ?G1; reflexivity).
  all: try (intros q reply [Hin|Hin]%in_app_or; [by apply N1 in Hin|];
            cbn in Hin; intuition congruence).
  all: intros pass e0 Hused He;
       try destruct Hused as (p' & rest' & [= <- <-] & Hused);
       try discriminate; subst pass; try congruence.
  all: split; [congruence|rewrite ?forallb_app, ?P1; reflexivity].
Qed.

(** X7.  [printFingerprint] settles the file name first (asking for it
    when the options hold none) and checks the format next: with a
    format other than the two names it raises [BadFingerPrintFormat]
    before any key file is read. *)
Theorem printFingerprint_rejects_format_before_loading w v r w' evs :
  w_options w !! "format" = Some v ->
  v ≠ PStr "md5-hex" -> v ≠ PStr "sha256-base64" ->
  printFingerprint w = (r, w', evs) ->
  is_Ok r = false
  /\ (forall p pass, ~ In (EvFromFile p pass) evs)
  /\ forall f w1 e1,
       _getKeyOrDefault None None w = (Ok f, w1, e1) ->
       r = Raise (BadFingerPrintFormat
                    ("Unsupported fingerprint format: " +:+ py_str v))
       /\ w' = w1 /\ evs = e1.
Proof.
  intros Hv H1 H2. unfold printFingerprint. rewrite bind_run.
  destruct (_getKeyOrDefault None None w) as [[[f|e] w1] e1] eqn:E1;
    destruct (getKeyOrDefault_keeps _ _ _ _ _ E1) as (F1 & O1 & _ & _ & L1).
  2:{ intros [= <- <- <-]. split_and!; [done| |done].
      intros p pass Hin. not_in_pre Hin. }
  rewrite bind_run. unfold path_exists at 1, gets at 1. cbn beta iota.
  rewrite bind_run.
  rewrite (enumrepresentation_unsupported w1 v) by (by rewrite ?O1).
  cbn [app]. intros [= <- <- <-]. split_and!; [done| |].
  - intros p pass Hin. rewrite app_nil_r in Hin. not_in_pre Hin.
  - intros ? ? ? [= <- <- <-]. by rewrite app_nil_r.
Qed.

(** X8.  With a supported format, when the file [printFingerprint] is
    to read is not there the run ends with the exit that names it, when
    the library rejects its content with [BadKeyError] the run ends
    with the exit ["bad key"], and every other exception of the load,
    [EncryptedKeyError] among them, ends the run as it is.  In each
    case the load is the last event and nothing is printed. *)
Theorem printFingerprint_load_failures w f w1 e1 fmt r w' evs e :
  _getKeyOrDefault None None w = (Ok f, w1, e1) ->
  requested_format (w_options w) = Some fmt ->
  printFingerprint w = (r, w', evs) ->
  let target :=
    if bool_decide (is_Some (w_fs w !! (f +:+ ".pub")))
    then f +:+ ".pub" else f in
  match w_fs w !! target with
  | None => Raise (FileNotFoundError target)
  | Some file => Key_fromString (f_data file) PNone
  end = Raise e ->
  r = Raise (fingerprint_error target e)
  /\ evs = e1 ++ [EvFromFile target PNone]
  /\ w_fs w' = w_fs w.
Proof.
  intros E1 Hfmt Hrun target Hload. revert Hrun.
  destruct (getKeyOrDefault_keeps _ _ _ _ _ E1) as (F1 & O1 & _ & _ & L1).
  unfold printFingerprint. rewrite bind_run, E1.
  rewrite bind_run. unfold path_exists at 1, gets at 1. cbn beta iota.
  rewrite F1. fold target. rewrite bind_run.
  rewrite (enumrepresentation_supported w1 fmt) by (by rewrite O1).
  unfold show_fingerprint, Key_fromFile. unfold_monad. red_all.
  rewrite F1, Hload.
  destruct e; red_all; intros [= <- <- <-]; split_and!; try done.
Qed.

End ReadOnly.

(** An event [Hin] says is in a list whose events are all of another
    kind, by [L]. *)

(** ** More on [_saveKey] *)

Section SaveKeyProperties.
Context `{KeysLibrary}.

Lemma save_path_given ktn ic w fn :
  w_options w !! "filename" = Some (PStr fn) -> fn ≠ "" ->
  save_path ktn ic w = (Ok fn, w, []).
Proof.
  intros Hfn Hne. unfold save_path, as_text. unfold_monad. rewrite Hfn.
  cbn [truthy]. by destruct (String.eqb_spec fn "").
Qed.

Lemma save_path_asked ktn w v a b rest :
  w_options w !! "filename" = Some v -> truthy v = false ->
  w_stdin w = a :: b :: rest ->
  let d := default_filename (w_env w) ktn in
  let d' := if String.eqb a "" then d else a in
  save_path ktn input w
  = (Ok (chosen_path d a b), set_stdin rest w,
     [EvInput ("Enter file in which the key is (" +:+ d +:+ "): ") (Some a);
      EvInput ("Enter file in which to save the key (" +:+ d' +:+ "): ")
        (Some b)]).
Proof.
  intros Hv Htv Hin. unfold save_path, _getKeyOrDefault, _inputSaveFile, input,
    chosen_path.
  unfold_monad. rewrite Hv. red_all. rewrite Htv, Hv. red_all.
  rewrite Htv, Hin. red_all. reflexivity.
Qed.

Lemma confirm_overwrite_absent f ic w :
  w_fs w !! f = None -> confirm_overwrite f ic w = (Ok tt, w, []).
Proof.
  intros Hf. unfold confirm_overwrite, path_exists. unfold_monad.
  rewrite bool_decide_eq_false_2; [done|]. rewrite Hf. by intros [? ?].
Qed.

Lemma choose_passphrase_unprompted w p :
  unprompted_passphrase (w_options w) = Some p ->
  exists w', choose_passphrase w = (Ok tt, w', [])
             /\ w_options w' !! "pass" = Some p
             /\ w_fs w' = w_fs w /\ w_env w' = w_env w
             /\ forall k, k ≠ "pass" -> w_options w' !! k = w_options w !! k.
Proof.
  unfold unprompted_passphrase, choose_passphrase. unfold_monad. red_all.
  destruct (truthy _) eqn:Hno.
  - intros [= <-]. eexists. split; [reflexivity|]. cbn.
    rewrite lookup_insert_eq. split_and!; auto.
    intros k Hk. by rewrite lookup_insert_ne.
  - destruct (w_options w !! "pass") as [v|] eqn:Hv; [|done].
    destruct (truthy v) eqn:Htv; [|done]. intros [= <-]. red_all.
    eexists. split; [reflexivity|]. auto.
Qed.

Lemma report_saved_run key f w r w' evs :
  report_saved key f w = (r, w', evs) ->
  w_fs w' = w_fs w
  /\ (r = Ok tt ->
      exists fmt, requested_format (w_options w) = Some fmt
                  /\ evs = saved_report key f fmt).
Proof.
  unfold report_saved. rewrite bind_run.
  generalize (enumrepresentation_cases w).
  destruct (w_options w !! "format") as [v|] eqn:Hv.
  2:{ intros ->. cbn beta iota. by intros [= <- <- <-]. }
  destruct (requested_format (w_options w)) as [fmt|] eqn:Hf.
  2:{ intros ->. cbn beta iota. by intros [= <- <- <-]. }
  intros ->. unfold_monad. red_all.
  repeat (rewrite lookup_insert_eq; red_all).
  intros [= <- <- <-]. split; [done|]. intros _. by exists fmt.
Qed.

(** The successful runs of [_saveKey] with the default collector, block
    by block. *)
Lemma saveKey_success key w w' evs :
  _saveKey key None w = (Ok tt, w', evs) ->
  exists ktn f w1 e1 w2 e2 w3 e3 pass d pd fmt,
    KeyTypeMapping !! Key_type key = Some ktn
    /\ save_path ktn input w = (Ok f, w1, e1)
    /\ confirm_overwrite f input w1 = (Ok tt, w2, e2)
    /\ choose_passphrase w2 = (Ok tt, w3, e3)
    /\ w_options w3 !! "pass" = Some pass
    /\ Key_toString key (resolved_subtype (w_options w) (Key_type key))
         pass PNone = Ok d
    /\ Key_toString (Key_public key) PNone PNone
         (PStr (key_comment (w_env w))) = Ok pd
    /\ requested_format (w_options w) = Some fmt
    /\ evs = e1 ++ e2 ++ e3
             ++ [EvToString (Key_type key)
                   (resolved_subtype (w_options w) (Key_type key)) pass PNone;
                 EvSetContent f d (create_mode (w_env w) (octal "777"));
                 EvChmod f (octal "100600");
                 EvToString (Key_type (Key_public key)) PNone PNone
                   (PStr (key_comment (w_env w)));
                 EvSetContent (f +:+ ".pub") pd
                   (create_mode (w_env w) (octal "777"))]
             ++ saved_report key f fmt
    /\ w_fs w'
       = <[(f +:+ ".pub") := mkFile pd (create_mode (w_env w) (octal "777"))]>
           (<[f := mkFile d (octal "100600")]> (w_fs w))
    /\ w_options w' !! "pass" = Some pass
    /\ w_env w' = w_env w.
Proof.
  unfold _saveKey. cbn [default from_option]. intros Hrun.
  rewrite bind_run in Hrun. unfold dict_index in Hrun at 1.
  destruct (KeyTypeMapping !! Key_type key) as [ktn|] eqn:Hktn;
    unfold_monad; red_all; [|done].
  destruct (save_path ktn input w) as [[[f|e] w1] e1] eqn:E1; [|done].
  destruct (quiet_save_path _ _ _ _ _ E1) as (F1 & V1 & O1 & L1).
  destruct (confirm_overwrite f input w1) as [[[[]|e] w2] e2] eqn:E2; [|done].
  destruct (quiet_confirm_overwrite _ _ _ _ _ E2) as (F2 & V2 & O2 & L2).
  destruct (choose_passphrase w2) as [[[[]|e] w3] e3] eqn:E3; [|done].
  destruct (quiet_choose_passphrase _ _ _ _ E3) as (F3 & V3 & O3 & L3).
  destruct (resolve_subtype key w3) as [[r4 w4] e4] eqn:E4.
  destruct (resolve_subtype_run _ _ _ _ _ E4) as (-> & -> & F4 & V4 & S4 & O4).
  assert (resolved_subtype (w_options w3) (Key_type key)
          = resolved_subtype (w_options w) (Key_type key)) as Hst.
  { unfold resolved_subtype. rewrite O3, O2, O1 by not_touched. done. }
  rewrite Hst in S4. clear Hst.
  assert (w_fs w4 = w_fs w) as F by congruence.
  assert (w_env w4 = w_env w) as V by congruence.
  destruct (write_key_pair key f w4) as [[r5 w5] e5] eqn:E5.
  destruct (write_key_pair_run _ _ _ _ _ _ E5)
    as [(-> & Hr & ->) | (st & pass & Hst & Hpass & Hcases)].
  { by destruct r5 as [[]|e]. }
  assert (st = resolved_subtype (w_options w) (Key_type key)) as ->
    by congruence.
  rewrite V in Hcases.
  destruct Hcases
    as [(-> & -> & e & He & ->)
       | (d & Hd & Hw & [(-> & -> & e & He & ->)
            | (Hc & [(-> & -> & e & He & ->)
                    | (pd & Hpd & Hwp & -> & -> & ->)])])]; [done..|].
  destruct (report_saved key f _) as [[r6 w6] e6] eqn:E6.
  injection Hrun as -> <- <-.
  destruct (report_saved_run _ _ _ _ _ _ E6) as (F6 & Hrep).
  destruct (quiet_report_saved _ _ _ _ _ _ E6) as (_ & V6 & O6 & _).
  destruct (Hrep eq_refl) as (fmt & Hfmt & ->).
  cbn [w_options set_fs] in Hfmt.
  assert (requested_format (w_options w) = Some fmt) as Hfmt'.
  { revert Hfmt. unfold requested_format.
    rewrite O4 by done. rewrite O3, O2, O1 by not_touched. done. }
  exists ktn, f, w1, e1, w2, e2, w3, e3, pass, d, pd, fmt.
  split_and!; try done.
  - rewrite <- Hpass. symmetry. apply O4. done.
  - rewrite F6. cbn [w_fs set_fs]. by rewrite F.
  - rewrite O6 by not_touched. cbn [w_options set_fs]. exact Hpass.
  - rewrite V6. cbn [w_env set_fs]. exact V.
Qed.

(** What follows the choice of the passphrase asks nothing, and
    serialises the private key under the passphrase the options hold. *)
Lemma saveKey_tail key f w r w' evs :
  (resolve_subtype key;; write_key_pair key f;; report_saved key f) w
  = (r, w', evs) ->
  forallb (fun e => negb (is_prompt e)) evs = true
  /\ forall kt st pass,
       In (EvToString kt st pass PNone) evs ->
       w_options w !! "pass" = Some pass.
Proof.
  rewrite bind_run.
  destruct (resolve_subtype key w) as [[r4 w4] e4] eqn:E4.
  destruct (resolve_subtype_run _ _ _ _ _ E4) as (-> & -> & F4 & V4 & S4 & O4).
  rewrite bind_run.
  destruct (write_key_pair key f w4) as [[r5 w5] e5] eqn:E5.
  assert (quiet (fun e => negb (is_prompt e)) ["format"] (report_saved key f))
    as Hquiet.
  { unfold report_saved, enumrepresentation. repeat quiet_step. }
  assert (forall w6 r6 w6' e6 kt st pass,
            report_saved key f w6 = (r6, w6', e6) ->
            ~ In (EvToString kt st pass PNone) e6) as Hrep.
  { intros w6 r6 w6' e6 kt st pass E6 Hin.
    destruct (quiet_report_saved _ _ _ _ _ _ E6) as (_ & _ & _ & L6).
    not_in_pre Hin. }
  destruct (write_key_pair_run _ _ _ _ _ _ E5)
    as [(-> & Hr & ->) | (st & pass & Hst & Hpass & Hcases)].
  { destruct r5 as [[]|e]; [done|]. by intros [= <- <- <-]. }
  assert (w_options w !! "pass" = Some pass) as Hp.
  { rewrite <- Hpass. symmetry. by apply O4. }
  destruct Hcases
    as [(-> & -> & e & He & ->)
       | (d & Hd & Hw & [(-> & -> & e & He & ->)
            | (Hc & [(-> & -> & e & He & ->)
                    | (pd & Hpd & Hwp & -> & -> & ->)])])].
  - intros [= <- <- <-]. split; [done|].
    intros kt st' pass' [[= <- <- <-]|[]]. done.
  - intros [= <- <- <-]. split; [done|].
    intros kt st' pass' [[= <- <- <-]|[?|[]]]; done.
  - intros [= <- <- <-]. split; [done|].
    intros kt st' pass' [[= <- <- <-]|[?|[?|[?|[]]]]]; done.
  - destruct (report_saved key f _) as [[r6 w6] e6] eqn:E6.
    intros [= <- <- <-].
    destruct (Hquiet _ _ _ _ E6) as (_ & _ & _ & L6). split.
    + cbn [app forallb is_prompt negb andb]. exact L6.
    + intros kt st' pass' Hin. cbn [app] in Hin.
      destruct Hin as [[= <- <- <-]|[?|[?|[?|[?|Hin]]]]]; try done.
      by eapply Hrep in Hin.
Qed.

(** X9.  [_saveKey] does not know every key type: on a key whose type
    is none of [EC], [Ed25519], [RSA] and [DSA] it raises [KeyError]
    with that type, before anything is asked or written, whatever the
    collector. *)
Theorem saveKey_unknown_key_type key ic w :
  Key_type key ∉ ["EC"; "Ed25519"; "RSA"; "DSA"] ->
  _saveKey key ic w = (Raise (KeyError (Key_type key)), w, []).
Proof.
  intros Hnot. unfold _saveKey. apply bind_fail. unfold dict_index.
  assert (KeyTypeMapping !! Key_type key = None) as ->; [|done].
  unfold KeyTypeMapping. by apply not_elem_of_list_to_map_1.
Qed.

(** X10.  Without a file name in the options [_saveKey] asks for the
    path twice on standard input: first for the file in which the key
    is, offering the default of the key type, then for the file in which
    to save the key, offering the first answer (the default when it is
    empty).  The path is the second answer without its surrounding
    blanks, or what the second question offered when that is empty; a
    successful run leaves the two files there and every other path as
    it was. *)
Theorem saveKey_asks_for_the_path_twice key ktn w v a b rest r w' evs :
  KeyTypeMapping !! Key_type key = Some ktn ->
  w_options w !! "filename" = Some v -> truthy v = false ->
  w_stdin w = a :: b :: rest ->
  _saveKey key None w = (r, w', evs) ->
  let d := default_filename (w_env w) ktn in
  let d' := if String.eqb a "" then d else a in
  let f := chosen_path d a b in
  (exists tail,
     evs = EvInput ("Enter file in which the key is (" +:+ d +:+ "): ")
             (Some a)
           :: EvInput ("Enter file in which to save the key ("
                       +:+ d' +:+ "): ") (Some b)
           :: tail)
  /\ (r = Ok tt ->
      is_Some (w_fs w' !! f) /\ is_Some (w_fs w' !! (f +:+ ".pub"))
      /\ forall p, p ≠ f -> p ≠ f +:+ ".pub" -> w_fs w' !! p = w_fs w !! p).
Proof.
  intros Hktn Hv Htv Hin Hrun d d' f. split.
  - revert Hrun. unfold _saveKey. cbn [default from_option].
    rewrite (bind_pure _ _ _ ktn) by (unfold dict_index; by rewrite Hktn).
    rewrite bind_run, (save_path_asked _ _ _ _ _ _ Hv Htv Hin).
    cbn zeta. fold d d'.
    destruct (mbind _ (confirm_overwrite _ input) _) as [[r2 w2] e2].
    intros [= <- <- <-]. by eexists.
  - intros ->.
    destruct (saveKey_success _ _ _ _ Hrun)
      as (ktn' & f' & w1 & e1 & w2 & e2 & w3 & e3 & pass & pd & pubd & fmt
          & Hktn' & E1 & _ & _ & _ & _ & _ & _ & _ & Hfs & _).
    assert (ktn' = ktn) as -> by congruence.
    rewrite (save_path_asked _ _ _ _ _ _ Hv Htv Hin) in E1.
    injection E1 as <- _ _. fold d f in Hfs |- *. rewrite Hfs.
    assert (f ≠ f +:+ ".pub") as Hne.
    { intros Heq. by apply (append_ne_self f ".pub"). }
    split_and!.
    + rewrite lookup_insert_ne by done. by rewrite lookup_insert_eq.
    + by rewrite lookup_insert_eq.
    + intros p H1 H2. by rewrite !lookup_insert_ne.
Qed.

(** X11.  After a successful [_saveKey] the private file holds the
    serialisation of the key under the subtype resolved from the
    options and the passphrase the options then hold, with mode
    [0o100600]; the [.pub] file holds the serialisation of the public
    part, with the comment [user@hostname] and no passphrase; and every
    other path is as it was. *)
Theorem saveKey_writes_the_serialised_pair key w w' evs :
  _saveKey key None w = (Ok tt, w', evs) ->
  exists f pass d pd,
    w_options w' !! "pass" = Some pass
    /\ Key_toString key (resolved_subtype (w_options w) (Key_type key))
         pass PNone = Ok d
    /\ Key_toString (Key_public key) PNone PNone
         (PStr (e_user (w_env w) +:+ "@" +:+ e_hostname (w_env w))) = Ok pd
    /\ w_fs w' !! f = Some (mkFile d (octal "100600"))
    /\ w_fs w' !! (f +:+ ".pub")
       = Some (mkFile pd (create_mode (w_env w) (octal "777")))
    /\ forall p, p ≠ f -> p ≠ f +:+ ".pub" -> w_fs w' !! p = w_fs w !! p.
Proof.
  intros Hrun.
  destruct (saveKey_success _ _ _ _ Hrun)
    as (ktn & f & w1 & e1 & w2 & e2 & w3 & e3 & pass & d & pd & fmt
        & _ & _ & _ & _ & _ & Hd & Hpd & _ & _ & Hfs & Hpass & _).
  exists f, pass, d, pd. rewrite Hfs.
  assert (f ≠ f +:+ ".pub") as Hne.
  { intros Heq. by apply (append_ne_self f ".pub"). }
  split_and!; try done.
  - rewrite lookup_insert_ne by done. by rewrite lookup_insert_eq.
  - by rewrite lookup_insert_eq.
  - intros p H1 H2. by rewrite !lookup_insert_ne.
Qed.

(** X12.  A successful [_saveKey] ends with four lines: where the
    identification and the public key have been saved, the format of
    the fingerprint, and the fingerprint.  The format had to be one of
    the two names, and since [enumrepresentation] has replaced it in the
    options by then, the third line shows the constant, not the name
    that was given. *)
Theorem saveKey_reports_with_the_constant key w w' evs :
  _saveKey key None w = (Ok tt, w', evs) ->
  exists f fmt before,
    requested_format (w_options w) = Some fmt
    /\ evs = before
             ++ [EvPrint ("Your identification has been saved in " +:+ f);
                 EvPrint ("Your public key has been saved in "
                          +:+ f +:+ ".pub");
                 EvPrint ("The key fingerprint in " +:+ py_str (PFmt fmt)
                          +:+ " is:");
                 EvPrint (Key_fingerprint key fmt)]
    /\ is_Some (w_fs w' !! f).
Proof.
  intros Hrun.
  destruct (saveKey_success _ _ _ _ Hrun)
    as (ktn & f & w1 & e1 & w2 & e2 & w3 & e3 & pass & d & pd & fmt
        & _ & _ & _ & _ & _ & _ & _ & Hfmt & -> & Hfs & _).
  exists f, fmt. eexists. split; [done|]. split.
  - rewrite !app_assoc. reflexivity.
  - rewrite Hfs. rewrite lookup_insert_ne.
    + by rewrite lookup_insert_eq.
    + intros Heq. by apply (append_ne_self f ".pub").
Qed.

(** X13.  [_saveKey] asks for no passphrase when the options settle it:
    with the flag [no-passphrase] the private key is serialised under
    the empty passphrase [b""], whatever [pass] holds, and otherwise
    under a non-empty [pass]; in both cases there is no prompt at the
    terminal in the run. *)
Theorem saveKey_takes_the_passphrase_without_asking key w p r w' evs :
  unprompted_passphrase (w_options w) = Some p ->
  _saveKey key None w = (r, w', evs) ->
  forallb (fun e => negb (is_getpass e)) evs = true
  /\ forall kt st pass, In (EvToString kt st pass PNone) evs -> pass = p.
Proof.
  intros Hp. unfold _saveKey. cbn [default from_option]. rewrite bind_run.
  unfold dict_index at 1.
  destruct (KeyTypeMapping !! Key_type key) as [ktn|];
    [|by intros [= <- <- <-]].
  change (@mret M _ string ktn w) with (Ok ktn, w, @nil Event).
  cbn beta iota. rewrite bind_run.
  assert (quiet (fun e => negb (is_getpass e)) [] (save_path ktn input))
    as Q1.
  { unfold save_path, as_text, _getKeyOrDefault. cbn [default from_option].
    unfold id. repeat quiet_step. }
  assert (forall f, quiet (fun e => negb (is_getpass e)) []
                      (confirm_overwrite f input)) as Q2.
  { intros f. unfold confirm_overwrite, declines. repeat quiet_step. }
  destruct (save_path ktn input w) as [[[f|e] w1] e1] eqn:E1;
    destruct (Q1 _ _ _ _ E1) as (_ & _ & O1 & G1);
    destruct (quiet_save_path _ _ _ _ _ E1) as (_ & _ & _ & L1).
  2:{ intros [= <- <- <-]. split; [done|].
      intros kt st pass Hin. cbn [app] in Hin. not_in_pre Hin. }
  rewrite bind_run.
  destruct (confirm_overwrite f input w1) as [[[[]|e] w2] e2] eqn:E2;
    destruct (Q2 _ _ _ _ _ E2) as (_ & _ & O2 & G2);
    destruct (quiet_confirm_overwrite _ _ _ _ _ E2) as (_ & _ & _ & L2).
  2:{ intros [= <- <- <-]. cbn [app]. split; [by rewrite forallb_app, G1, G2|].
      intros kt st pass [Hin|Hin]%in_app_or;
        [refute_in L1 Hin
        |refute_in L2 Hin]. }
  assert (unprompted_passphrase (w_options w2) = Some p) as Hp2.
  { revert Hp. unfold unprompted_passphrase.
    rewrite !O2, !O1 by apply not_elem_of_nil. done. }
  destruct (choose_passphrase_unprompted _ _ Hp2)
    as (w3 & E3 & Hpass & _).
  rewrite bind_run, E3.
  destruct (mbind _ (resolve_subtype key) w3) as [[r4 w4] e4] eqn:E4.
  destruct (saveKey_tail _ _ _ _ _ _ E4) as (L4 & S4).
  intros [= <- <- <-]. cbn [app]. split.
  - rewrite !forallb_app, G1, G2. cbn [andb].
    eapply forallb_weaken; [|exact L4]. by intros [].
  - intros kt st pass [Hin|[Hin|Hin]%in_app_or]%in_app_or.
    + refute_in L1 Hin.
    + refute_in L2 Hin.
    + apply S4 in Hin. congruence.
Qed.

(** X14.  [_saveKey] asks nothing at all when the options tell it
    everything: with a file name that does not exist yet and the
    passphrase settled by the options, there is no question on standard
    input or at the terminal in the run. *)
Theorem saveKey_asks_nothing_when_told_everything key w fn p r w' evs :
  w_options w !! "filename" = Some (PStr fn) -> fn ≠ "" ->
  w_fs w !! fn = None ->
  unprompted_passphrase (w_options w) = Some p ->
  _saveKey key None w = (r, w', evs) ->
  forallb (fun e => negb (is_prompt e)) evs = true.
Proof.
  intros Hfn Hne Hnone Hp. unfold _saveKey. cbn [default from_option].
  rewrite bind_run. unfold dict_index at 1.
  destruct (KeyTypeMapping !! Key_type key) as [ktn|];
    [|by intros [= <- <- <-]].
  change (@mret M _ string ktn w) with (Ok ktn, w, @nil Event).
  cbn beta iota. rewrite bind_run, (save_path_given _ _ _ _ Hfn Hne).
  rewrite bind_run, (confirm_overwrite_absent _ _ _ Hnone).
  destruct (choose_passphrase_unprompted _ _ Hp) as (w3 & E3 & _).
  rewrite bind_run, E3.
  destruct (mbind _ (resolve_subtype key) w3) as [[r4 w4] e4] eqn:E4.
  destruct (saveKey_tail _ _ _ _ _ _ E4) as (L4 & _).
  by intros [= <- <- <-].
Qed.

(** X15.  [_saveKey] asks before it replaces the private file only: when
    the path of the private key is free and the options settle the
    passphrase, a [.pub] file that is already there is replaced without
    a question, by the serialisation of the public part of the new
    key. *)
Theorem saveKey_replaces_a_pub_file_without_asking
    key w fn p old w' evs :
  w_options w !! "filename" = Some (PStr fn) -> fn ≠ "" ->
  w_fs w !! fn = None ->
  w_fs w !! (fn +:+ ".pub") = Some old ->
  unprompted_passphrase (w_options w) = Some p ->
  _saveKey key None w = (Ok tt, w', evs) ->
  forallb (fun e => negb (is_prompt e)) evs = true
  /\ exists pd,
       Key_toString (Key_public key) PNone PNone
         (PStr (key_comment (w_env w))) = Ok pd
       /\ f_data <$> w_fs w' !! (fn +:+ ".pub") = Some pd.
Proof.
  intros Hfn Hne Hnone Hold Hp Hrun.
  destruct (saveKey_success _ _ _ _ Hrun)
    as (ktn & f & w1 & e1 & w2 & e2 & w3 & e3 & pass & d & pd & fmt
        & _ & E1 & E2 & E3 & _ & _ & Hpd & _ & -> & Hfs & _).
  rewrite (save_path_given _ _ _ _ Hfn Hne) in E1.
  injection E1 as <- <- <-.
  rewrite (confirm_overwrite_absent _ _ _ Hnone) in E2.
  injection E2 as <- <-.
  destruct (choose_passphrase_unprompted _ _ Hp) as (w3' & E3' & _).
  rewrite E3' in E3. injection E3 as <- <-.
  split; [done|]. exists pd. split; [done|].
  by rewrite Hfs, lookup_insert_eq.
Qed.

End SaveKeyProperties.

(** ** More on the generators *)

Section GeneratorProperties.
Context `{KeysLibrary}.

Lemma saveKey_generates_nothing key w r w' evs :
  _saveKey key None w = (r, w', evs) ->
  forallb (fun e => negb (is_generate e)) evs = true.
Proof.
  intros Hrun.
  destruct (saveKey_shape _ _ _ _ _ Hrun) as (pre & tail & -> & Lpre & Hcases).
  assert (forall l, forallb is_dialogue l = true ->
                    forallb (fun e => negb (is_generate e)) l = true) as Hd.
  { intros l. apply forallb_weaken. by intros []. }
  rewrite forallb_app, (Hd _ Lpre). cbn [andb].
  destruct Hcases as [(-> & _)
                     | (ktn & f & w1 & e1 & pass & _ & _ & Hcases)]; [done|].
  unfold saveKey_outcome in Hcases.
  destruct Hcases
    as [(-> & _)
       | (d & _ & _ & [(-> & _)
            | (_ & [(-> & _) | (pd & post & _ & _ & -> & Lpost & _)])])];
    [done..|].
  rewrite forallb_app, (Hd _ Lpost). done.
Qed.

(** X16.  Each of the four generate functions generates at most one
    key, and does so before anything else: a run that has events begins
    with the generation, and what follows (the questions, the
    serialisations, the writes, the report) generates nothing.  The
    operator is therefore asked about the path, the overwriting and the
    passphrase only once the key exists. *)
Theorem generators_generate_first (g : M unit) w r w' evs :
  In g [generateRSAkey; generateDSAkey; generateECDSAkey; generateEd25519key] ->
  g w = (r, w', evs) ->
  evs = []
  \/ exists kind arg rest,
       evs = EvGenerate kind arg :: rest
       /\ forallb (fun e => negb (is_generate e)) rest = true.
Proof.
  intros Hg Hrun.
  destruct (generators_end_in_saveKey _ _ _ _ _ Hg Hrun)
    as [(_ & _ & [->|(kind & arg & ->)])
       | (key & w1 & kind & arg & rest & -> & Hsave & _)].
  - by left.
  - right. by exists kind, arg, [].
  - right. exists kind, arg, rest. split; [done|].
    by eapply saveKey_generates_nothing.
Qed.

(** X17.  A bit size given as text is converted with [int] by
    [generateRSAkey] and [generateDSAkey] and handed to the library as
    it is, with no check of the script's own: text that [int] refuses
    raises [ValueError] before anything is generated, asked or written,
    and otherwise the run begins with the generation of a key of that
    size, whose failure ends the run. *)
Theorem sized_generators_convert_bits w s :
  w_options w !! "bits" = Some (PStr s) -> s ≠ "" ->
  match int_of_text (w_env w) s with
  | None =>
      generateRSAkey w = (Raise ValueError, w, [])
      /\ generateDSAkey w = (Raise ValueError, w, [])
  | Some z =>
      (exists rest,
         events_of (generateRSAkey w) = EvGenerate "rsa" (PInt z) :: rest
         /\ forall e, rsa_generate_private_key z 65537 (w_seed w) = Raise e ->
                      result_of (generateRSAkey w) = Raise e /\ rest = [])
      /\ (exists rest,
            events_of (generateDSAkey w) = EvGenerate "dsa" (PInt z) :: rest
            /\ forall e, dsa_generate_private_key z (w_seed w) = Raise e ->
                         result_of (generateDSAkey w) = Raise e /\ rest = [])
  end.
Proof.
  intros Hbits Hs.
  assert (truthy (PStr s) = true) as Ht.
  { cbn. by destruct (String.eqb_spec s ""). }
  unfold generateRSAkey, generateDSAkey, py_int, generate. unfold_monad.
  rewrite Hbits, Ht. red_all. rewrite Hbits. red_all.
  destruct (int_of_text (w_env w) s) as [z|]; [|done]. red_all. split.
  - destruct (rsa_generate_private_key z 65537 (w_seed w)) as [key|e].
    + destruct (_saveKey key None _) as [[r1 w1] e1]. red_all. cbn [snd].
      eexists. split; [reflexivity|]. intros; discriminate.
    + cbn [snd fst]. eexists. split; [reflexivity|]. by intros ? [= <-].
  - destruct (dsa_generate_private_key z (w_seed w)) as [key|e].
    + destruct (_saveKey key None _) as [[r1 w1] e1]. red_all. cbn [snd].
      eexists. split; [reflexivity|]. intros; discriminate.
    + cbn [snd fst]. eexists. split; [reflexivity|]. by intros ? [= <-].
Qed.

Lemma curveTable_lookup_None bits :
  bits ∉ ["256"; "384"; "521"] ->
  _curveTable !! ("ecdsa-sha2-nistp" +:+ bits) = None.
Proof.
  intros Hnot. destruct (_curveTable !! _) as [c|] eqn:Hc; [|done].
  exfalso. apply Hnot.
  destruct (curveTable_lookup _ _ Hc) as [[-> _]|[[-> _]|[-> _]]];
    set_solver.
Qed.

(** X18.  [generateECDSAkey] looks the bit size up as text: a size
    whose text is not exactly [256], [384] or [521] raises [KeyError]
    with the name of the curve that is missing, before anything is
    generated, asked or written (so a size that [int] would accept,
    such as [0256], is refused here). *)
Theorem generateECDSAkey_rejects_other_sizes w v :
  w_options w !! "bits" = Some v -> truthy v = true ->
  is_ascii (py_str v) = true ->
  py_str v ∉ ["256"; "384"; "521"] ->
  generateECDSAkey w
  = (Raise (KeyError ("ecdsa-sha2-nistp" +:+ py_str v)), w, []).
Proof.
  intros Hv Ht Hascii Hnot.
  unfold generateECDSAkey, encode_ascii, dict_index. unfold_monad.
  rewrite Hv, Ht. red_all. rewrite Hv. red_all. rewrite Hascii. red_all.
  by rewrite (curveTable_lookup_None _ Hnot).
Qed.

End GeneratorProperties.

(** ** More on [changePassPhrase] *)

Section ChangePassPhraseProperties.
Context `{KeysLibrary}.

(** A key that [load_private_key] returns was parsed from the file. *)
Lemma load_private_key_ok f w key w' evs :
  load_private_key f w = (Ok key, w', evs) ->
  exists file old,
    w_fs w !! f = Some file /\ Key_fromString (f_data file) old = Ok key.
Proof.
  unfold load_private_key, Key_fromFile, getpass. unfold_monad.
  destruct (w_fs w !! f) as [file|] eqn:Hfile; [|done].
  destruct (Key_fromString (f_data file) PNone) as [k|e] eqn:Hk; red_all.
  { intros [= <- <- <-]. eauto. }
  destruct e; try done. red_all.
  destruct (w_options w !! "pass") as [v|] eqn:Hv; red_all;
    [destruct (truthy v)|cbn [truthy]]; red_all.
  2,3: destruct (w_tty w) as [|p rest]; [done|]; red_all;
       rewrite ?lookup_insert_eq; red_all.
  all: rewrite ?Hv; red_all; rewrite ?Hfile.
  all: match goal with
       | |- context [Key_fromString (f_data ?fl) ?pw] =>
           destruct (Key_fromString (f_data fl) pw) as [k|[]] eqn:Hk2
       end; try done.
  all: intros [= <- <- <-]; eauto.
Qed.

(** X19.  A successful [changePassPhrase] rewrites the key in place: the
    file it read holds afterwards the serialisation, under the subtype
    resolved from the options and the new passphrase the options then
    hold, of the very key parsed from its former content; that content
    parses again under the new passphrase; the mode of the file is what
    it was; and no other path has changed. *)
Theorem changePassPhrase_rewrites_the_key_in_place w w' evs :
  changePassPhrase w = (Ok tt, w', evs) ->
  exists f file old key new d,
    w_fs w !! f = Some file
    /\ Key_fromString (f_data file) old = Ok key
    /\ w_options w' !! "newpass" = Some new
    /\ Key_toString key (resolved_subtype (w_options w) (Key_type key))
         new PNone = Ok d
    /\ is_Ok (Key_fromString d new) = true
    /\ w_fs w' = <[f := mkFile d (f_mode file)]> (w_fs w).
Proof.
  unfold changePassPhrase. intros Hrun.
  rewrite bind_run in Hrun.
  destruct (_getKeyOrDefault None None w) as [[[f|e] w1] e1] eqn:E1; [|done].
  destruct (quiet_getKeyOrDefault None [] _ _ _ _ E1) as (F1 & _ & O1 & _).
  rewrite bind_run in Hrun.
  destruct (load_private_key f w1) as [[[key|e] w2] e2] eqn:E2; [|done].
  destruct (quiet_load_private_key _ _ _ _ _ E2) as (F2 & _ & O2 & _).
  destruct (load_private_key_ok _ _ _ _ _ E2) as (file & old & Hfile & Hold).
  rewrite F1 in Hfile.
  rewrite bind_run in Hrun.
  destruct (ask_new_passphrase w2) as [[[[]|e] w3] e3] eqn:E3; [|done].
  destruct (quiet_ask_new_passphrase _ _ _ _ E3) as (F3 & _ & O3 & _).
  rewrite bind_run in Hrun.
  destruct (resolve_subtype key w3) as [[r4 w4] e4] eqn:E4.
  destruct (resolve_subtype_run _ _ _ _ _ E4) as (-> & -> & F4 & _ & S4 & O4).
  assert (resolved_subtype (w_options w3) (Key_type key)
          = resolved_subtype (w_options w) (Key_type key)) as Hst.
  { unfold resolved_subtype. rewrite O3, O2, O1 by not_touched. done. }
  rewrite Hst in S4. clear Hst.
  assert (w_fs w4 = w_fs w) as F by congruence.
  rewrite bind_run in Hrun.
  destruct (serialise_new key w4) as [[[d|e] w5] e5] eqn:E5; [|done].
  destruct (serialise_new_run _ _ _ _ _ E5) as (-> & S5).
  assert (exists new, w_options w4 !! "newpass" = Some new
                      /\ Key_toString key
                           (resolved_subtype (w_options w) (Key_type key))
                           new PNone = Ok d) as (new & Hnew & Hd).
  { destruct S5 as [-> | (st & np & Hst & Hnp & -> & Hd & _)].
    - exfalso. revert E5. unfold serialise_new, toString. unfold_monad.
      destruct (w_options w4 !! "private-key-subtype"); [|done].
      destruct (w_options w4 !! "newpass"); [|done]. red_all.
      destruct (Key_toString key p p0 PNone) as [|e0]; [done|].
      destruct (is_Exception e0); done.
    - exists np. split; [done|]. rewrite <- (Hd d eq_refl). congruence. }
  rewrite bind_run in Hrun.
  destruct (verify_new d w4) as [[[[]|e] w6] e6] eqn:E6; [|done].
  destruct (verify_new_run _ _ _ _ _ E6) as (-> & S6).
  destruct S6 as [[_ ?] | (np' & Hnp' & -> & Hok & _)]; [done|].
  assert (np' = new) as -> by congruence.
  unfold open_wb_write in Hrun. unfold_monad. red_all.
  rewrite F, Hfile in Hrun.
  destruct (e_write (w_env w4) f d); red_all; [|done..].
  injection Hrun as <- <-.
  exists f, file, old, key, new, d. cbn [w_fs w_options set_fs].
  split_and!; done.
Qed.

Lemma load_private_key_supplied f w old :
  w_options w !! "pass" = Some old -> truthy old = true ->
  exists r evs,
    load_private_key f w = (r, w, evs)
    /\ forallb (fun e => negb (is_prompt e)) evs = true
    /\ forall kt st p c, ~ In (EvToString kt st p c) evs.
Proof.
  intros Hold Ht. unfold load_private_key, Key_fromFile. unfold_monad.
  assert (forall (l : list Event),
            forallb is_dialogue_or_load l = true ->
            forall kt st p c, ~ In (EvToString kt st p c) l) as Hno.
  { intros l Hl kt st p c Hin. refute_in Hl Hin. }
  destruct (match w_fs w !! f with
            | Some f0 => Key_fromString (f_data f0) PNone
            | None => Raise (FileNotFoundError f)
            end) as [k|e]; red_all.
  { eexists _, _. split; [reflexivity|]. split; [done|]. by apply Hno. }
  destruct e; red_all;
    try (eexists _, _; split; [reflexivity|]; split; [done|]; by apply Hno).
  rewrite Hold. red_all. rewrite Ht. red_all. rewrite Hold. red_all.
  destruct (match w_fs w !! f with
            | Some f0 => Key_fromString (f_data f0) old
            | None => Raise (FileNotFoundError f)
            end) as [k|[]]; red_all;
    (eexists _, _; split; [reflexivity|]; split; [done|]; by apply Hno).
Qed.

(** What follows the choice of the new passphrase asks nothing, and
    serialises the key under the new passphrase the options hold. *)
Lemma changePassPhrase_tail key f w r w' evs :
  (resolve_subtype key;;
   newkeydata ← serialise_new key;
   verify_new newkeydata;;
   open_wb_write f newkeydata;;
   print "Your identification has been saved with the new passphrase.") w
  = (r, w', evs) ->
  forallb (fun e => negb (is_prompt e)) evs = true
  /\ forall kt st p c,
       In (EvToString kt st p c) evs -> w_options w !! "newpass" = Some p.
Proof.
  rewrite bind_run.
  destruct (resolve_subtype key w) as [[r4 w4] e4] eqn:E4.
  destruct (resolve_subtype_run _ _ _ _ _ E4) as (-> & -> & F4 & _ & S4 & O4).
  rewrite bind_run.
  destruct (serialise_new key w4) as [[r5 w5] e5] eqn:E5.
  destruct (serialise_new_run _ _ _ _ _ E5) as (-> & S5).
  assert (forallb (fun e => negb (is_prompt e)) e5 = true
          /\ forall kt st p c,
               In (EvToString kt st p c) e5 ->
               w_options w !! "newpass" = Some p) as (L5 & P5).
  { destruct S5 as [-> | (st & np & Hst & Hnp & -> & _)]; [done|].
    split; [done|]. intros kt st' p c [[= <- <- <- <-]|[]].
    rewrite <- Hnp. symmetry. by apply O4. }
  destruct r5 as [d|e]; [|by intros [= <- <- <-]].
  rewrite bind_run.
  destruct (verify_new d w4) as [[r6 w6] e6] eqn:E6.
  destruct (verify_new_run _ _ _ _ _ E6) as (-> & S6).
  assert (forallb (fun e => negb (is_prompt e)) e6 = true
          /\ forall kt st p c, ~ In (EvToString kt st p c) e6) as (L6 & P6).
  { destruct S6 as [[-> _] | (np & _ & -> & _)].
    - split; [done|]. by intros kt st p c [].
    - split; [done|]. by intros kt st p c [|[]]. }
  destruct r6 as [[]|e].
  2:{ intros [= <- <- <-]. cbn [app]. rewrite forallb_app, L5, L6.
      split; [done|]. intros kt st p c [Hin|Hin]%in_app_or; [eauto|].
      by apply P6 in Hin. }
  unfold open_wb_write. unfold_monad. red_all.
  destruct (e_write (w_env w4) f d); red_all; intros [= <- <- <-];
    rewrite !forallb_app, L5, L6; (split; [done|]);
    intros kt st p c Hin;
    (apply in_app_or in Hin as [Hin|Hin]; [by eapply P5|]);
    (apply in_app_or in Hin as [Hin|Hin]; [by apply P6 in Hin|]);
    cbn in Hin; repeat (destruct Hin as [Hin|Hin]; [discriminate Hin|]);
    destruct Hin.
Qed.

(** X20.  [changePassPhrase] asks nothing when the options tell it
    everything: with a file name, a passphrase and a new passphrase, all
    three non-empty, there is no question on standard input or at the
    terminal in the run, whether the key is protected or not, and every
    serialisation is under the new passphrase given. *)
Theorem changePassPhrase_asks_nothing_when_told_everything
    w fn old new r w' evs :
  w_options w !! "filename" = Some fn -> truthy fn = true ->
  w_options w !! "pass" = Some old -> truthy old = true ->
  w_options w !! "newpass" = Some new -> truthy new = true ->
  changePassPhrase w = (r, w', evs) ->
  forallb (fun e => negb (is_prompt e)) evs = true
  /\ forall kt st p c, In (EvToString kt st p c) evs -> p = new.
Proof.
  intros Hfn Htfn Hold Htold Hnew Htnew. unfold changePassPhrase.
  rewrite bind_run, getKeyOrDefault_run, Hfn, Htfn.
  destruct (load_private_key_supplied (py_str fn) w old Hold Htold)
    as (r2 & e2 & E2 & L2 & P2).
  rewrite bind_run, E2. destruct r2 as [key|e].
  2:{ intros [= <- <- <-]. split; [done|]. intros kt st p c Hin.
      by apply P2 in Hin. }
  assert (ask_new_passphrase w = (Ok tt, w, [])) as E3.
  { unfold ask_new_passphrase. unfold_monad. rewrite Hnew. red_all.
    by rewrite Htnew. }
  rewrite bind_run, E3.
  destruct (mbind _ (resolve_subtype key) w) as [[r4 w4] e4] eqn:E4.
  destruct (changePassPhrase_tail _ _ _ _ _ _ E4) as (L4 & P4).
  intros [= <- <- <-]. cbn [app]. rewrite forallb_app, L2, L4.
  split; [done|]. intros kt st p c [Hin|Hin]%in_app_or.
  - by apply P2 in Hin.
  - apply P4 in Hin. congruence.
Qed.

(** X21.  An empty new passphrase in the options counts as none: on a
    key that is not protected, [changePassPhrase] with [newpass] absent,
    [None] or empty asks for the new passphrase at the terminal right
    after loading the key, so that the passphrase of a key is removed
    only by entering the empty line twice there. *)
Theorem changePassPhrase_asks_when_new_passphrase_is_empty
    w f w1 e1 file key :
  _getKeyOrDefault None None w = (Ok f, w1, e1) ->
  w_fs w !! f = Some file ->
  Key_fromString (f_data file) PNone = Ok key ->
  truthy (default PNone (w_options w !! "newpass")) = false ->
  exists rest,
    events_of (changePassPhrase w)
    = e1 ++ EvFromFile f PNone
         :: EvGetpass "Enter new passphrase (empty for no passphrase): "
              (head (w_tty w))
         :: rest.
Proof.
  intros E1 Hfile Hkey Hnew.
  destruct (getKeyOrDefault_keeps _ _ _ _ _ E1) as (F1 & O1 & T1 & _).
  unfold changePassPhrase. rewrite bind_run, E1.
  assert (load_private_key f w1 = (Ok key, w1, [EvFromFile f PNone])) as E2.
  { unfold load_private_key, Key_fromFile. unfold_monad.
    by rewrite F1, Hfile, Hkey. }
  rewrite bind_run, E2. rewrite bind_run.
  unfold ask_new_passphrase at 1. rewrite bind_run.
  unfold opt_get at 1, gets at 1. cbn beta iota. rewrite O1, Hnew.
  cbn [negb when app]. rewrite bind_run. unfold passphraseLoop at 1.
  rewrite T1.
  destruct (w_tty w) as [|p1 [|p2 tty]]; cbn [passphraseLoop_on head].
  - by eexists.
  - by eexists.
  - destruct (String.eqb p1 p2).
    + cbn beta iota. unfold opt_set at 1, modify at 1. cbn beta iota.
      destruct (mbind _ (resolve_subtype key) _) as [[r4 w4] e4].
      cbn [events_of snd app]. by eexists.
    + destruct (passphraseLoop_on _ tty) as [[r0 t0] e0].
      destruct r0; cbn beta iota.
      * unfold opt_set at 1, modify at 1. cbn beta iota.
        destruct (mbind _ (resolve_subtype key) _) as [[r4 w4] e4].
        cbn [events_of snd app]. by eexists.
      * cbn [events_of snd app]. by eexists.
Qed.

End ChangePassPhraseProperties.

(** ** Generating, then asking for the fingerprint *)

Section Composition.
Context `{KeysLibrary}.

(** X22.  The fingerprint of a key that was just generated is that of
    its public part, read from the [.pub] file.  After a successful
    [_saveKey] under a file name given in the options, a later
    invocation with the same options on the files it left loads the
    [.pub] file [_saveKey] wrote, not the private key, and prints the
    size and the fingerprint of the key parsed from it, in the format
    asked for, before what [os.path.basename] of the platform makes of
    the path of the [.pub] file; [pubkey] is what the library parses
    from the serialisation of the public part. *)
Theorem fingerprint_after_generate key w w' evs fn pubkey :
  w_options w !! "filename" = Some (PStr fn) -> fn ≠ "" ->
  _saveKey key None w = (Ok tt, w', evs) ->
  (forall pd,
     Key_toString (Key_public key) PNone PNone
       (PStr (key_comment (w_env w))) = Ok pd ->
     Key_fromString pd PNone = Ok pubkey) ->
  exists fmt w'',
    requested_format (w_options w) = Some fmt
    /\ printFingerprint (set_options (w_options w) w')
       = (Ok tt, w'',
          [EvFromFile (fn +:+ ".pub") PNone;
           EvPrint (pretty (Key_size pubkey) +:+ " "
                    +:+ Key_fingerprint pubkey fmt +:+ " "
                    +:+ os_path_basename (w_env w) (fn +:+ ".pub"))])
    /\ w_fs w'' = w_fs w'.
Proof.
  intros Hfn Hne Hrun Hlaw.
  destruct (saveKey_success _ _ _ _ Hrun)
    as (ktn & f & w1 & e1 & w2 & e2 & w3 & e3 & pass & d & pd & fmt
        & _ & E1 & _ & _ & _ & _ & Hpd & Hfmt & _ & Hfs & _ & Henv).
  rewrite (save_path_given _ _ _ _ Hfn Hne) in E1. injection E1 as <- _ _.
  exists fmt. eexists. split; [done|].
  unfold printFingerprint. rewrite bind_run, getKeyOrDefault_run.
  cbn [w_options set_options]. rewrite Hfn. cbn [truthy].
  destruct (String.eqb_spec fn "") as [|_]; [done|]. cbn [negb py_str].
  rewrite bind_run. unfold path_exists at 1, gets at 1. cbn beta iota.
  cbn [w_fs set_options]. rewrite Hfs, lookup_insert_eq.
  rewrite bool_decide_eq_true_2 by eauto.
  rewrite bind_run, (enumrepresentation_supported _ fmt) by done.
  unfold show_fingerprint, Key_fromFile. unfold_monad. red_all.
  rewrite Hfs, !lookup_insert_eq. cbn [f_data].
  rewrite (Hlaw _ Hpd). red_all. rewrite lookup_insert_eq. red_all.
  cbn [w_env set_options]. rewrite Henv.
  split; [reflexivity|]. cbn [w_fs set_options]. done.
Qed.

End Composition.

(** ** The entry point *)

Section ProgramProperties.
Context `{KeysLibrary} (parseOptions opt_help : M unit).

Lemma run_parsed w0 w e0 :
  parseOptions w0 = (Ok tt, w, e0) ->
  run parseOptions opt_help w0
  = let '(r, w', evs) :=
      (type ← opt_index "type";
       if truthy type then run_generate type
       else
         fingerprint ← opt_index "fingerprint";
         if truthy fingerprint then printFingerprint
         else
           changepass ← opt_index "changepass";
           if truthy changepass then changePassPhrase
           else
             showpub ← opt_index "showpub";
             if truthy showpub then displayPublicKey
             else opt_help;; sys_exit (PInt 1)) w in
    (r, w', e0 ++ evs).
Proof.
  intros Hparse. unfold run. rewrite bind_run. unfold try at 1.
  rewrite Hparse. cbn beta iota. rewrite bind_run.
  change (@mret M _ unit tt w) with (Ok tt, w, @nil Event). cbn beta iota.
  cbn [app]. by destruct (mbind _ (opt_index "type") w) as [[r w'] evs].
Qed.

(** X23.  A key type that, in lower case, is none of [rsa], [dsa],
    [ecdsa] and [ed25519] ends [run] with an exit whose message names
    the type as it was typed and the four types in the order of their
    registration; nothing is generated, asked or written. *)
Theorem run_rejects_unknown_key_type w0 w e0 t :
  parseOptions w0 = (Ok tt, w, e0) ->
  w_options w !! "type" = Some (PStr t) ->
  t ≠ "" ->
  py_lower t ∉ ["rsa"; "dsa"; "ecdsa"; "ed25519"] ->
  run parseOptions opt_help w0
  = (Raise (SystemExit
              (PStr ("Key type was " +:+ t
                     +:+ ", must be one of rsa, dsa, ecdsa, ed25519"))),
     w, e0).
Proof.
  intros Hparse Htype Ht Hnot. rewrite (run_parsed _ _ _ Hparse).
  rewrite (bind_pure _ _ _ (PStr t)) by (unfold opt_index; by rewrite Htype).
  cbn [truthy]. destruct (String.eqb_spec t "") as [|_]; [done|]. cbn [negb].
  unfold run_generate. rewrite (bind_pure _ _ _ (PStr (py_lower t))) by done.
  apply not_elem_of_cons in Hnot as [H1 Hnot].
  apply not_elem_of_cons in Hnot as [H2 Hnot].
  apply not_elem_of_cons in Hnot as [H3 Hnot].
  apply not_elem_of_cons in Hnot as [H4 _].
  cbn [dict_get supportedKeyTypes].
  destruct (String.eqb_spec "rsa" (py_lower t)); [congruence|].
  destruct (String.eqb_spec "dsa" (py_lower t)); [congruence|].
  destruct (String.eqb_spec "ecdsa" (py_lower t)); [congruence|].
  destruct (String.eqb_spec "ed25519" (py_lower t)); [congruence|].
  cbn. by rewrite app_nil_r.
Qed.

(** X24.  A key type is recognised whatever its case, and it comes
    first: once the type, in lower case, names a generator, [run]
    announces the type as it was typed and runs that generator, whatever
    the flags [fingerprint], [changepass] and [showpub] say. *)
Theorem run_key_type_comes_first w0 w e0 t g :
  parseOptions w0 = (Ok tt, w, e0) ->
  w_options w !! "type" = Some (PStr t) ->
  dict_get (py_lower t) supportedKeyTypes = Some g ->
  run parseOptions opt_help w0
  = (result_of (g w), world_of (g w),
     e0 ++ EvPrint ("Generating public/private " +:+ t +:+ " key pair.")
        :: events_of (g w)).
Proof.
  intros Hparse Htype Hg. rewrite (run_parsed _ _ _ Hparse).
  rewrite (bind_pure _ _ _ (PStr t)) by (unfold opt_index; by rewrite Htype).
  assert (t ≠ "") as Ht by (by intros ->).
  cbn [truthy]. destruct (String.eqb_spec t "") as [|_]; [done|]. cbn [negb].
  unfold run_generate. rewrite (bind_pure _ _ _ (PStr (py_lower t))) by done.
  rewrite Hg. rewrite bind_run. unfold print, emit. cbn [py_str].
  by destruct (g w) as [[r w'] evs].
Qed.

(** X25.  [run] changes files only to generate a key or to change a
    passphrase: when no key type is given, and the flag [fingerprint] is
    set or the flag [changepass] is not, the files are after the run as
    the parser left them (a help that writes no file being given). *)
Theorem run_changes_files_only_to_generate_or_change
    w0 w e0 ty fp r w' evs :
  parseOptions w0 = (Ok tt, w, e0) ->
  (forall w r w' evs, opt_help w = (r, w', evs) -> w_fs w' = w_fs w) ->
  w_options w !! "type" = Some ty -> truthy ty = false ->
  w_options w !! "fingerprint" = Some fp ->
  (truthy fp = true
   \/ exists cp, w_options w !! "changepass" = Some cp /\ truthy cp = false) ->
  run parseOptions opt_help w0 = (r, w', evs) ->
  w_fs w' = w_fs w.
Proof.
  intros Hparse Hhelp Hty Htty Hfp Hflags. rewrite (run_parsed _ _ _ Hparse).
  rewrite (bind_pure _ _ _ ty) by (unfold opt_index; by rewrite Hty).
  rewrite Htty.
  rewrite (bind_pure _ _ _ fp) by (unfold opt_index; by rewrite Hfp).
  destruct (truthy fp) eqn:Htfp.
  { destruct (printFingerprint w) as [[r1 w1] e1] eqn:E1. intros [= <- <- <-].
    by destruct (quiet_printFingerprint _ _ _ _ E1) as (F & _). }
  destruct Hflags as [|(cp & Hcp & Htcp)]; [done|].
  rewrite (bind_pure _ _ _ cp) by (unfold opt_index; by rewrite Hcp).
  rewrite Htcp.
  destruct (w_options w !! "showpub") as [sp|] eqn:Hsp.
  2:{ rewrite (bind_fail _ _ _ (KeyError "showpub"))
        by (unfold opt_index; by rewrite Hsp).
      by intros [= <- <- <-]. }
  rewrite (bind_pure _ _ _ sp) by (unfold opt_index; by rewrite Hsp).
  destruct (truthy sp).
  { destruct (displayPublicKey w) as [[r1 w1] e1] eqn:E1. intros [= <- <- <-].
    by destruct (quiet_displayPublicKey _ _ _ _ E1) as (F & _). }
  rewrite bind_run. destruct (opt_help w) as [[[[]|e] w1] e1] eqn:E1;
    intros [= <- <- <-]; by eapply Hhelp.
Qed.

End ProgramProperties.

(** ** The further properties on concrete inputs *)

Lemma run_rejects_unknown_key_type_witness :
  MoreInputs.parsed (MoreInputs.w_type "X25519")
  = (Ok tt, MoreInputs.w_type "X25519", [])
  /\ w_options (MoreInputs.w_type "X25519") !! "type" = Some (PStr "X25519")
  /\ (py_lower "X25519" ∉ ["rsa"; "dsa"; "ecdsa"; "ed25519"])
  /\ @run (Toy.keys true) MoreInputs.parsed MoreInputs.help
       (MoreInputs.w_type "X25519")
     = (Raise (SystemExit
                 (PStr "Key type was X25519, must be one of rsa, dsa, ecdsa, ed25519")),
        MoreInputs.w_type "X25519", []).
Proof.
  assert (w_options (MoreInputs.w_type "X25519") !! "type"
          = Some (PStr "X25519")) as Htype by (vm_compute; reflexivity).
  assert (py_lower "X25519" ∉ ["rsa"; "dsa"; "ecdsa"; "ed25519"]) as Hnot.
  { vm_compute. not_touched. }
  split; [reflexivity|]. split; [exact Htype|]. split; [exact Hnot|].
  apply (@run_rejects_unknown_key_type (Toy.keys true) MoreInputs.parsed
           MoreInputs.help _ _ [] "X25519" eq_refl Htype); [discriminate|].
  exact Hnot.
Defined.

Lemma run_key_type_comes_first_witness :
  w_options (MoreInputs.w_type "ED25519") !! "type" = Some (PStr "ED25519")
  /\ dict_get (py_lower "ED25519") (@supportedKeyTypes (Toy.keys true))
     = Some (@generateEd25519key (Toy.keys true))
  /\ events_of (@run (Toy.keys true) MoreInputs.parsed MoreInputs.help
                  (MoreInputs.w_type "ED25519"))
     = EvPrint "Generating public/private ED25519 key pair."
       :: events_of (@generateEd25519key (Toy.keys true)
                       (MoreInputs.w_type "ED25519")).
Proof.
  assert (w_options (MoreInputs.w_type "ED25519") !! "type"
          = Some (PStr "ED25519")) as Htype by (vm_compute; reflexivity).
  split; [exact Htype|]. split; [reflexivity|].
  rewrite (@run_key_type_comes_first (Toy.keys true) MoreInputs.parsed
             MoreInputs.help _ _ [] "ED25519" _ eq_refl Htype eq_refl).
  reflexivity.
Defined.

Lemma run_changes_files_only_to_generate_or_change_witness :
  w_options MoreInputs.w_two_flags !! "type" = Some PNone
  /\ w_options MoreInputs.w_two_flags !! "fingerprint" = Some (PInt 1)
  /\ w_options MoreInputs.w_two_flags !! "changepass" = Some (PInt 1)
  /\ w_fs (world_of (@run (Toy.keys true) MoreInputs.parsed MoreInputs.help
                       MoreInputs.w_two_flags))
     = w_fs MoreInputs.w_two_flags.
Proof.
  assert (w_options MoreInputs.w_two_flags !! "type" = Some PNone) as Hty
    by (vm_compute; reflexivity).
  assert (w_options MoreInputs.w_two_flags !! "fingerprint" = Some (PInt 1))
    as Hfp by (vm_compute; reflexivity).
  split; [exact Hty|]. split; [exact Hfp|].
  split; [vm_compute; reflexivity|].
  eapply (@run_changes_files_only_to_generate_or_change (Toy.keys true)
            MoreInputs.parsed MoreInputs.help MoreInputs.w_two_flags
            MoreInputs.w_two_flags [] PNone (PInt 1) _ _ _ eq_refl).
  - intros w r w' evs [= <- <- <-]. reflexivity.
  - exact Hty.
  - reflexivity.
  - exact Hfp.
  - left. reflexivity.
  - apply run_eta.
Defined.

Lemma enumrepresentation_accepts_two_names_witness :
  w_options Inputs.w_generate !! "format" = Some (PStr "sha256-base64")
  /\ result_of (enumrepresentation Inputs.w_generate) = Ok tt
  /\ world_of (enumrepresentation Inputs.w_generate)
     = set_options (<["format" := PFmt SHA256_BASE64]>
                      (w_options Inputs.w_generate)) Inputs.w_generate
  /\ result_of (enumrepresentation Inputs.w_unsupported)
     = Raise (BadFingerPrintFormat "Unsupported fingerprint format: sha1")
  /\ world_of (enumrepresentation Inputs.w_unsupported) = Inputs.w_unsupported.
Proof.
  assert (w_options Inputs.w_generate !! "format"
          = Some (PStr "sha256-base64")) as Hfmt by (vm_compute; reflexivity).
  destruct (enumrepresentation_accepts_two_names Inputs.w_generate _ _ _
              (run_eta _)) as (_ & Hok & Hw & _).
  destruct (enumrepresentation_accepts_two_names Inputs.w_unsupported _ _ _
              (run_eta _)) as (_ & _ & _ & Hraise).
  assert (("sha256-base64", SHA256_BASE64) ∈ format_names) as Hin.
  { unfold format_names. repeat constructor. }
  split; [exact Hfmt|]. split.
  { apply Hok. exists "sha256-base64", SHA256_BASE64. split; [exact Hin|].
    exact Hfmt. }
  split; [exact (Hw _ _ Hin Hfmt)|].
  assert (result_of (enumrepresentation Inputs.w_unsupported)
          = Raise (BadFingerPrintFormat "Unsupported fingerprint format: sha1"))
    as Hr by (vm_compute; reflexivity).
  split; [exact Hr|]. exact (proj1 (Hraise _ Hr)).
Defined.

Lemma enumrepresentation_twice_raises_witness :
  result_of (enumrepresentation Inputs.w_generate) = Ok tt
  /\ exists fmt,
       w_options (world_of (enumrepresentation Inputs.w_generate)) !! "format"
       = Some (PFmt fmt)
       /\ enumrepresentation (world_of (enumrepresentation Inputs.w_generate))
          = (Raise (BadFingerPrintFormat
                      ("Unsupported fingerprint format: "
                       +:+ py_str (PFmt fmt))),
             world_of (enumrepresentation Inputs.w_generate), []).
Proof.
  assert (result_of (enumrepresentation Inputs.w_generate) = Ok tt) as Hr
    by (vm_compute; reflexivity).
  split; [exact Hr|].
  pose proof (run_eta (enumrepresentation Inputs.w_generate)) as Heta.
  rewrite Hr in Heta.
  exact (enumrepresentation_twice_raises _ _ _ Heta).
Defined.

Lemma displayPublicKey_reads_only_witness :
  result_of (@displayPublicKey (Toy.keys true) (Inputs.w_encrypted ["secret"]))
  = Ok tt
  /\ w_fs (world_of (@displayPublicKey (Toy.keys true)
                       (Inputs.w_encrypted ["secret"])))
     = w_fs (Inputs.w_encrypted ["secret"])
  /\ forallb not_file_event
       (events_of (@displayPublicKey (Toy.keys true)
                     (Inputs.w_encrypted ["secret"]))) = true.
Proof.
  split; [vm_compute; reflexivity|].
  destruct (@displayPublicKey_reads_only (Toy.keys true)
              (Inputs.w_encrypted ["secret"]) _ _ _ (run_eta _))
    as (Hfs & Hevs & _).
  split; [exact Hfs|exact Hevs].
Defined.

Lemma missing_key_file_is_reported_witness :
  @_getKeyOrDefault None None Inputs.w_generate
  = (Ok "/tmp/id_test", Inputs.w_generate, [])
  /\ w_fs Inputs.w_generate !! "/tmp/id_test" = None
  /\ @displayPublicKey (Toy.keys true) Inputs.w_generate
     = (Raise (could_not_be_opened "/tmp/id_test"), Inputs.w_generate,
        [EvFromFile "/tmp/id_test" PNone])
  /\ @changePassPhrase (Toy.keys true) Inputs.w_generate
     = (Raise (could_not_be_opened "/tmp/id_test"), Inputs.w_generate,
        [EvFromFile "/tmp/id_test" PNone]).
Proof.
  assert (@_getKeyOrDefault None None Inputs.w_generate
          = (Ok "/tmp/id_test", Inputs.w_generate, [])) as Hpath
    by (vm_compute; reflexivity).
  assert (w_fs Inputs.w_generate !! "/tmp/id_test" = None) as Hnone
    by (vm_compute; reflexivity).
  split; [exact Hpath|]. split; [exact Hnone|].
  exact (@missing_key_file_is_reported (Toy.keys true) _ _ _ _ Hpath Hnone).
Defined.

Lemma displayPublicKey_prints_the_public_part_witness :
  result_of (@displayPublicKey (Toy.keys true) (Inputs.w_encrypted ["secret"]))
  = Ok tt
  /\ exists f file pass key d pre,
       events_of (@displayPublicKey (Toy.keys true)
                    (Inputs.w_encrypted ["secret"]))
       = pre ++ [EvFromFile f pass;
                 EvToString (Toy.tk_type key) PNone PNone PNone;
                 EvPrint d]
       /\ forallb (fun e => negb (is_print e)) pre = true
       /\ w_fs (Inputs.w_encrypted ["secret"]) !! f = Some file
       /\ Toy.toy_fromString (f_data file) pass = Ok key
       /\ Toy.toy_toString true key PNone PNone PNone = Ok d.
Proof.
  assert (result_of (@displayPublicKey (Toy.keys true)
                       (Inputs.w_encrypted ["secret"])) = Ok tt) as Hr
    by (vm_compute; reflexivity).
  split; [exact Hr|].
  pose proof (run_eta (@displayPublicKey (Toy.keys true)
                         (Inputs.w_encrypted ["secret"]))) as Heta.
  rewrite Hr in Heta.
  destruct (@displayPublicKey_prints_the_public_part (Toy.keys true) _ _ _
              Heta)
    as (f & file & pass & key & d & pre & Hevs & _ & Hpre & Hfile & Hkey
        & _ & Hd).
  exists f, file, pass, key, d, pre. split_and!; assumption.
Defined.

Lemma displayPublicKey_asks_passphrase_once_witness :
  @_getKeyOrDefault None None (Inputs.w_encrypted ["wrong"])
  = (Ok "/tmp/id_test", Inputs.w_encrypted ["wrong"], [])
  /\ w_fs (Inputs.w_encrypted ["wrong"]) !! "/tmp/id_test"
     = Some (mkFile "Esecret" (octal "100600"))
  /\ Toy.toy_fromString "Esecret" PNone
     = Raise (EncryptedKeyError
                "Passphrase must be provided for an encrypted key")
  /\ Toy.toy_fromString "Esecret" (PStr "wrong")
     = Raise (BadKeyError "wrong passphrase")
  /\ List.length
       (List.filter is_getpass
          (events_of (@displayPublicKey (Toy.keys true)
                        (Inputs.w_encrypted ["wrong"])))) = 1%nat
  /\ result_of (@displayPublicKey (Toy.keys true)
                  (Inputs.w_encrypted ["wrong"]))
     = Raise (BadKeyError "wrong passphrase").
Proof.
  assert (@_getKeyOrDefault None None (Inputs.w_encrypted ["wrong"])
          = (Ok "/tmp/id_test", Inputs.w_encrypted ["wrong"], [])) as Hpath
    by (vm_compute; reflexivity).
  assert (w_fs (Inputs.w_encrypted ["wrong"]) !! "/tmp/id_test"
          = Some (mkFile "Esecret" (octal "100600"))) as Hfile
    by (vm_compute; reflexivity).
  split; [exact Hpath|]. split; [exact Hfile|]. split; [reflexivity|].
  split; [reflexivity|].
  destruct (@displayPublicKey_asks_passphrase_once (Toy.keys true)
              (Inputs.w_encrypted ["wrong"]) _ _ _
              (mkFile "Esecret" (octal "100600")) _ _ _ _
              Hpath Hfile eq_refl (run_eta _)) as (Hcount & _ & Hfail).
  split; [exact Hcount|].
  apply (Hfail (PStr "wrong") (BadKeyError "wrong passphrase")).
  - exists "wrong", []. split; reflexivity.
  - reflexivity.
Defined.

Lemma printFingerprint_rejects_format_before_loading_witness :
  w_options Inputs.w_unsupported !! "format" = Some (PStr "sha1")
  /\ @_getKeyOrDefault None None Inputs.w_unsupported
     = (Ok "/tmp/id_test", Inputs.w_unsupported, [])
  /\ @printFingerprint (Toy.keys true) Inputs.w_unsupported
     = (Raise (BadFingerPrintFormat "Unsupported fingerprint format: sha1"),
        Inputs.w_unsupported, []).
Proof.
  assert (w_options Inputs.w_unsupported !! "format" = Some (PStr "sha1"))
    as Hfmt by (vm_compute; reflexivity).
  assert (@_getKeyOrDefault None None Inputs.w_unsupported
          = (Ok "/tmp/id_test", Inputs.w_unsupported, [])) as Hpath
    by (vm_compute; reflexivity).
  split; [exact Hfmt|]. split; [exact Hpath|].
  destruct (@printFingerprint_rejects_format_before_loading (Toy.keys true)
              Inputs.w_unsupported (PStr "sha1") _ _ _ Hfmt
              ltac:(discriminate) ltac:(discriminate) (run_eta _))
    as (_ & _ & Hrun).
  destruct (Hrun _ _ _ Hpath) as (Hr & Hw & Hevs).
  rewrite (run_eta (@printFingerprint (Toy.keys true) Inputs.w_unsupported)).
  rewrite Hr, Hw, Hevs. reflexivity.
Defined.

Lemma printFingerprint_load_failures_witness :
  @_getKeyOrDefault None None (Inputs.w_encrypted [])
  = (Ok "/tmp/id_test", Inputs.w_encrypted [], [])
  /\ requested_format (w_options (Inputs.w_encrypted []))
     = Some SHA256_BASE64
  /\ w_fs (Inputs.w_encrypted []) !! "/tmp/id_test.pub" = None
  /\ result_of (@printFingerprint (Toy.keys true) (Inputs.w_encrypted []))
     = Raise (EncryptedKeyError
                "Passphrase must be provided for an encrypted key")
  /\ events_of (@printFingerprint (Toy.keys true) (Inputs.w_encrypted []))
     = [EvFromFile "/tmp/id_test" PNone].
Proof.
  assert (@_getKeyOrDefault None None (Inputs.w_encrypted [])
          = (Ok "/tmp/id_test", Inputs.w_encrypted [], [])) as Hpath
    by (vm_compute; reflexivity).
  assert (requested_format (w_options (Inputs.w_encrypted []))
          = Some SHA256_BASE64) as Hfmt by (vm_compute; reflexivity).
  split; [exact Hpath|]. split; [exact Hfmt|].
  split; [vm_compute; reflexivity|].
  destruct (@printFingerprint_load_failures (Toy.keys true)
              (Inputs.w_encrypted []) _ _ _ _ _ _ _
              (EncryptedKeyError
                 "Passphrase must be provided for an encrypted key")
              Hpath Hfmt (run_eta _)) as (Hr & Hevs & _).
  { vm_compute. reflexivity. }
  split; [exact Hr|]. rewrite Hevs. vm_compute. reflexivity.
Defined.

Lemma saveKey_unknown_key_type_witness :
  (Toy.tk_type MoreInputs.x448 ∉ ["EC"; "Ed25519"; "RSA"; "DSA"])
  /\ @_saveKey (Toy.keys true) MoreInputs.x448 None Inputs.w_generate
     = (Raise (KeyError "X448"), Inputs.w_generate, []).
Proof.
  assert (Toy.tk_type MoreInputs.x448 ∉ ["EC"; "Ed25519"; "RSA"; "DSA"])
    as Hnot by (cbn; not_touched).
  split; [exact Hnot|].
  exact (@saveKey_unknown_key_type (Toy.keys true) MoreInputs.x448 None
           Inputs.w_generate Hnot).
Defined.

Lemma saveKey_asks_for_the_path_twice_witness :
  (* the second answer between blanks *)
  (KeyTypeMapping !! Toy.tk_type Inputs.ed25519 = Some "ed25519"
   /\ w_options MoreInputs.w_two_answers !! "filename" = Some PNone
   /\ w_stdin MoreInputs.w_two_answers = [""; " /tmp/k  "]
   /\ chosen_path (default_filename Inputs.linux "ed25519") "" " /tmp/k  "
      = "/tmp/k"
   /\ result_of (@_saveKey (Toy.keys true) Inputs.ed25519 None
                   MoreInputs.w_two_answers) = Ok tt
   /\ (exists tail,
         events_of (@_saveKey (Toy.keys true) Inputs.ed25519 None
                      MoreInputs.w_two_answers)
         = EvInput "Enter file in which the key is (/home/alice/.ssh/id_ed25519): "
             (Some "")
           :: EvInput "Enter file in which to save the key (/home/alice/.ssh/id_ed25519): "
                (Some " /tmp/k  ")
           :: tail)
   /\ is_Some (w_fs (world_of (@_saveKey (Toy.keys true) Inputs.ed25519 None
                                 MoreInputs.w_two_answers)) !! "/tmp/k")
   /\ is_Some (w_fs (world_of (@_saveKey (Toy.keys true) Inputs.ed25519 None
                                 MoreInputs.w_two_answers)) !! "/tmp/k.pub"))
  (* the second answer between no-break spaces *)
  /\ (chosen_path (default_filename Inputs.linux "ed25519") "/tmp/j"
        (Inputs.nbsp +:+ "/tmp/k" +:+ Inputs.nbsp) = "/tmp/k"
      /\ is_Some (w_fs (world_of
                          (@_saveKey (Toy.keys true) Inputs.ed25519 None
                             (MoreInputs.w_answers "/tmp/j"
                                (Inputs.nbsp +:+ "/tmp/k" +:+ Inputs.nbsp))))
                    !! "/tmp/k")
      /\ w_fs (world_of
                 (@_saveKey (Toy.keys true) Inputs.ed25519 None
                    (MoreInputs.w_answers "/tmp/j"
                       (Inputs.nbsp +:+ "/tmp/k" +:+ Inputs.nbsp))))
           !! "/tmp/j" = None).
Proof.
  assert (KeyTypeMapping !! Toy.tk_type Inputs.ed25519 = Some "ed25519")
    as Hktn by reflexivity.
  split.
  - assert (w_options MoreInputs.w_two_answers !! "filename" = Some PNone)
      as Hfn by (vm_compute; reflexivity).
    assert (result_of (@_saveKey (Toy.keys true) Inputs.ed25519 None
                         MoreInputs.w_two_answers) = Ok tt) as Hr
      by (vm_compute; reflexivity).
    assert (chosen_path (default_filename Inputs.linux "ed25519") ""
              " /tmp/k  " = "/tmp/k") as Hchosen by (vm_compute; reflexivity).
    destruct (@saveKey_asks_for_the_path_twice (Toy.keys true) Inputs.ed25519
                "ed25519" MoreInputs.w_two_answers PNone "" " /tmp/k  " []
                _ _ _ Hktn Hfn eq_refl eq_refl (run_eta _))
      as ((tail & Hevs) & Hok).
    destruct (Hok Hr) as (Hpriv & Hpub & _).
    change (w_env MoreInputs.w_two_answers) with Inputs.linux in Hpriv, Hpub.
    rewrite Hchosen in Hpriv, Hpub.
    split_and!; try assumption; try reflexivity.
    exists tail. rewrite Hevs. vm_compute. reflexivity.
  - set (b := Inputs.nbsp +:+ "/tmp/k" +:+ Inputs.nbsp).
    assert (w_options (MoreInputs.w_answers "/tmp/j" b) !! "filename"
            = Some PNone) as Hfn by (vm_compute; reflexivity).
    assert (result_of (@_saveKey (Toy.keys true) Inputs.ed25519 None
                         (MoreInputs.w_answers "/tmp/j" b)) = Ok tt) as Hr
      by (vm_compute; reflexivity).
    assert (chosen_path (default_filename Inputs.linux "ed25519") "/tmp/j" b
            = "/tmp/k") as Hchosen by (vm_compute; reflexivity).
    destruct (@saveKey_asks_for_the_path_twice (Toy.keys true) Inputs.ed25519
                "ed25519" (MoreInputs.w_answers "/tmp/j" b) PNone "/tmp/j" b []
                _ _ _ Hktn Hfn eq_refl eq_refl (run_eta _))
      as (_ & Hok).
    destruct (Hok Hr) as (Hpriv & _ & Hother).
    change (w_env (MoreInputs.w_answers "/tmp/j" b)) with Inputs.linux
      in Hpriv, Hother.
    rewrite Hchosen in Hpriv, Hother.
    split_and!; [exact Hchosen|exact Hpriv|].
    rewrite (Hother "/tmp/j") by discriminate. vm_compute. reflexivity.
Defined.

Lemma saveKey_writes_the_serialised_pair_witness :
  result_of (@_saveKey (Toy.keys true) Inputs.ed25519 None Inputs.w_generate)
  = Ok tt
  /\ exists f pass d pd,
       Toy.toy_toString true Inputs.ed25519 (PStr "v1") pass PNone = Ok d
       /\ Toy.toy_toString true Inputs.ed25519 PNone PNone
            (PStr "alice@example.org") = Ok pd
       /\ w_fs (world_of (@_saveKey (Toy.keys true) Inputs.ed25519 None
                            Inputs.w_generate)) !! f
          = Some (mkFile d (octal "100600"))
       /\ w_fs (world_of (@_saveKey (Toy.keys true) Inputs.ed25519 None
                            Inputs.w_generate)) !! (f +:+ ".pub")
          = Some (mkFile pd (octal "100755")).
Proof.
  assert (result_of (@_saveKey (Toy.keys true) Inputs.ed25519 None
                       Inputs.w_generate) = Ok tt) as Hr
    by (vm_compute; reflexivity).
  split; [exact Hr|].
  pose proof (run_eta (@_saveKey (Toy.keys true) Inputs.ed25519 None
                         Inputs.w_generate)) as Heta.
  rewrite Hr in Heta.
  destruct (@saveKey_writes_the_serialised_pair (Toy.keys true) _ _ _ _ Heta)
    as (f & pass & d & pd & _ & Hd & Hpd & Hpriv & Hpub & _).
  exists f, pass, d, pd. split_and!; assumption.
Defined.

Lemma saveKey_reports_with_the_constant_witness :
  result_of (@_saveKey (Toy.keys true) Inputs.ed25519 None Inputs.w_generate)
  = Ok tt
  /\ exists f fmt before,
       requested_format (w_options Inputs.w_generate) = Some fmt
       /\ events_of (@_saveKey (Toy.keys true) Inputs.ed25519 None
                       Inputs.w_generate)
          = before
            ++ [EvPrint ("Your identification has been saved in " +:+ f);
                EvPrint ("Your public key has been saved in "
                         +:+ f +:+ ".pub");
                EvPrint ("The key fingerprint in " +:+ py_str (PFmt fmt)
                         +:+ " is:");
                EvPrint (Toy.toy_fingerprint Inputs.ed25519 fmt)].
Proof.
  assert (result_of (@_saveKey (Toy.keys true) Inputs.ed25519 None
                       Inputs.w_generate) = Ok tt) as Hr
    by (vm_compute; reflexivity).
  split; [exact Hr|].
  pose proof (run_eta (@_saveKey (Toy.keys true) Inputs.ed25519 None
                         Inputs.w_generate)) as Heta.
  rewrite Hr in Heta.
  destruct (@saveKey_reports_with_the_constant (Toy.keys true) _ _ _ _ Heta)
    as (f & fmt & before & Hfmt & Hevs & _).
  exists f, fmt, before. split; assumption.
Defined.

Lemma saveKey_takes_the_passphrase_without_asking_witness :
  unprompted_passphrase (w_options MoreInputs.w_both) = Some (PBytes "")
  /\ In (EvToString "Ed25519" (PStr "v1") (PBytes "") PNone)
       (events_of (@_saveKey (Toy.keys true) Inputs.ed25519 None
                     MoreInputs.w_both))
  /\ forallb (fun e => negb (is_getpass e))
       (events_of (@_saveKey (Toy.keys true) Inputs.ed25519 None
                     MoreInputs.w_both)) = true
  /\ forall kt st pass,
       In (EvToString kt st pass PNone)
         (events_of (@_saveKey (Toy.keys true) Inputs.ed25519 None
                       MoreInputs.w_both)) ->
       pass = PBytes "".
Proof.
  assert (unprompted_passphrase (w_options MoreInputs.w_both)
          = Some (PBytes "")) as Hp by (vm_compute; reflexivity).
  split; [exact Hp|]. split; [vm_compute; auto|].
  exact (@saveKey_takes_the_passphrase_without_asking (Toy.keys true)
           Inputs.ed25519 MoreInputs.w_both _ _ _ _ Hp (run_eta _)).
Defined.

Lemma saveKey_asks_nothing_when_told_everything_witness :
  w_options Inputs.w_generate !! "filename" = Some (PStr "/tmp/id_test")
  /\ w_fs Inputs.w_generate !! "/tmp/id_test" = None
  /\ unprompted_passphrase (w_options Inputs.w_generate) = Some (PBytes "")
  /\ result_of (@_saveKey (Toy.keys true) Inputs.ed25519 None
                  Inputs.w_generate) = Ok tt
  /\ forallb (fun e => negb (is_prompt e))
       (events_of (@_saveKey (Toy.keys true) Inputs.ed25519 None
                     Inputs.w_generate)) = true.
Proof.
  assert (w_options Inputs.w_generate !! "filename"
          = Some (PStr "/tmp/id_test")) as Hfn by (vm_compute; reflexivity).
  assert (w_fs Inputs.w_generate !! "/tmp/id_test" = None) as Hnone
    by (vm_compute; reflexivity).
  assert (unprompted_passphrase (w_options Inputs.w_generate)
          = Some (PBytes "")) as Hp by (vm_compute; reflexivity).
  split; [exact Hfn|]. split; [exact Hnone|]. split; [exact Hp|].
  split; [vm_compute; reflexivity|].
  apply (@saveKey_asks_nothing_when_told_everything (Toy.keys true)
           Inputs.ed25519 Inputs.w_generate "/tmp/id_test" (PBytes "") _ _ _
           Hfn ltac:(discriminate) Hnone Hp (run_eta _)).
Defined.

Lemma saveKey_replaces_a_pub_file_without_asking_witness :
  w_options MoreInputs.w_stale_pub !! "filename" = Some (PStr "/tmp/id_test")
  /\ w_fs MoreInputs.w_stale_pub !! "/tmp/id_test" = None
  /\ w_fs MoreInputs.w_stale_pub !! "/tmp/id_test.pub"
     = Some (mkFile "P bob@example.org" (octal "100644"))
  /\ unprompted_passphrase (w_options MoreInputs.w_stale_pub)
     = Some (PBytes "")
  /\ result_of (@_saveKey (Toy.keys true) Inputs.ed25519 None
                  MoreInputs.w_stale_pub) = Ok tt
  /\ forallb (fun e => negb (is_prompt e))
       (events_of (@_saveKey (Toy.keys true) Inputs.ed25519 None
                     MoreInputs.w_stale_pub)) = true
  /\ f_data <$> w_fs (world_of (@_saveKey (Toy.keys true) Inputs.ed25519 None
                                  MoreInputs.w_stale_pub))
                  !! "/tmp/id_test.pub"
     = Some "P alice@example.org".
Proof.
  assert (w_options MoreInputs.w_stale_pub !! "filename"
          = Some (PStr "/tmp/id_test")) as Hfn by (vm_compute; reflexivity).
  assert (w_fs MoreInputs.w_stale_pub !! "/tmp/id_test" = None) as Hnone
    by (vm_compute; reflexivity).
  assert (w_fs MoreInputs.w_stale_pub !! "/tmp/id_test.pub"
          = Some (mkFile "P bob@example.org" (octal "100644"))) as Hold
    by (vm_compute; reflexivity).
  assert (unprompted_passphrase (w_options MoreInputs.w_stale_pub)
          = Some (PBytes "")) as Hp by (vm_compute; reflexivity).
  assert (result_of (@_saveKey (Toy.keys true) Inputs.ed25519 None
                       MoreInputs.w_stale_pub) = Ok tt) as Hr
    by (vm_compute; reflexivity).
  pose proof (run_eta (@_saveKey (Toy.keys true) Inputs.ed25519 None
                         MoreInputs.w_stale_pub)) as Heta.
  rewrite Hr in Heta.
  destruct (@saveKey_replaces_a_pub_file_without_asking (Toy.keys true)
              Inputs.ed25519 MoreInputs.w_stale_pub "/tmp/id_test" _ _ _ _
              Hfn ltac:(discriminate) Hnone Hold Hp Heta)
    as (Hquiet & pd & Hpd & Hpub).
  vm_compute in Hpd. injection Hpd as <-.
  split_and!; assumption.
Defined.

Lemma generators_generate_first_witness :
  result_of (@generateEd25519key (Toy.keys true) Inputs.w_generate) = Ok tt
  /\ exists kind arg rest,
       events_of (@generateEd25519key (Toy.keys true) Inputs.w_generate)
       = EvGenerate kind arg :: rest
       /\ forallb (fun e => negb (is_generate e)) rest = true.
Proof.
  split; [vm_compute; reflexivity|].
  destruct (@generators_generate_first (Toy.keys true)
              (@generateEd25519key (Toy.keys true)) Inputs.w_generate _ _ _
              ltac:(do 3 right; left; reflexivity) (run_eta _))
    as [Hnil|Hgen]; [|exact Hgen].
  exfalso. revert Hnil. vm_compute. discriminate.
Defined.

Lemma sized_generators_convert_bits_witness :
  w_options (MoreInputs.w_bits "4096") !! "bits" = Some (PStr "4096")
  /\ int_of_text Inputs.linux "4096" = Some 4096
  /\ int_of_text Inputs.linux "4k" = None
  /\ int_of_text Inputs.linux (Inputs.fs_char +:+ "2048") = None
  /\ (exists rest,
        events_of (@generateRSAkey (Toy.keys true) (MoreInputs.w_bits "4096"))
        = EvGenerate "rsa" (PInt 4096) :: rest)
  /\ @generateRSAkey (Toy.keys true) (MoreInputs.w_bits "4k")
     = (Raise ValueError, MoreInputs.w_bits "4k", [])
  /\ @generateRSAkey (Toy.keys true)
       (MoreInputs.w_bits (Inputs.fs_char +:+ "2048"))
     = (Raise ValueError, MoreInputs.w_bits (Inputs.fs_char +:+ "2048"), [])
  /\ int_of_text Inputs.linux Inputs.arabic_indic_1024 = Some 1024
  /\ (exists rest,
        events_of (@generateDSAkey (Toy.keys true)
                     (MoreInputs.w_bits Inputs.arabic_indic_1024))
        = EvGenerate "dsa" (PInt 1024) :: rest).
Proof.
  assert (w_options (MoreInputs.w_bits "4096") !! "bits"
          = Some (PStr "4096")) as Hbits by (vm_compute; reflexivity).
  assert (w_options (MoreInputs.w_bits "4k") !! "bits" = Some (PStr "4k"))
    as Hbad by (vm_compute; reflexivity).
  assert (w_options (MoreInputs.w_bits (Inputs.fs_char +:+ "2048")) !! "bits"
          = Some (PStr (Inputs.fs_char +:+ "2048"))) as Hsep
    by (vm_compute; reflexivity).
  assert (int_of_text Inputs.linux "4096" = Some 4096) as Hint
    by (vm_compute; reflexivity).
  assert (int_of_text Inputs.linux "4k" = None) as Hnot
    by (vm_compute; reflexivity).
  assert (int_of_text Inputs.linux (Inputs.fs_char +:+ "2048") = None) as Hfs
    by (vm_compute; reflexivity).
  pose proof (@sized_generators_convert_bits (Toy.keys true)
                (MoreInputs.w_bits "4096") "4096" Hbits ltac:(discriminate))
    as Hgood.
  pose proof (@sized_generators_convert_bits (Toy.keys true)
                (MoreInputs.w_bits "4k") "4k" Hbad ltac:(discriminate))
    as Hraise.
  pose proof (@sized_generators_convert_bits (Toy.keys true)
                (MoreInputs.w_bits (Inputs.fs_char +:+ "2048"))
                (Inputs.fs_char +:+ "2048") Hsep ltac:(discriminate))
    as Hraise'.
  change (w_env (MoreInputs.w_bits "4096")) with Inputs.linux in Hgood.
  change (w_env (MoreInputs.w_bits "4k")) with Inputs.linux in Hraise.
  change (w_env (MoreInputs.w_bits (Inputs.fs_char +:+ "2048")))
    with Inputs.linux in Hraise'.
  rewrite Hint in Hgood. rewrite Hnot in Hraise. rewrite Hfs in Hraise'.
  destruct Hgood as ((rest & Hevs & _) & _).
  assert (w_options (MoreInputs.w_bits Inputs.arabic_indic_1024) !! "bits"
          = Some (PStr Inputs.arabic_indic_1024)) as Hara
    by (vm_compute; reflexivity).
  assert (int_of_text Inputs.linux Inputs.arabic_indic_1024 = Some 1024)
    as Hint' by (vm_compute; reflexivity).
  pose proof (@sized_generators_convert_bits (Toy.keys true)
                (MoreInputs.w_bits Inputs.arabic_indic_1024)
                Inputs.arabic_indic_1024 Hara ltac:(discriminate))
    as Hgood'.
  change (w_env (MoreInputs.w_bits Inputs.arabic_indic_1024))
    with Inputs.linux in Hgood'.
  rewrite Hint' in Hgood'.
  destruct Hgood' as (_ & (rest' & Hevs' & _)).
  split_and!; try assumption.
  - by exists rest.
  - exact (proj1 Hraise).
  - exact (proj1 Hraise').
  - by exists rest'.
Defined.

Lemma generateECDSAkey_rejects_other_sizes_witness :
  w_options (MoreInputs.w_bits "0256") !! "bits" = Some (PStr "0256")
  /\ int_of_text Inputs.linux "0256" = Some 256
  /\ @generateECDSAkey (Toy.keys true) (MoreInputs.w_bits "0256")
     = (Raise (KeyError "ecdsa-sha2-nistp0256"), MoreInputs.w_bits "0256", []).
Proof.
  assert (w_options (MoreInputs.w_bits "0256") !! "bits"
          = Some (PStr "0256")) as Hbits by (vm_compute; reflexivity).
  split; [exact Hbits|]. split; [vm_compute; reflexivity|].
  apply (@generateECDSAkey_rejects_other_sizes (Toy.keys true)
           (MoreInputs.w_bits "0256") (PStr "0256") Hbits eq_refl eq_refl).
  cbn [py_str]. not_touched.
Defined.

Lemma changePassPhrase_rewrites_the_key_in_place_witness :
  result_of (@changePassPhrase (Toy.keys true) Inputs.w_change) = Ok tt
  /\ w_fs Inputs.w_change !! "/tmp/id_test"
     = Some (mkFile "P" (octal "100600"))
  /\ w_fs (world_of (@changePassPhrase (Toy.keys true) Inputs.w_change))
       !! "/tmp/id_test"
     = Some (mkFile "Enew" (octal "100600"))
  /\ exists f file old key new d,
       w_fs Inputs.w_change !! f = Some file
       /\ Toy.toy_fromString (f_data file) old = Ok key
       /\ is_Ok (Toy.toy_fromString d new) = true
       /\ w_fs (world_of (@changePassPhrase (Toy.keys true) Inputs.w_change))
          = <[f := mkFile d (f_mode file)]> (w_fs Inputs.w_change).
Proof.
  assert (result_of (@changePassPhrase (Toy.keys true) Inputs.w_change)
          = Ok tt) as Hr by (vm_compute; reflexivity).
  split; [exact Hr|]. split; [vm_compute; reflexivity|].
  split; [vm_compute; reflexivity|].
  pose proof (run_eta (@changePassPhrase (Toy.keys true) Inputs.w_change))
    as Heta.
  rewrite Hr in Heta.
  destruct (@changePassPhrase_rewrites_the_key_in_place (Toy.keys true)
              _ _ _ Heta)
    as (f & file & old & key & new & d & Hfile & Hold & _ & _ & Hok & Hfs).
  exists f, file, old, key, new, d. split_and!; assumption.
Defined.

Lemma changePassPhrase_asks_nothing_when_told_everything_witness :
  w_options MoreInputs.w_change_all !! "filename" = Some (PStr "/tmp/id_test")
  /\ w_options MoreInputs.w_change_all !! "pass" = Some (PStr "secret")
  /\ w_options MoreInputs.w_change_all !! "newpass" = Some (PStr "new")
  /\ result_of (@changePassPhrase (Toy.keys true) MoreInputs.w_change_all)
     = Ok tt
  /\ forallb (fun e => negb (is_prompt e))
       (events_of (@changePassPhrase (Toy.keys true) MoreInputs.w_change_all))
     = true.
Proof.
  assert (w_options MoreInputs.w_change_all !! "filename"
          = Some (PStr "/tmp/id_test")) as Hfn by (vm_compute; reflexivity).
  assert (w_options MoreInputs.w_change_all !! "pass" = Some (PStr "secret"))
    as Hold by (vm_compute; reflexivity).
  assert (w_options MoreInputs.w_change_all !! "newpass" = Some (PStr "new"))
    as Hnew by (vm_compute; reflexivity).
  split; [exact Hfn|]. split; [exact Hold|]. split; [exact Hnew|].
  split; [vm_compute; reflexivity|].
  exact (proj1 (@changePassPhrase_asks_nothing_when_told_everything
                  (Toy.keys true) MoreInputs.w_change_all _ _ _ _ _ _
                  Hfn eq_refl Hold eq_refl Hnew eq_refl (run_eta _))).
Defined.

Lemma changePassPhrase_asks_when_new_passphrase_is_empty_witness :
  @_getKeyOrDefault None None (MoreInputs.w_plain [""; ""])
  = (Ok "/tmp/id_test", MoreInputs.w_plain [""; ""], [])
  /\ w_options (MoreInputs.w_plain [""; ""]) !! "newpass" = Some (PStr "")
  /\ exists rest,
       events_of (@changePassPhrase (Toy.keys true)
                    (MoreInputs.w_plain [""; ""]))
       = EvFromFile "/tmp/id_test" PNone
         :: EvGetpass "Enter new passphrase (empty for no passphrase): "
              (Some "")
         :: rest.
Proof.
  assert (@_getKeyOrDefault None None (MoreInputs.w_plain [""; ""])
          = (Ok "/tmp/id_test", MoreInputs.w_plain [""; ""], [])) as Hpath
    by (vm_compute; reflexivity).
  assert (w_fs (MoreInputs.w_plain [""; ""]) !! "/tmp/id_test"
          = Some (mkFile "P" (octal "100600"))) as Hfile
    by (vm_compute; reflexivity).
  split; [exact Hpath|]. split; [vm_compute; reflexivity|].
  destruct (@changePassPhrase_asks_when_new_passphrase_is_empty
              (Toy.keys true) (MoreInputs.w_plain [""; ""]) _ _ _ _
              (Toy.mkToyKey "RSA" 2048) Hpath Hfile eq_refl)
    as (rest & Hevs).
  { vm_compute. reflexivity. }
  exists rest. exact Hevs.
Defined.

Lemma fingerprint_after_generate_witness :
  w_options Inputs.w_generate !! "filename" = Some (PStr "/tmp/id_test")
  /\ result_of (@_saveKey (Toy.keys true) Inputs.ed25519 None
                  Inputs.w_generate) = Ok tt
  /\ exists fmt w'',
       requested_format (w_options Inputs.w_generate) = Some fmt
       /\ @printFingerprint (Toy.keys true)
            (set_options (w_options Inputs.w_generate)
               (world_of (@_saveKey (Toy.keys true) Inputs.ed25519 None
                            Inputs.w_generate)))
          = (Ok tt, w'',
             [EvFromFile "/tmp/id_test.pub" PNone;
              EvPrint (pretty 2048 +:+ " "
                       +:+ Toy.toy_fingerprint (Toy.mkToyKey "RSA" 2048) fmt
                       +:+ " " +:+ "id_test.pub")]).
Proof.
  assert (w_options Inputs.w_generate !! "filename"
          = Some (PStr "/tmp/id_test")) as Hfn by (vm_compute; reflexivity).
  assert (result_of (@_saveKey (Toy.keys true) Inputs.ed25519 None
                       Inputs.w_generate) = Ok tt) as Hr
    by (vm_compute; reflexivity).
  split; [exact Hfn|]. split; [exact Hr|].
  pose proof (run_eta (@_saveKey (Toy.keys true) Inputs.ed25519 None
                         Inputs.w_generate)) as Heta.
  rewrite Hr in Heta.
  destruct (@fingerprint_after_generate (Toy.keys true) Inputs.ed25519
              Inputs.w_generate _ _ "/tmp/id_test" (Toy.mkToyKey "RSA" 2048)
              Hfn ltac:(discriminate) Heta)
    as (fmt & w'' & Hfmt & Hrun & _).
  { intros pd Hpd. vm_compute in Hpd. injection Hpd as <-. reflexivity. }
  change (os_path_basename (w_env Inputs.w_generate)
            ("/tmp/id_test" +:+ ".pub"))
    with "id_test.pub" in Hrun.
  exists fmt, w''. split; [exact Hfmt|exact Hrun].
Defined.

